(** * HiPIMS-OCL device kernels: a shallow embedding and its properties

    The per-step compute pipeline of the solver (OpenCL C kernels working on
    [cl_double] data) is embedded kernel by kernel, one work-item at a time.

    - Module [IEEE] reads [cl_double] as IEEE-754 binary64 (Rocq's primitive
      floats).  It holds the kernels: interface reconstruction, the HLLC
      solver, the Godunov and inertial schemes, friction, the boundary kernels
      and the timestep controller.  Everything in it computes, so a kernel can
      be run on concrete buffers.
    - Module [Exact] reads [cl_double] as a real number, an infinity or a NaN
      (rounding set aside).  It holds the timestep controller and the
      reduction of the wave speeds, for the statements that compare and select
      values ([fmax], [fmin], the counters) and so do not depend on rounding.

    Build-time macros that the device program receives from the host
    ([DOMAIN_COLS], [DOMAIN_DELTAX], [COURANT_NUMBER], ...) are section
    variables.  Integers are [Z] with the wrap-around of their C type written
    out where a kernel can reach it. *)

From Stdlib Require Import ZArith List Bool Lia Floats.
From Stdlib Require Import Reals Lra.
Import ListNotations.

Set Warnings "-inexact-float".

(** ** Global memory *)

(** A [__global] buffer, indexed by a [cl_ulong]. *)
Definition buffer (A : Type) : Type := Z -> A.

(** [p[i] = v] *)
Definition store {A : Type} (p : buffer A) (i : Z) (v : A) : buffer A :=
  fun j => if (j =? i)%Z then v else p j.

(** [cl_uint], [cl_ulong] arithmetic wraps. *)
Definition cl_uint_wrap (n : Z) : Z := (n mod 2 ^ 32)%Z.
Definition cl_ulong_wrap (n : Z) : Z := (n mod 2 ^ 64)%Z.

(** A C truth value used as an integer. *)
Definition int_of_bool (b : bool) : Z := if b then 1%Z else 0%Z.

(** Direction codes.  Modelled from the spec: the macros [DOMAIN_DIR_*] are
    defined outside the kernels' files; the flux array is indexed N, E, S, W
    ("Qn, Qe, Qs, Qw") and the reference level of the reconstruction is the left
    one for N and E ([ucDirection < DOMAIN_DIR_S]). *)
Definition DOMAIN_DIR_N : Z := 0.
Definition DOMAIN_DIR_E : Z := 1.
Definition DOMAIN_DIR_S : Z := 2.
Definition DOMAIN_DIR_W : Z := 3.

(** Boundary operating definitions (CLBoundaries.clh). *)
Definition BOUNDARY_DEPTH_IGNORE : Z := 0.
Definition BOUNDARY_DEPTH_IS_FSL : Z := 1.
Definition BOUNDARY_DEPTH_IS_DEPTH : Z := 2.
Definition BOUNDARY_DEPTH_IS_CRITICAL : Z := 3.
Definition BOUNDARY_DISCHARGE_IGNORE : Z := 0.
Definition BOUNDARY_DISCHARGE_IS_DISCHARGE : Z := 1.
Definition BOUNDARY_DISCHARGE_IS_VELOCITY : Z := 2.
Definition BOUNDARY_DISCHARGE_IS_VOLUME : Z := 3.
Definition BOUNDARY_UNIFORM_RAIN_INTENSITY : Z := 0.
Definition BOUNDARY_UNIFORM_LOSS_RATE : Z := 1.
Definition BOUNDARY_GRIDDED_RAIN_INTENSITY : Z := 0.
Definition BOUNDARY_GRIDDED_RAIN_ACCUMUL : Z := 1.
Definition BOUNDARY_GRIDDED_MASS_FLUX : Z := 2.

(** ** Binary64 reading of the kernels *)
Module IEEE.

Local Open Scope float_scope.

Definition cl_double : Type := float.

(** *** OpenCL built-ins that binary64 determines *)

(** [fmax]: the larger argument; a NaN argument yields the other one. *)
Definition fmax (a b : cl_double) : cl_double :=
  if is_nan a then b else if is_nan b then a else if a <? b then b else a.

Definition fmin (a b : cl_double) : cl_double :=
  if is_nan a then b else if is_nan b then a else if b <? a then b else a.

(** [max], [min] of the common functions: plain comparisons. *)
Definition max (a b : cl_double) : cl_double := if a <? b then b else a.
Definition min (a b : cl_double) : cl_double := if b <? a then b else a.

Definition fabs (a : cl_double) : cl_double := PrimFloat.abs a.

Definition sqrt (a : cl_double) : cl_double := PrimFloat.sqrt a.

(** [sign]: 1, -1, or the zero itself; 0 for a NaN. *)
Definition sign (a : cl_double) : cl_double :=
  if 0 <? a then 1 else if a <? 0 then -1 else if is_nan a then 0 else a.

(** [a >= b], [a > b] as C writes them. *)
Definition geb (a b : cl_double) : bool := b <=? a.
Definition gtb (a b : cl_double) : bool := b <? a.

(** [(cl_double)n] for an integer of magnitude below 2^63. *)
Definition double_of_Z (n : Z) : cl_double :=
  if (n <? 0)%Z then - of_uint63 (Uint63.of_Z (- n)) else of_uint63 (Uint63.of_Z n).

(** The integer part towards minus infinity of a finite double. *)
Definition floorZ (a : cl_double) : option Z :=
  match Prim2SF a with
  | S754_zero _ => Some 0%Z
  | S754_finite s m e =>
      let v := if s then Z.neg m else Z.pos m in
      Some (if (0 <=? e)%Z then v * 2 ^ e else Z.shiftr v (- e))%Z
  | _ => None
  end.

(** [floor]: exact; zeros, infinities and NaN are returned as they are. *)
Definition floor (a : cl_double) : cl_double :=
  match Prim2SF a with
  | S754_finite _ _ e =>
      if (e <? 0)%Z
      then match floorZ a with Some n => double_of_Z n | None => a end
      else a
  | _ => a
  end.

(** [(cl_ulong)a]: truncation; out of range the conversion saturates and a NaN
    gives 0 (C leaves these cases open). *)
Definition ulong_of_double (a : cl_double) : Z :=
  match Prim2SF a with
  | S754_zero _ | S754_nan => 0%Z
  | S754_infinity s => if s then 0%Z else (2 ^ 64 - 1)%Z
  | S754_finite s m e =>
      if s then 0%Z
      else Z.min (2 ^ 64 - 1)
             (if (0 <=? e)%Z then Z.pos m * 2 ^ e else Z.shiftr (Z.pos m) (- e))
  end.

(** [fmod]: the exact remainder with the sign of the dividend. *)
Definition fmod (a b : cl_double) : cl_double :=
  match Prim2SF a, Prim2SF b with
  | S754_finite sa ma ea, S754_finite _ mb eb =>
      let e := Z.min ea eb in
      let r := Z.rem (Z.pos ma * 2 ^ (ea - e)) (Z.pos mb * 2 ^ (eb - e)) in
      SF2Prim (binary_normalize prec emax (if sa then - r else r)%Z e sa)
  | S754_zero _, S754_finite _ _ _ => a
  | S754_finite _ _ _, S754_infinity _ => a
  | S754_zero _, S754_infinity _ => a
  | _, _ => nan
  end.

(** *** Constants of the universal header *)

Definition GRAVITY : cl_double := 9.80665.
Definition GRAVITY_R : cl_double := 0.10197162129779282426.
Definition GRAVITY2_R : cl_double := 0.05098581064889641213.
Definition PI : cl_double := 3.14159265359.

(** Modelled from the spec: [VERY_SMALL] is defined outside the kernels' files;
    the spec gives the value 1e-14. *)
Definition VERY_SMALL : cl_double := 1e-14.

Definition TIMESTEP_HYDROLOGICAL : cl_double := 0.25.

(** *** Vector types *)

Record cl_double4 : Type := mk4 { vx : cl_double; vy : cl_double; vz : cl_double; vw : cl_double }.

Record cl_double8 : Type := mk8 {
  S0 : cl_double; S1 : cl_double; S2 : cl_double; S3 : cl_double;
  S4 : cl_double; S5 : cl_double; S6 : cl_double; S7 : cl_double }.

Definition set_x (c : cl_double4) (v : cl_double) : cl_double4 := mk4 v (vy c) (vz c) (vw c).
Definition set_y (c : cl_double4) (v : cl_double) : cl_double4 := mk4 (vx c) v (vz c) (vw c).
Definition set_z (c : cl_double4) (v : cl_double) : cl_double4 := mk4 (vx c) (vy c) v (vw c).
Definition set_w (c : cl_double4) (v : cl_double) : cl_double4 := mk4 (vx c) (vy c) (vz c) v.

(** The "Cell disabled?" test of the kernels. *)
Definition cell_disabled (c : cl_double4) : bool :=
  (vy c <=? -9999.0) || (vx c =? -9999.0).

(** *** Interface reconstruction (Godunov scheme file) *)

(** The prescribed velocity of a side: zero when the side is dry. *)
Definition velocity (q h : cl_double) : cl_double :=
  if h <? VERY_SMALL then 0.0 else q / h.

(** Reconstruct the cell data in a non-negative way (depth positivity
    preserving).  Returns [ucStop] and the two output vectors
    (Z, H, Qx, Qy, U, V, Zb).  The three tests of a [switch] case are [stops]:
    the first one reads the unreconstructed discharge of the side named by the
    direction, the other two read and zero the velocity component along it
    ([S5] for N and S, [S4] for E and W). *)
Definition reconstructInterface
    (pStateLeft : cl_double4) (dBedLeft : cl_double)
    (pStateRight : cl_double4) (dBedRight : cl_double)
    (ucDirection : Z) : Z * cl_double8 * cl_double8 :=
  let dDepthL := vx pStateLeft - dBedLeft in
  let dDepthR := vx pStateRight - dBedRight in
  (* Initial values before reconstruction *)
  let uL := velocity (vz pStateLeft) dDepthL in
  let vL := velocity (vw pStateLeft) dDepthL in
  let uR := velocity (vz pStateRight) dDepthR in
  let vR := velocity (vw pStateRight) dDepthR in
  (* Maximum bed elevation and vertical shift factor *)
  let dBedMaximum := if gtb dBedLeft dBedRight then dBedLeft else dBedRight in
  let dShiftV :=
    dBedMaximum - vx (if (ucDirection <? DOMAIN_DIR_S)%Z then pStateLeft else pStateRight) in
  let dShiftV := fmax dShiftV 0.0 in
  (* Adjustment of depths and dependent elements *)
  let hL := fmax (vx pStateLeft - dBedMaximum) 0.0 in
  let zL := hL + dBedMaximum in
  let qxL := hL * uL in
  let qyL := hL * vL in
  let hR := fmax (vx pStateRight - dBedMaximum) 0.0 in
  let zR := hR + dBedMaximum in
  let qxR := hR * uR in
  let qyR := hR * vR in
  (* Prevent draining from a dry cell and the stopping conditions *)
  let stops (first : bool) (velL velR : cl_double) : Z * cl_double * cl_double :=
    let s1 := int_of_bool first in
    let c2 := (hR <=? VERY_SMALL) && (velL <? 0.0) in
    let velL := if c2 then 0.0 else velL in
    let c3 := (hL <=? VERY_SMALL) && gtb velR 0.0 in
    let velR := if c3 then 0.0 else velR in
    ((s1 + int_of_bool c2 + int_of_bool c3)%Z, velL, velR) in
  let '(ucStop, uL, vL, uR, vR) :=
    if (ucDirection =? DOMAIN_DIR_N)%Z then
      let '(n, a, b) := stops ((hL <=? VERY_SMALL) && gtb (vw pStateLeft) 0.0) vL vR in
      (n, uL, a, uR, b)
    else if (ucDirection =? DOMAIN_DIR_S)%Z then
      let '(n, a, b) := stops ((hR <=? VERY_SMALL) && (vw pStateRight <? 0.0)) vL vR in
      (n, uL, a, uR, b)
    else if (ucDirection =? DOMAIN_DIR_E)%Z then
      let '(n, a, b) := stops ((hL <=? VERY_SMALL) && gtb (vz pStateLeft) 0.0) uL uR in
      (n, a, vL, b, vR)
    else if (ucDirection =? DOMAIN_DIR_W)%Z then
      let '(n, a, b) := stops ((hR <=? VERY_SMALL) && (vz pStateRight <? 0.0)) uL uR in
      (n, a, vL, b, vR)
    else (0%Z, uL, vL, uR, vR) in
  (* Local modification of the bed level (and consequently, FSL to maintain depth) *)
  let pReconstructionLeft :=
    mk8 (zL - dShiftV) hL qxL qyL uL vL (dBedMaximum - dShiftV) 0.0 in
  let pReconstructionRight :=
    mk8 (zR - dShiftV) hR qxR qyR uR vR (dBedMaximum - dShiftV) 0.0 in
  (ucStop, pReconstructionLeft, pReconstructionRight).

(** *** HLLC approximate Riemann solver *)

(** Calculate an approximate solution to the Riemann problem at the cell
    interface using the HLLC approach. *)
Definition riemannSolver (ucDirection : Z) (pLeft pRight : cl_double8) : cl_double4 :=
  let '(d0, d1) :=
    if (ucDirection =? DOMAIN_DIR_N)%Z || (ucDirection =? DOMAIN_DIR_S)%Z
    then (0.0, 1.0) else (1.0, 0.0) in
  (* Are both sides dry? Simple solution if so... *)
  if (S1 pLeft <? VERY_SMALL) && (S1 pRight <? VERY_SMALL) then
    mk4 0.0
      (d0 * 0.5 * GRAVITY *
         (((S0 pLeft + S0 pRight) * 0.5) * ((S0 pLeft + S0 pRight) * 0.5)
          - S6 pLeft * (S0 pLeft + S0 pRight)))
      (d1 * 0.5 * GRAVITY *
         (((S0 pLeft + S0 pRight) * 0.5) * ((S0 pLeft + S0 pRight) * 0.5)
          - S6 pLeft * (S0 pLeft + S0 pRight)))
      0.0
  else
  (* Is one side dry? *)
  let uL := velocity (S2 pLeft) (S1 pLeft) in
  let vL := velocity (S3 pLeft) (S1 pLeft) in
  let uR := velocity (S2 pRight) (S1 pRight) in
  let vR := velocity (S3 pRight) (S1 pRight) in
  (* Prerequisite calculations *)
  let dVel0 := d0 * uL + d1 * vL in
  let dVel1 := d0 * uR + d1 * vR in
  let dDis0 := d0 * S2 pLeft + d1 * S3 pLeft in
  let dDis1 := d0 * S2 pRight + d1 * S3 pRight in
  let dA0 := sqrt (GRAVITY * S1 pLeft) in
  let dA1 := sqrt (GRAVITY * S1 pRight) in
  let a_Avg := (dA0 + dA1) * 0.5 in
  let H_star :=
    ((a_Avg + (dVel0 - dVel1) * 0.25) * (a_Avg + (dVel0 - dVel1) * 0.25)) * GRAVITY_R in
  let U_star := (dVel0 + dVel1) * 0.5 + dA0 - dA1 in
  let A_star := sqrt (GRAVITY * H_star) in
  (* Calculate speed estimates *)
  let s_L :=
    if S1 pLeft <? VERY_SMALL then dVel1 - 2.0 * dA1
    else if gtb (dVel0 - dA0) (U_star - A_star) then U_star - A_star else dVel0 - dA0 in
  let s_R :=
    if S1 pRight <? VERY_SMALL then dVel0 + 2.0 * dA0
    else if (dVel1 + dA1) <? (U_star + A_star) then U_star + A_star else dVel1 + dA1 in
  let s_M :=
    (s_L * S1 pRight * (dVel1 - s_R) - s_R * S1 pLeft * (dVel0 - s_L))
    / (S1 pRight * (dVel1 - s_R) - S1 pLeft * (dVel0 - s_L)) in
  (* Flux on left and right *)
  let pFluxL :=
    mk4 dDis0
      (dVel0 * S2 pLeft + d0 * 0.5 * GRAVITY * (S0 pLeft * S0 pLeft - 2.0 * S6 pLeft * S0 pLeft))
      (dVel0 * S3 pLeft + d1 * 0.5 * GRAVITY * (S0 pLeft * S0 pLeft - 2.0 * S6 pLeft * S0 pLeft))
      0.0 in
  let pFluxR :=
    mk4 dDis1
      (dVel1 * S2 pRight + d0 * 0.5 * GRAVITY * (S0 pRight * S0 pRight - 2.0 * S6 pLeft * S0 pRight))
      (dVel1 * S3 pRight + d1 * 0.5 * GRAVITY * (S0 pRight * S0 pRight - 2.0 * S6 pLeft * S0 pRight))
      0.0 in
  (* Selection of the final result *)
  let bLeft := geb s_L 0.0 in
  let bMiddle_1 := (s_L <? 0.0) && geb s_R 0.0 && geb s_M 0.0 in
  let bMiddle_2 := (s_L <? 0.0) && geb s_R 0.0 && negb bMiddle_1 in
  let bRight := negb bLeft && negb bMiddle_1 && negb bMiddle_2 in
  if bLeft then pFluxL
  else if bRight then pFluxR
  else
    let FM_L := d0 * vy pFluxL + d1 * vz pFluxL in
    let FM_R := d0 * vy pFluxR + d1 * vz pFluxR in
    let F1_M :=
      (s_R * vx pFluxL - s_L * vx pFluxR + s_L * s_R * (S0 pRight - S0 pLeft)) / (s_R - s_L) in
    let F2_M :=
      (s_R * FM_L - s_L * FM_R + s_L * s_R * (dDis1 - dDis0)) / (s_R - s_L) in
    if bMiddle_1 then
      mk4 F1_M (d0 * F2_M + d1 * F1_M * uL) (d0 * F1_M * vL + d1 * F2_M) 0.0
    else
      mk4 F1_M (d0 * F2_M + d1 * F1_M * uR) (d0 * F1_M * vR + d1 * F2_M) 0.0.

(** *** The device's math library and the build of the device program *)

(** The transcendental built-ins.  Binary64 does not determine their values
    (OpenCL bounds their error in ulps), so a kernel that calls them takes the
    device's math library as an argument. *)
Record libm : Type := {
  lm_pow : cl_double -> cl_double -> cl_double;
  lm_pown : cl_double -> Z -> cl_double;
  lm_log10 : cl_double -> cl_double;
  lm_acos : cl_double -> cl_double;
  lm_sin : cl_double -> cl_double }.

(** The macros the host defines when it builds the device program. *)
Record build : Type := {
  DOMAIN_COLS : Z;
  DOMAIN_ROWS : Z;
  DOMAIN_DELTAX : cl_double;
  DOMAIN_DELTAY : cl_double;
  DOMAIN_DELTAX_R : cl_double;
  DOMAIN_DELTAY_R : cl_double;
  FROUDE_LIMIT : cl_double;
  (* FRICTION_ENABLED and FRICTION_IN_FLUX_KERNEL both defined *)
  FRICTION_IN_FLUX_KERNEL : bool }.

Section Kernels.

Variable M : libm.
Variable B : build.

(** Modelled from the spec: [getCellID] is defined outside the kernels' files;
    the cell at column [i], row [j] has linear index [j * C + i]. *)
Definition getCellID (lIdxX lIdxY : Z) : Z :=
  cl_ulong_wrap (lIdxY * DOMAIN_COLS B + lIdxX).

(** Modelled from the spec: [getNeighbourByIndices] is defined outside the
    kernels' files; the neighbour in a direction is the adjacent cell (north is
    the next row, east the next column), clamped to the domain. *)
Definition getNeighbourByIndices (lIdxX lIdxY : Z) (ucDirection : Z) : Z :=
  if (ucDirection =? DOMAIN_DIR_N)%Z then
    getCellID lIdxX (Z.min (lIdxY + 1) (DOMAIN_ROWS B - 1))
  else if (ucDirection =? DOMAIN_DIR_E)%Z then
    getCellID (Z.min (lIdxX + 1) (DOMAIN_COLS B - 1)) lIdxY
  else if (ucDirection =? DOMAIN_DIR_S)%Z then
    getCellID lIdxX (Z.max (lIdxY - 1) 0)
  else
    getCellID (Z.max (lIdxX - 1) 0) lIdxY.

(** "Don't bother if we've gone beyond the domain bounds" *)
Definition outside_domain (lIdxX lIdxY : Z) : bool :=
  ((lIdxX >=? DOMAIN_COLS B - 1) || (lIdxY >=? DOMAIN_ROWS B - 1)
   || (lIdxX <=? 0) || (lIdxY <=? 0))%Z.

(** *** Point-implicit friction *)

(** Point-implicit calculation of the friction effects. *)
Definition implicitFriction
    (pCellState : cl_double4) (dBedElevation dDepth dManningCoefficient dLclTimestep : cl_double)
    : cl_double4 :=
  (* Calculate depth and composite discharge *)
  let dQ := sqrt (vz pCellState * vz pCellState + vw pCellState * vw pCellState) in
  let dQi := 1.0 / dQ in
  (* Low discharge: don't bother *)
  if dQ <? VERY_SMALL then pCellState else
  let sDepthR := 1.0 / (dDepth * dDepth) in
  (* Coefficient of friction, etc. See Liang (2010) *)
  let dCf := (GRAVITY * dManningCoefficient * dManningCoefficient) / lm_pow M dDepth (1.0 / 3.0) in
  let dSfx := (- dCf * sDepthR) * vz pCellState * dQ in
  let dSfy := (- dCf * sDepthR) * vw pCellState * dQ in
  let dDx := 1.0 + dLclTimestep * (dCf * sDepthR)
                   * (2.0 * (vz pCellState * vz pCellState) + (vw pCellState * vw pCellState)) * dQi in
  let dDy := 1.0 + dLclTimestep * (dCf * sDepthR)
                   * ((vz pCellState * vz pCellState) + 2.0 * (vw pCellState * vw pCellState)) * dQi in
  let dFx := dSfx / dDx in
  let dFy := dSfy / dDy in
  let dLclTimestepR := 1.0 / dLclTimestep in
  (* Friction can only stop flow, not reverse it *)
  let dFx :=
    if geb (vz pCellState) 0.0 then fmax dFx (- vz pCellState * dLclTimestepR)
    else fmin dFx (- vz pCellState * dLclTimestepR) in
  let dFy :=
    if geb (vw pCellState) 0.0 then fmax dFy (- vw pCellState * dLclTimestepR)
    else fmin dFy (- vw pCellState * dLclTimestepR) in
  (* Update and commit data *)
  mk4 (vx pCellState) (vy pCellState)
      (vz pCellState + dLclTimestep * dFx) (vw pCellState + dLclTimestep * dFy).

(** Adjust the discharge with regard to friction: work-item [(lIdxX, lIdxY)],
    in place on [pCellData]. *)
Definition per_Friction
    (lIdxX lIdxY : Z) (dTimestep : cl_double)
    (pCellData : buffer cl_double4) (dBedData dManningData : buffer cl_double)
    : buffer cl_double4 :=
  let dLclTimestep := dTimestep in
  (* Don't bother if we've gone beyond the domain bounds *)
  if ((lIdxX >=? DOMAIN_COLS B - 1) || (lIdxY >=? DOMAIN_ROWS B - 1)
      || (lIdxX =? 0) || (lIdxY =? 0))%Z then pCellData else
  (* Also don't bother if we've gone beyond the total simulation time *)
  if dLclTimestep <=? 0.0 then pCellData else
  let ulIdx := getCellID lIdxX lIdxY in
  let pCellState := pCellData ulIdx in
  let dBedElevation := dBedData ulIdx in
  let dDepth := vx pCellState - dBedElevation in
  (* Low depth: don't bother *)
  if dDepth <? VERY_SMALL then pCellData else
  let dManningCoefficient := dManningData ulIdx in
  store pCellData ulIdx
    (implicitFriction pCellState dBedElevation dDepth dManningCoefficient dLclTimestep).

(** *** Godunov-type scheme *)

(** A cell is dry when its depth is below [VERY_SMALL]. *)
Definition dry (pCellData : cl_double4) (dCellBedElev : cl_double) : bool :=
  vx pCellData - dCellBedElev <? VERY_SMALL.

(** "if ( ... < VERY_SMALL ) ucDryCount++" over the cell and its neighbours. *)
Definition dry_count (cells : list (cl_double4 * cl_double)) : Z :=
  fold_left (fun n cb => (n + int_of_bool (dry (fst cb) (snd cb)))%Z) cells 0%Z.

(** Calculate everything without using LDS caching: work-item
    [(lIdxX, lIdxY)]; the result is the destination buffer after it ran. *)
Definition gts_cacheDisabled
    (lIdxX lIdxY : Z) (dTimestep : cl_double)
    (dBedElevation : buffer cl_double)
    (pCellStateSrc pCellStateDst : buffer cl_double4)
    (dManning : buffer cl_double) : buffer cl_double4 :=
  let ulIdx := getCellID lIdxX lIdxY in
  (* Don't bother if we've gone beyond the domain bounds *)
  if outside_domain lIdxX lIdxY then pCellStateDst else
  let dLclTimestep := dTimestep in
  (* Also don't bother if we've gone beyond the total simulation time *)
  if dLclTimestep <=? 0.0 then store pCellStateDst ulIdx (pCellStateSrc ulIdx) else
  (* Load cell data *)
  let dCellBedElev := dBedElevation ulIdx in
  let pCellData := pCellStateSrc ulIdx in
  let dManningCoef := dManning ulIdx in
  (* Cell disabled? *)
  if cell_disabled pCellData then store pCellStateDst ulIdx pCellData else
  let ulIdxNeig := getNeighbourByIndices lIdxX lIdxY DOMAIN_DIR_W in
  let dNeigBedElevW := dBedElevation ulIdxNeig in
  let pNeigDataW := pCellStateSrc ulIdxNeig in
  let ulIdxNeig := getNeighbourByIndices lIdxX lIdxY DOMAIN_DIR_S in
  let dNeigBedElevS := dBedElevation ulIdxNeig in
  let pNeigDataS := pCellStateSrc ulIdxNeig in
  let ulIdxNeig := getNeighbourByIndices lIdxX lIdxY DOMAIN_DIR_N in
  let dNeigBedElevN := dBedElevation ulIdxNeig in
  let pNeigDataN := pCellStateSrc ulIdxNeig in
  let ulIdxNeig := getNeighbourByIndices lIdxX lIdxY DOMAIN_DIR_E in
  let dNeigBedElevE := dBedElevation ulIdxNeig in
  let pNeigDataE := pCellStateSrc ulIdxNeig in
  let ucDryCount :=
    dry_count [(pCellData, dCellBedElev); (pNeigDataN, dNeigBedElevN);
               (pNeigDataE, dNeigBedElevE); (pNeigDataS, dNeigBedElevS);
               (pNeigDataW, dNeigBedElevW)] in
  (* All neighbours are dry? Don't bother calculating *)
  if (ucDryCount >=? 5)%Z then pCellStateDst else
  (* Reconstruct interfaces *)
  (* -> North *)
  let '(ucStopN, pLeft, pRight) :=
    reconstructInterface pCellData dCellBedElev pNeigDataN dNeigBedElevN DOMAIN_DIR_N in
  let pNeigDataN := set_x pNeigDataN (S0 pRight) in
  let dNeigBedElevN := S6 pRight in
  let pFluxN := riemannSolver DOMAIN_DIR_N pLeft pRight in
  (* -> South *)
  let '(ucStopS, pLeft, pRight) :=
    reconstructInterface pNeigDataS dNeigBedElevS pCellData dCellBedElev DOMAIN_DIR_S in
  let pNeigDataS := set_x pNeigDataS (S0 pLeft) in
  let dNeigBedElevS := S6 pLeft in
  let pFluxS := riemannSolver DOMAIN_DIR_S pLeft pRight in
  (* -> East *)
  let '(ucStopE, pLeft, pRight) :=
    reconstructInterface pCellData dCellBedElev pNeigDataE dNeigBedElevE DOMAIN_DIR_E in
  let pNeigDataE := set_x pNeigDataE (S0 pRight) in
  let dNeigBedElevE := S6 pRight in
  let pFluxE := riemannSolver DOMAIN_DIR_E pLeft pRight in
  (* -> West *)
  let '(ucStopW, pLeft, pRight) :=
    reconstructInterface pNeigDataW dNeigBedElevW pCellData dCellBedElev DOMAIN_DIR_W in
  let pNeigDataW := set_x pNeigDataW (S0 pLeft) in
  let dNeigBedElevW := S6 pLeft in
  let pFluxW := riemannSolver DOMAIN_DIR_W pLeft pRight in
  let ucStop := (ucStopN + ucStopS + ucStopE + ucStopW)%Z in
  (* Source term vector *)
  let pSourceTerms_x := 0.0 in
  let pSourceTerms_y :=
    -1.0 * GRAVITY * ((vx pNeigDataE + vx pNeigDataW) * 0.5)
    * ((dNeigBedElevE - dNeigBedElevW) * DOMAIN_DELTAX_R B) in
  let pSourceTerms_z :=
    -1.0 * GRAVITY * ((vx pNeigDataN + vx pNeigDataS) * 0.5)
    * ((dNeigBedElevN - dNeigBedElevS) * DOMAIN_DELTAY_R B) in
  (* Calculation of change values per timestep and spatial dimension *)
  let dDeltaValues_x :=
    (vx pFluxE - vx pFluxW) * DOMAIN_DELTAX_R B + (vx pFluxN - vx pFluxS) * DOMAIN_DELTAY_R B
    - pSourceTerms_x in
  let dDeltaValues_z :=
    (vy pFluxE - vy pFluxW) * DOMAIN_DELTAX_R B + (vy pFluxN - vy pFluxS) * DOMAIN_DELTAY_R B
    - pSourceTerms_y in
  let dDeltaValues_w :=
    (vz pFluxE - vz pFluxW) * DOMAIN_DELTAX_R B + (vz pFluxN - vz pFluxS) * DOMAIN_DELTAY_R B
    - pSourceTerms_z in
  (* Round delta values to zero if small *)
  let dDeltaValues_x := if fabs dDeltaValues_x <? VERY_SMALL then 0.0 else dDeltaValues_x in
  let dDeltaValues_z := if fabs dDeltaValues_z <? VERY_SMALL then 0.0 else dDeltaValues_z in
  let dDeltaValues_w := if fabs dDeltaValues_w <? VERY_SMALL then 0.0 else dDeltaValues_w in
  (* Stopping conditions *)
  let pCellData :=
    if (ucStop >? 0)%Z then mk4 (vx pCellData) (vy pCellData) 0.0 0.0 else pCellData in
  (* Update the flow state *)
  let pCellData :=
    mk4 (vx pCellData - dDeltaValues_x * dLclTimestep) (vy pCellData)
        (vz pCellData - dDeltaValues_z * dLclTimestep)
        (vw pCellData - dDeltaValues_w * dLclTimestep) in
  let dDepth := vx pCellData - dCellBedElev in
  (* Calculate the friction effects *)
  let pCellData :=
    if FRICTION_IN_FLUX_KERNEL B && geb dDepth VERY_SMALL
    then implicitFriction pCellData dCellBedElev dDepth dManningCoef dLclTimestep
    else pCellData in
  (* Crazy low depths? *)
  let pCellData := if dDepth <? VERY_SMALL then set_x pCellData dCellBedElev else pCellData in
  (* New max FSL? *)
  let pCellData :=
    if gtb (vx pCellData) (vy pCellData) && gtb (vy pCellData) (-9990.0)
    then set_y pCellData (vx pCellData) else pCellData in
  (* Commit to global memory *)
  store pCellStateDst ulIdx pCellData.

(** *** Simplified inertial scheme *)

(** Calculate the flux using an inertial approximation in terms of volumetric
    discharge per unit width. *)
Definition calculateInertialFlux
    (dManningCoef dTimestep dPreviousDischarge
     dLevelUpstream dBedUpstream dLevelDownstream dBedDownstream : cl_double) : cl_double :=
  let dDepth := fmax dLevelDownstream dLevelUpstream - max dBedUpstream dBedDownstream in
  let dSlope := (dLevelDownstream - dLevelUpstream) * DOMAIN_DELTAX_R B in
  (* Inertial *)
  let dDischarge :=
    (dPreviousDischarge - (GRAVITY * dDepth * dTimestep * dSlope))
    / (1.0 + GRAVITY * dDepth * dTimestep * dManningCoef * dManningCoef * fabs dPreviousDischarge
             / lm_pow M dDepth (10.0 / 3.0)) in
  (* Froude number discharge limiter *)
  let dDischarge :=
    if gtb dDischarge 0.0
       && gtb ((fabs dDischarge / dDepth) / sqrt (GRAVITY * dDepth)) (FROUDE_LIMIT B)
    then dDepth * sqrt (GRAVITY * dDepth) * FROUDE_LIMIT B else dDischarge in
  let dDischarge :=
    if (dDischarge <? 0.0)
       && gtb ((fabs dDischarge / dDepth) / sqrt (GRAVITY * dDepth)) (FROUDE_LIMIT B)
    then 0.0 - dDepth * sqrt (GRAVITY * dDepth) * FROUDE_LIMIT B else dDischarge in
  if dDepth <? VERY_SMALL then 0.0 else dDischarge.

(** Calculate everything without using LDS caching: work-item
    [(lIdxX, lIdxY)]; the result is the destination buffer after it ran. *)
Definition ine_cacheDisabled
    (lIdxX lIdxY : Z) (dTimestep : cl_double)
    (dBedElevation : buffer cl_double)
    (pCellStateSrc pCellStateDst : buffer cl_double4)
    (dManning : buffer cl_double) : buffer cl_double4 :=
  let ulIdx := getCellID lIdxX lIdxY in
  (* Don't bother if we've gone beyond the domain bounds *)
  if outside_domain lIdxX lIdxY then pCellStateDst else
  let dLclTimestep := dTimestep in
  (* Also don't bother if we've gone beyond the total simulation time *)
  if dLclTimestep <=? 0.0 then pCellStateDst else
  (* Load cell data *)
  let dCellBedElev := dBedElevation ulIdx in
  let pCellData := pCellStateSrc ulIdx in
  let dManningCoef := dManning ulIdx in
  (* Cell disabled? *)
  if cell_disabled pCellData then store pCellStateDst ulIdx pCellData else
  let ulIdxNeig := getNeighbourByIndices lIdxX lIdxY DOMAIN_DIR_W in
  let dNeigBedElevW := dBedElevation ulIdxNeig in
  let pNeigDataW := pCellStateSrc ulIdxNeig in
  let ulIdxNeig := getNeighbourByIndices lIdxX lIdxY DOMAIN_DIR_S in
  let dNeigBedElevS := dBedElevation ulIdxNeig in
  let pNeigDataS := pCellStateSrc ulIdxNeig in
  let ulIdxNeig := getNeighbourByIndices lIdxX lIdxY DOMAIN_DIR_N in
  let dNeigBedElevN := dBedElevation ulIdxNeig in
  let pNeigDataN := pCellStateSrc ulIdxNeig in
  let ulIdxNeig := getNeighbourByIndices lIdxX lIdxY DOMAIN_DIR_E in
  let dNeigBedElevE := dBedElevation ulIdxNeig in
  let pNeigDataE := pCellStateSrc ulIdxNeig in
  let ucDryCount :=
    dry_count [(pCellData, dCellBedElev); (pNeigDataN, dNeigBedElevN);
               (pNeigDataE, dNeigBedElevE); (pNeigDataS, dNeigBedElevS);
               (pNeigDataW, dNeigBedElevW)] in
  (* All neighbours are dry? Don't bother calculating *)
  if (ucDryCount >=? 5)%Z then pCellStateDst else
  (* Calculate fluxes *)
  let dDischargeN :=
    calculateInertialFlux dManningCoef dLclTimestep (vw pNeigDataN)
      (vx pNeigDataN) dNeigBedElevN (vx pCellData) dCellBedElev in
  let dDischargeE :=
    calculateInertialFlux dManningCoef dLclTimestep (vz pNeigDataE)
      (vx pNeigDataE) dNeigBedElevE (vx pCellData) dCellBedElev in
  let dDischargeS :=
    calculateInertialFlux dManningCoef dLclTimestep (vw pCellData)
      (vx pCellData) dCellBedElev (vx pNeigDataS) dNeigBedElevS in
  let dDischargeW :=
    calculateInertialFlux dManningCoef dLclTimestep (vz pCellData)
      (vx pCellData) dCellBedElev (vx pNeigDataW) dNeigBedElevW in
  let pCellData := mk4 (vx pCellData) (vy pCellData) dDischargeW dDischargeS in
  (* Calculation of change values per timestep and spatial dimension *)
  let dDeltaFSL :=
    (dDischargeE - dDischargeW + dDischargeN - dDischargeS) * DOMAIN_DELTAY_R B in
  (* Update the flow state *)
  let pCellData := set_x pCellData (vx pCellData + dLclTimestep * dDeltaFSL) in
  (* New max FSL? *)
  let pCellData :=
    if gtb (vx pCellData) (vy pCellData) then set_y pCellData (vx pCellData) else pCellData in
  (* Crazy low depths? *)
  let pCellData :=
    if vx pCellData - dCellBedElev <? VERY_SMALL then set_x pCellData dCellBedElev else pCellData in
  (* Commit to global memory *)
  store pCellStateDst ulIdx pCellData.

(** *** Boundary conditions *)

(** [p[i]] in a read-only payload buffer of known length; [None] is a read
    outside the buffer. *)
Definition read {A : Type} (p : list A) (i : Z) : option A :=
  if (i <? 0)%Z then None else nth_error p (Z.to_nat i).

Record sBdyCellConfiguration : Type := {
  bc_TimeseriesEntries : Z;
  bc_TimeseriesInterval : cl_double;
  bc_TimeseriesLength : cl_double;
  bc_RelationCount : Z;
  bc_DefinitionDepth : Z;
  bc_DefinitionDischarge : Z }.

Record sBdyGriddedConfiguration : Type := {
  bg_TimeseriesInterval : cl_double;
  bg_GridResolution : cl_double;
  bg_GridOffsetX : cl_double;
  bg_GridOffsetY : cl_double;
  bg_TimeseriesEntries : Z;
  bg_Definition : Z;
  bg_GridRows : Z;
  bg_GridCols : Z }.

Record sBdyUniformConfiguration : Type := {
  bu_TimeseriesEntries : Z;
  bu_TimeseriesInterval : cl_double;
  bu_TimeseriesLength : cl_double;
  bu_Definition : Z }.

Record sBndySPipeConfiguration : Type := {
  sp_uiStartCellX : Z;
  sp_uiStartCellY : Z;
  sp_uiEndCellX : Z;
  sp_uiEndCellY : Z;
  sp_length : cl_double;
  sp_roughness : cl_double;
  sp_lossCoefficients : cl_double;
  sp_diameter : cl_double;
  sp_invertStart : cl_double;
  sp_invertEnd : cl_double }.

(** Cell time series: work-item [lRelationID].  [None] is a read outside
    [pTimeseries]. *)
Definition bdy_Cell
    (lRelationID : Z) (pConfig : sBdyCellConfiguration)
    (pRelations : buffer Z) (pTimeseries : list cl_double4)
    (pTime pTimestep pTimeHydrological : cl_double)
    (pCellState : buffer cl_double4) (pCellBed pCellManning : buffer cl_double)
    : option (buffer cl_double4) :=
  let dLocalTime := pTime in
  let dLocalTimestep := pTimestep in
  if (lRelationID >=? bc_RelationCount pConfig)%Z
     || geb dLocalTime (bc_TimeseriesLength pConfig)
     || (dLocalTimestep <=? 0.0)
  then Some pCellState else
  let ulBaseTimestep := ulong_of_double (floor (dLocalTime / bc_TimeseriesInterval pConfig)) in
  let ulNextTimestep := cl_ulong_wrap (ulBaseTimestep + 1) in
  let ulCellID := pRelations lRelationID in
  let pCellData := pCellState ulCellID in
  let dCellBed := pCellBed ulCellID in
  match read pTimeseries ulBaseTimestep, read pTimeseries ulNextTimestep with
  | Some pTSBase, Some pTSNext =>
    (* Interpolate between timesteps *)
    let f := fmod dLocalTime (bc_TimeseriesInterval pConfig) / bc_TimeseriesInterval pConfig in
    let pTSInterp :=
      mk4 (vx pTSBase + (vx pTSNext - vx pTSBase) * f)
          (vy pTSBase + (vy pTSNext - vy pTSBase) * f)
          (vz pTSBase + (vz pTSNext - vz pTSBase) * f)
          (vw pTSBase + (vw pTSNext - vw pTSBase) * f) in
    (* Apply depth/fsl *)
    let '(pCellData, pTSInterp) :=
      if (bc_DefinitionDepth pConfig =? BOUNDARY_DEPTH_IS_DEPTH)%Z then
        (* Depth is fixed *)
        (set_x pCellData (dCellBed + vy pTSInterp), pTSInterp)
      else if (bc_DefinitionDepth pConfig =? BOUNDARY_DEPTH_IS_FSL)%Z then
        (* FSL is fixed *)
        (set_x pCellData (fmax dCellBed (vy pTSInterp)), pTSInterp)
      else if gtb (fabs (vz pTSInterp)) VERY_SMALL
              || gtb (fabs (vw pTSInterp)) VERY_SMALL
              || (bc_DefinitionDischarge pConfig =? BOUNDARY_DISCHARGE_IS_VOLUME)%Z then
        (* Calculate a suitable depth based *)
        let dDepth :=
          (fabs (vz pTSInterp) * dLocalTimestep) * DOMAIN_DELTAY_R B
          + (fabs (vw pTSInterp) * dLocalTimestep) * DOMAIN_DELTAX_R B in
        let dCriticalDepth :=
          fmax (lm_pow M (lm_pown M (vz pTSInterp) 2 * GRAVITY_R) (1.0 / 3.0))
               (lm_pow M (lm_pown M (vw pTSInterp) 2 * GRAVITY_R) (1.0 / 3.0)) in
        (* Not going to impose a direction if we're trying to represent
           a surging discharge rate (e.g. manhole surge) *)
        let '(dDepth, dCriticalDepth, pTSInterp) :=
          if (bc_DefinitionDischarge pConfig =? BOUNDARY_DISCHARGE_IS_VOLUME)%Z then
            (* In the case of volume boundaries, no scaling has taken place *)
            ((if vz pTSInterp <? 0.0
              then - (fabs (vz pTSInterp) * dLocalTimestep) / (DOMAIN_DELTAX B * DOMAIN_DELTAY B)
              else (fabs (vz pTSInterp) * dLocalTimestep) / (DOMAIN_DELTAX B * DOMAIN_DELTAY B)),
             0.0, mk4 (vx pTSInterp) (vy pTSInterp) 0.0 0.0)
          else (dDepth, dCriticalDepth, pTSInterp) in
        (set_x pCellData (fmax (dCellBed + dCriticalDepth) (vx pCellData + dDepth)), pTSInterp)
      else (pCellData, pTSInterp) in
    let pCellData :=
      if (bc_DefinitionDischarge pConfig =? BOUNDARY_DISCHARGE_IS_DISCHARGE)%Z then
        (* Apply flow in X direction *)
        set_z pCellData (vz pTSInterp)
      else if (bc_DefinitionDischarge pConfig =? BOUNDARY_DISCHARGE_IS_VELOCITY)%Z then
        (* Apply velocity in X direction *)
        set_z pCellData (vz pTSInterp * (vx pCellData - dCellBed))
      else pCellData in
    let pCellData :=
      if (bc_DefinitionDischarge pConfig =? BOUNDARY_DISCHARGE_IS_DISCHARGE)%Z then
        (* Apply flow in Y direction *)
        set_w pCellData (vw pTSInterp)
      else if (bc_DefinitionDischarge pConfig =? BOUNDARY_DISCHARGE_IS_VELOCITY)%Z then
        set_w pCellData (vw pTSInterp * (vx pCellData - dCellBed))
      else pCellData in
    Some (store pCellState ulCellID pCellData)
  | _, _ => None
  end.

(** Uniform rainfall or loss: work-item [(lIdxX, lIdxY)]. *)
Definition bdy_Uniform
    (lIdxX lIdxY : Z) (pConfig : sBdyUniformConfiguration)
    (pTimeseries : list (cl_double * cl_double))
    (pTime pTimestep pTimeHydrological : cl_double)
    (pCellState : buffer cl_double4) (pCellBed pCellManning : buffer cl_double)
    : option (buffer cl_double4) :=
  (* Don't bother if we've gone beyond the domain bounds *)
  if outside_domain lIdxX lIdxY then Some pCellState else
  let ulIdx := getCellID lIdxX lIdxY in
  (* How far in to the simulation are we? And current cell data *)
  let pCellData := pCellState ulIdx in
  let dCellBedElev := pCellBed ulIdx in
  let dLclTime := pTime in
  let dLclRealTimestep := pTimestep in
  let dLclTimestep := pTimeHydrological in
  (* Hydrological processes have their own timesteps *)
  if (dLclTimestep <? TIMESTEP_HYDROLOGICAL) || (dLclRealTimestep <=? 0.0)
  then Some pCellState else
  if geb dLclTime (bu_TimeseriesLength pConfig) || (vy pCellData <=? -9999.0)
  then Some pCellState else
  (* Calculate the right cell and stuff to be grabbing data from here... *)
  let ulTimestep := ulong_of_double (floor (dLclTime / bu_TimeseriesInterval pConfig)) in
  match read pTimeseries ulTimestep with
  | Some dRecord =>
    (* Apply the value... *)
    let pCellData :=
      if (bu_Definition pConfig =? BOUNDARY_UNIFORM_RAIN_INTENSITY)%Z
      then set_x pCellData (vx pCellData + snd dRecord / 3600000.0 * dLclTimestep)
      else pCellData in
    let pCellData :=
      if (bu_Definition pConfig =? BOUNDARY_UNIFORM_LOSS_RATE)%Z
      then set_x pCellData
             (max dCellBedElev (vx pCellData - snd dRecord / 3600000.0 * dLclTimestep))
      else pCellData in
    (* Return to global memory *)
    Some (store pCellState ulIdx pCellData)
  | None => None
  end.

(** The index into the resident gridded time series that work-item
    [(lIdxX, lIdxY)] computes at time [dLclTime]. *)
Definition gridded_index
    (lIdxX lIdxY : Z) (pConfig : sBdyGriddedConfiguration) (dLclTime : cl_double) : Z :=
  let ulTimestep := ulong_of_double (floor (dLclTime / bg_TimeseriesInterval pConfig)) in
  let ulTimestep :=
    if (ulTimestep >=? bg_TimeseriesEntries pConfig)%Z
    then bg_TimeseriesEntries pConfig else ulTimestep in
  let ulColumn :=
    floor (((double_of_Z lIdxX * DOMAIN_DELTAX B) - bg_GridOffsetX pConfig)
           / bg_GridResolution pConfig) in
  let ulRow :=
    floor (((double_of_Z lIdxY * DOMAIN_DELTAY B) - bg_GridOffsetY pConfig)
           / bg_GridResolution pConfig) in
  cl_ulong_wrap
    (cl_ulong_wrap (cl_ulong_wrap (bg_GridRows pConfig * bg_GridCols pConfig) * ulTimestep)
     + cl_ulong_wrap (bg_GridCols pConfig * ulong_of_double ulRow)
     + ulong_of_double ulColumn).

(** Gridded rainfall or mass flux, whole time series resident: work-item
    [(lIdxX, lIdxY)].  [None] is a read outside [pTimeseries]. *)
Definition bdy_Gridded
    (lIdxX lIdxY : Z) (pConfig : sBdyGriddedConfiguration)
    (pTimeseries : list cl_double)
    (pTime pTimestep pTimeHydrological : cl_double)
    (pCellState : buffer cl_double4) (pCellBed pCellManning : buffer cl_double)
    : option (buffer cl_double4) :=
  (* Don't bother if we've gone beyond the domain bounds *)
  if outside_domain lIdxX lIdxY then Some pCellState else
  let ulIdx := getCellID lIdxX lIdxY in
  (* How far in to the simulation are we? And current cell data *)
  let pCellData := pCellState ulIdx in
  let dCellBedElev := pCellBed ulIdx in
  let dLclTime := pTime in
  let dLclTimestep := pTimeHydrological in
  (* Cell disabled? *)
  if cell_disabled pCellData then Some pCellState else
  (* Hydrological processes have their own timesteps *)
  if dLclTimestep <? TIMESTEP_HYDROLOGICAL then Some pCellState else
  (* Calculate the right cell and stuff to be grabbing data from here... *)
  let ulBdyCell := gridded_index lIdxX lIdxY pConfig dLclTime in
  match read pTimeseries ulBdyCell with
  | Some dRate =>
    (* Apply the value... *)
    let pCellData :=
      if (bg_Definition pConfig =? BOUNDARY_GRIDDED_RAIN_INTENSITY)%Z
      then set_x pCellData (vx pCellData + dRate / 3600000.0 * dLclTimestep)
      else pCellData in
    let pCellData :=
      if (bg_Definition pConfig =? BOUNDARY_GRIDDED_MASS_FLUX)%Z
      then set_x pCellData
             (vx pCellData + dRate / (DOMAIN_DELTAX B * DOMAIN_DELTAY B) * dLclTimestep)
      else pCellData in
    (* Return to global memory *)
    Some (store pCellState ulIdx pCellData)
  | None => None
  end.

(** Gridded rainfall or mass flux, one grid streamed by the host: work-item
    [(lIdxX, lIdxY)].  [None] is a read outside [pValues]. *)
Definition bdy_StreamingGridded
    (lIdxX lIdxY : Z) (pConfig : sBdyGriddedConfiguration)
    (pValues : list cl_double)
    (pTime pTimestep pTimeHydrological : cl_double)
    (pCellState : buffer cl_double4) (pCellBed pCellManning : buffer cl_double)
    : option (buffer cl_double4) :=
  if outside_domain lIdxX lIdxY then Some pCellState else
  let ulIdx := getCellID lIdxX lIdxY in
  let pCellData := pCellState ulIdx in
  let dCellBedElev := pCellBed ulIdx in
  let dLclTime := pTime in
  let dLclTimestep := pTimeHydrological in
  (* Cell disabled? *)
  if cell_disabled pCellData then Some pCellState else
  (* Hydrological processes have their own timesteps *)
  if dLclTimestep <? TIMESTEP_HYDROLOGICAL then Some pCellState else
  let ulColumn :=
    floor (((double_of_Z lIdxX * DOMAIN_DELTAX B) - bg_GridOffsetX pConfig)
           / bg_GridResolution pConfig) in
  let ulRow :=
    floor (((double_of_Z lIdxY * DOMAIN_DELTAY B) - bg_GridOffsetY pConfig)
           / bg_GridResolution pConfig) in
  let ulBdyCell :=
    cl_ulong_wrap (cl_ulong_wrap (bg_GridCols pConfig * ulong_of_double ulRow)
                   + ulong_of_double ulColumn) in
  match read pValues ulBdyCell with
  | Some dRate =>
    let pCellData :=
      if (bg_Definition pConfig =? BOUNDARY_GRIDDED_RAIN_INTENSITY)%Z
      then set_x pCellData (vx pCellData + dRate / 3600000.0 * dLclTimestep)
      else if (bg_Definition pConfig =? BOUNDARY_GRIDDED_MASS_FLUX)%Z
      then set_x pCellData
             (vx pCellData + dRate / (DOMAIN_DELTAX B * DOMAIN_DELTAY B) * dLclTimestep)
      else pCellData in
    Some (store pCellState ulIdx pCellData)
  | None => None
  end.

(** *** Simple pipe *)

Definition maxIterations : Z := 5000.

(** The locals the Darcy-Weisbach loop updates. *)
Record pipe_locals : Type := {
  uiIterations : Z;
  dError : cl_double;
  dFrictionHeadLossEst : cl_double;
  dVelocity : cl_double;
  dOtherHeadTerms : cl_double }.

(** The loop test: [uiIterations < maxIterations && fabs(dError) > 0.0001]. *)
Definition pipe_continue (l : pipe_locals) : bool :=
  (uiIterations l <? maxIterations)%Z && gtb (fabs (dError l)) 0.0001.

(** One pass through the body of the loop. *)
Definition pipe_body
    (pConfig : sBndySPipeConfiguration)
    (dWettedDiameter dInitialFrictionHeadLoss kd : cl_double)
    (l : pipe_locals) : pipe_locals :=
  let uiIterations := cl_uint_wrap (uiIterations l + 1) in
  (* Apply a number of methods to come up with sensible friction head losses
     as the value MUST be positive. *)
  let dLastFrictionHeadLoss := dFrictionHeadLossEst l in
  let dFrictionHeadLossEst :=
    if (uiIterations <=? 1)%Z then dInitialFrictionHeadLoss
    else if gtb (dFrictionHeadLossEst l) (dOtherHeadTerms l)
    then dFrictionHeadLossEst l - dOtherHeadTerms l
    else
      let dMultiplier := if fabs (dError l) <? 0.2 then 0.002 else 0.2 in
      let dSign := sign (dError l) in
      dFrictionHeadLossEst l
      + dSign * max (min (fabs (dError l)) (dFrictionHeadLossEst l) * dMultiplier) 0.00001 in
  (* If overshooting, reduce step and try again. *)
  let dFrictionHeadLossEst :=
    if dFrictionHeadLossEst <? 0.0 then dLastFrictionHeadLoss * 2.0 / 3.0
    else dFrictionHeadLossEst in
  let darcy_weisbach_term :=
    sqrt (2.0 * GRAVITY * dWettedDiameter * dFrictionHeadLossEst / sp_length pConfig) in
  let dVelocity :=
    -2.0 * lm_log10 M (kd + ((2.51 * 1.13e-6) / (dWettedDiameter * darcy_weisbach_term)))
    * darcy_weisbach_term in
  (* local head loss *)
  let dOtherHeadTerms := sp_lossCoefficients pConfig * (dVelocity * dVelocity * GRAVITY2_R) in
  (* dFrictionHeadLossEst: continuous head loss *)
  let dError := dInitialFrictionHeadLoss - dFrictionHeadLossEst - dOtherHeadTerms in
  {| uiIterations := uiIterations; dError := dError;
     dFrictionHeadLossEst := dFrictionHeadLossEst;
     dVelocity := dVelocity; dOtherHeadTerms := dOtherHeadTerms |}.

(** The [while] loop; the iteration cap bounds it, so [fuel = maxIterations]
    passes are enough. *)
Fixpoint pipe_loop
    (fuel : nat) (pConfig : sBndySPipeConfiguration)
    (dWettedDiameter dInitialFrictionHeadLoss kd : cl_double)
    (l : pipe_locals) : pipe_locals :=
  match fuel with
  | O => l
  | S fuel' =>
      if pipe_continue l
      then pipe_loop fuel' pConfig dWettedDiameter dInitialFrictionHeadLoss kd
             (pipe_body pConfig dWettedDiameter dInitialFrictionHeadLoss kd l)
      else l
  end.

(** Where the kernel stands when it has passed its guards: the values the loop
    works with, or [None] when the kernel returned before the loop. *)
Definition pipe_setup
    (pConfig : sBndySPipeConfiguration)
    (pStartData pEndData : cl_double4) (dStartBed dEndBed : cl_double)
    : option (cl_double * cl_double * cl_double) :=
  let dInvertStart :=
    if sp_invertStart pConfig <=? -9999.0 then dStartBed else sp_invertStart pConfig in
  let dInvertEnd :=
    if sp_invertEnd pConfig <=? -9999.0 then dEndBed else sp_invertEnd pConfig in
  (* Pipe is empty or close. No discharge. *)
  if (vx pStartData - dInvertStart <? VERY_SMALL) || (dInvertStart <? dStartBed) then None else
  (* Pipe begins in NODATA. *)
  if dStartBed <=? -9999.0 then None else
  (* Pipe ends in NODATA. *)
  if dEndBed <=? -9999.0 then None else
  (* Shape factor calculations to be used in the case of partially full pipes *)
  let dPartialShapeFactor :=
    if vx pStartData - dInvertStart <? sp_diameter pConfig then
      let dProportionalDepthAngle :=
        2.0 * lm_acos M (1.0 - (2.0 * (vx pStartData - dInvertStart)) / sp_diameter pConfig) in
      if gtb dProportionalDepthAngle 0.0
      then (dProportionalDepthAngle - lm_sin M dProportionalDepthAngle) / dProportionalDepthAngle
      else 1.0
    else 1.0 in
  let dWettedDiameter := sp_diameter pConfig * dPartialShapeFactor in
  let dInitialFrictionHeadLoss :=
    if gtb (vx pStartData - dInvertStart) 0.0
    then (dInvertStart + ((max dInvertStart (vx pStartData) - dInvertStart) * 0.5))
         - (dInvertEnd + ((max dInvertEnd (vx pEndData) - dInvertEnd) * 0.5))
    else 0.0 in
  if dInitialFrictionHeadLoss <=? 0.0 then None else
  let kd := (sp_roughness pConfig * 0.001) / (3.71 * dWettedDiameter) in
  Some (dWettedDiameter, dInitialFrictionHeadLoss, kd).

(** The test after the loop: "Force NaN to terminate simulation". *)
Definition pipe_failed (l : pipe_locals) : bool :=
  (uiIterations l >=? maxIterations)%Z || gtb (fabs (dError l)) 0.0001.

(** Simple pipe: the single work-item.  [dUninit] is the value the locals
    [dFrictionHeadLossEst], [dVelocity] and [dOtherHeadTerms] hold before their
    first assignment. *)
Definition bdy_SimplePipe
    (pConfig : sBndySPipeConfiguration)
    (pTime pTimestep pTimeHydrological : cl_double)
    (pCellState : buffer cl_double4) (pCellBed pCellManning : buffer cl_double)
    (dUninit : cl_double) : buffer cl_double4 :=
  let dLocalTimestep := pTimestep in
  if dLocalTimestep <=? 0.0 then pCellState else
  let ulIdxStart := getCellID (sp_uiStartCellX pConfig) (sp_uiStartCellY pConfig) in
  let ulIdxEnd := getCellID (sp_uiEndCellX pConfig) (sp_uiEndCellY pConfig) in
  let pStartData := pCellState ulIdxStart in
  let dStartBed := pCellBed ulIdxStart in
  let pEndData := pCellState ulIdxEnd in
  let dEndBed := pCellBed ulIdxEnd in
  let dPipeDischarge := 0.0 in
  match pipe_setup pConfig pStartData pEndData dStartBed dEndBed with
  | None => pCellState
  | Some (dWettedDiameter, dInitialFrictionHeadLoss, kd) =>
    (* Iterative process for Darcy-Weisbach *)
    let l :=
      pipe_loop (Z.to_nat maxIterations) pConfig dWettedDiameter dInitialFrictionHeadLoss kd
        {| uiIterations := 0; dError := 9999999999.9;
           dFrictionHeadLossEst := dUninit; dVelocity := dUninit;
           dOtherHeadTerms := dUninit |} in
    (* Force NaN to terminate simulation *)
    let dPipeDischarge := if pipe_failed l then sqrt (-1.0) else dPipeDischarge in
    let dPipeDischarge :=
      dVelocity l * PI * (dWettedDiameter * 0.5) * (dWettedDiameter * 0.5) in
    (* Lower the level upstream, increase the level downstream *)
    let pEndData :=
      if vx pEndData <? dEndBed + VERY_SMALL
      then mk4 (vx pEndData) (vy pEndData) 0.0 0.0 else pEndData in
    let pStartData :=
      set_x pStartData
        (max dStartBed
           (vx pStartData
            - (dPipeDischarge * dLocalTimestep) / (DOMAIN_DELTAX B * DOMAIN_DELTAY B))) in
    let pEndData :=
      set_x pEndData
        (max dEndBed (vx pEndData)
         + (dPipeDischarge * dLocalTimestep) / (DOMAIN_DELTAX B * DOMAIN_DELTAY B)) in
    (* VERY_SMALL water depth has no velocity *)
    let pStartData :=
      if vx pStartData <? dStartBed + VERY_SMALL
      then mk4 (vx pStartData) (vy pStartData) 0.0 0.0 else pStartData in
    store (store pCellState ulIdxStart pStartData) ulIdxEnd pEndData
  end.

End Kernels.

(** *** The timestep controller *)

(** Constants of the timestep header. *)
Definition TIMESTEP_EARLY_LIMIT : cl_double := 0.1.
Definition TIMESTEP_EARLY_LIMIT_DURATION : cl_double := 60.0.
Definition TIMESTEP_START_MINIMUM : cl_double := 1e-10.
Definition TIMESTEP_START_MINIMUM_DURATION : cl_double := 1.0.
Definition TIMESTEP_MINIMUM : cl_double := 1e-10.
Definition TIMESTEP_MAXIMUM : cl_double := 15.0.

(** The macros of the timestep controller that the host defines. *)
Record timestep_macros : Type := {
  COURANT_NUMBER : cl_double;
  SCHEME_ENDTIME : cl_double;
  TIMESTEP_WORKERS : nat;
  (* #ifdef TIMESTEP_DYNAMIC *)
  TIMESTEP_DYNAMIC : bool;
  (* #ifdef TIMESTEP_FIXED, with its value *)
  TIMESTEP_FIXED : option cl_double }.

(** The device-visible time scalars. *)
Record timestep_block : Type := {
  dTime : cl_double;
  dTimestep : cl_double;
  dTimeHydrological : cl_double;
  dTimeSync : cl_double;
  dBatchTimesteps : cl_double;
  uiBatchSuccessful : Z;
  uiBatchSkipped : Z }.

(** A C truth value used as a double. *)
Definition double_of_bool (b : bool) : cl_double := if b then 1.0 else 0.0.

Section Controller.

Variable B : build.
Variable T : timestep_macros.

(** "for (i = 0; i < TIMESTEP_WORKERS; ++i) dMaxSpeed = fmax(dMaxSpeed, pReductionData[i])" *)
Definition max_speed (pReductionData : buffer cl_double) : cl_double :=
  fold_left (fun dMaxSpeed i => fmax dMaxSpeed (pReductionData (Z.of_nat i)))
    (seq 0 (TIMESTEP_WORKERS T)) 0.0.

(** "Convert velocity to a time (assumes domain deltaX=deltaY here)", with the
    forced progression at the start of a simulation, times the Courant
    number. *)
Definition cfl_timestep (dLclTime dMaxSpeed : cl_double) : cl_double :=
  let dMinTime := DOMAIN_DELTAX B / dMaxSpeed in
  let dMinTime :=
    if (dLclTime <? TIMESTEP_START_MINIMUM_DURATION) && (dMinTime <? TIMESTEP_START_MINIMUM)
    then TIMESTEP_START_MINIMUM else dMinTime in
  COURANT_NUMBER T * dMinTime.

(** Advance the total model time by the timestep specified. *)
Definition tst_Advance_Normal
    (s : timestep_block) (pReductionData : buffer cl_double) : timestep_block :=
  let dLclTime := dTime s in
  let dLclTimestep := fmax 0.0 (dTimestep s) in
  let dLclTimeHydrological := dTimeHydrological s in
  let dLclSyncTime := dTimeSync s in
  let dLclBatchTimesteps := dBatchTimesteps s in
  let uiLclBatchSuccessful := uiBatchSuccessful s in
  let uiLclBatchSkipped := uiBatchSkipped s in
  (* Increment total time (only ever referenced in this kernel) *)
  let dLclTime := dLclTime + dLclTimestep in
  let dLclBatchTimesteps := dLclBatchTimesteps + dLclTimestep in
  let uiLclBatchSuccessful :=
    cl_uint_wrap (uiLclBatchSuccessful + int_of_bool (gtb dLclTimestep 0.0)) in
  let uiLclBatchSkipped :=
    cl_uint_wrap (uiLclBatchSkipped + int_of_bool (dLclTimestep <=? 0.0)) in
  (* Hydrological processes run with their own timestep which is larger *)
  let dLclTimeHydrological :=
    dLclTimeHydrological * double_of_bool (dLclTimeHydrological <=? TIMESTEP_HYDROLOGICAL)
    + dLclTimestep in
  (* #ifdef TIMESTEP_DYNAMIC *)
  let dLclTimestep :=
    if TIMESTEP_DYNAMIC T then cfl_timestep dLclTime (max_speed pReductionData)
    else dLclTimestep in
  (* #ifdef TIMESTEP_FIXED *)
  let dLclTimestep :=
    match TIMESTEP_FIXED T with Some v => v | None => dLclTimestep end in
  (* Impose a minimum timestep *)
  let dLclTimestep :=
    if gtb dLclTimestep 0.0 && (dLclTimestep <? TIMESTEP_MINIMUM)
    then TIMESTEP_MINIMUM else dLclTimestep in
  (* Don't exceed the sync time.  A negative timestep suspends simulation but
     allows the value to be used back on the host. *)
  let dLclTimestep :=
    if geb (dLclTime + dLclTimestep) dLclSyncTime then
      if gtb (dLclSyncTime - dLclTime) VERY_SMALL then dLclSyncTime - dLclTime
      else if (dLclSyncTime - dLclTime) <=? VERY_SMALL then - dLclTimestep
      else dLclTimestep
    else dLclTimestep in
  (* Control the timestep initially to ensure it's not silly *)
  let dLclTimestep :=
    if (dLclTime <? TIMESTEP_EARLY_LIMIT_DURATION) && gtb dLclTimestep TIMESTEP_EARLY_LIMIT
    then TIMESTEP_EARLY_LIMIT else dLclTimestep in
  (* Don't exceed the total simulation time *)
  let dLclTimestep := fmin dLclTimestep (SCHEME_ENDTIME T - dLclTime) in
  (* A sensible maximum timestep *)
  let dLclTimestep := fmin dLclTimestep TIMESTEP_MAXIMUM in
  (* Commit to global memory *)
  {| dTime := dLclTime;
     dTimestep := dLclTimestep;
     dTimeHydrological := dLclTimeHydrological;
     dTimeSync := dTimeSync s;
     dBatchTimesteps := dLclBatchTimesteps;
     uiBatchSuccessful := uiLclBatchSuccessful;
     uiBatchSkipped := uiLclBatchSkipped |}.

(** Update the timestep after a synchronisation or rollback; [dUninit] is
    what the uninitialised [dLclTimestep] holds in a build without
    [TIMESTEP_DYNAMIC]. *)
Definition tst_UpdateTimestep
    (s : timestep_block) (pReductionData : buffer cl_double) (dUninit : cl_double)
    : timestep_block :=
  let dLclTime := dTime s in
  let dLclOriginalTimestep := fabs (dTimestep s) in
  let dLclSyncTime := dTimeSync s in
  let dLclBatchTimesteps := dBatchTimesteps s in
  let dLclTimestep := dUninit in
  (* #ifdef TIMESTEP_DYNAMIC *)
  let dLclTimestep :=
    if TIMESTEP_DYNAMIC T then cfl_timestep dLclTime (max_speed pReductionData)
    else dLclTimestep in
  (* We only adjust the timestep if it's SMALLER than our original *)
  let dLclTimestep := fmin dLclTimestep dLclOriginalTimestep in
  let dLclBatchTimesteps := dLclBatchTimesteps - dLclOriginalTimestep + dLclTimestep in
  (* Don't exceed the early limit *)
  let dLclTimestep :=
    if (dLclTime <? TIMESTEP_EARLY_LIMIT_DURATION) && gtb dLclTimestep TIMESTEP_EARLY_LIMIT
    then TIMESTEP_EARLY_LIMIT else dLclTimestep in
  (* Don't exceed the sync time *)
  let dLclTimestep :=
    if geb (dLclTime + dLclTimestep) dLclSyncTime
    then fmax 0.0 (dLclSyncTime - dLclTime) else dLclTimestep in
  (* A sensible maximum timestep *)
  let dLclTimestep := fmin dLclTimestep TIMESTEP_MAXIMUM in
  (* Commit to global memory *)
  {| dTime := dTime s;
     dTimestep := dLclTimestep;
     dTimeHydrological := dTimeHydrological s;
     dTimeSync := dTimeSync s;
     dBatchTimesteps := dLclBatchTimesteps;
     uiBatchSuccessful := uiBatchSuccessful s;
     uiBatchSkipped := uiBatchSkipped s |}.

(** A batch of advances, one per reduction the device has run. *)
Definition advance_batch (pReductionData : list (buffer cl_double)) (s : timestep_block)
    : timestep_block :=
  fold_left tst_Advance_Normal pReductionData s.

End Controller.

(** Reset the counters of a batch. *)
Definition tst_ResetCounters (s : timestep_block) : timestep_block :=
  {| dTime := dTime s;
     dTimestep := dTimestep s;
     dTimeHydrological := dTimeHydrological s;
     dTimeSync := dTimeSync s;
     dBatchTimesteps := 0.0;
     uiBatchSuccessful := 0;
     uiBatchSkipped := 0 |}.

(** *** A math library to run the kernels with *)

(** Truncated series in binary64.  They stand in for the device's built-ins
    when a kernel is run on concrete data; the theorems about the kernels hold
    for every [libm]. *)
Module Series.

Definition ln2 : cl_double := 0.69314718055994530942.
Definition ln10 : cl_double := 2.30258509299404568402.
Definition pi : cl_double := 3.14159265358979323846.

(** [1/k + s2/(k+2) + s2^2/(k+4) + ...], [n + 1] terms. *)
Fixpoint odd_series (n : nat) (s2 k : cl_double) : cl_double :=
  match n with
  | O => 1 / k
  | S n' => 1 / k + s2 * odd_series n' s2 (k + 2)
  end.

(** Natural logarithm: [x = m * 2^e] with [m] near 1, then the series of
    [2 * atanh ((m - 1) / (m + 1))]. *)
Definition ln (x : cl_double) : cl_double :=
  if is_nan x then nan
  else if x <? 0 then nan
  else if x =? 0 then neg_infinity
  else if x =? infinity then infinity
  else
    let (m, e) := Z.frexp x in
    let (m, e) := if m <? 0.70710678118654752440 then (m * 2, (e - 1)%Z) else (m, e) in
    let s := (m - 1) / (m + 1) in
    double_of_Z e * ln2 + 2 * s * odd_series 14 (s * s) 1.

Definition log10 (x : cl_double) : cl_double := ln x / ln10.

(** [1 + r/k * (1 + r/(k+1) * (...))], [n] factors. *)
Fixpoint exp_series (n : nat) (r k : cl_double) : cl_double :=
  match n with
  | O => 1
  | S n' => 1 + r / k * exp_series n' r (k + 1)
  end.

Definition exp (x : cl_double) : cl_double :=
  if is_nan x then nan
  else if 710 <? x then infinity
  else if x <? -746 then 0
  else
    let k := floor (x / ln2 + 0.5) in
    let r := x - k * ln2 in
    match floorZ k with
    | Some e => Z.ldexp (exp_series 20 r 1) e
    | None => nan
    end.

Definition pow (x y : cl_double) : cl_double :=
  if (x =? 1) || (y =? 0) then 1
  else if 0 <? x then exp (y * ln x)
  else if x =? 0 then (if 0 <? y then 0 else infinity)
  else nan.

Definition pown (x : cl_double) (n : Z) : cl_double :=
  let p := Z.iter (Z.abs n) (fun a => a * x) 1 in
  if (n <? 0)%Z then 1 / p else p.

(** [1 - x2/(k(k+1)) * (1 - x2/((k+2)(k+3)) * (...))], [n] factors. *)
Fixpoint alt_series (n : nat) (x2 k : cl_double) : cl_double :=
  match n with
  | O => 1
  | S n' => 1 - x2 / (k * (k + 1)) * alt_series n' x2 (k + 2)
  end.

Definition sin (x : cl_double) : cl_double :=
  let r := fmod x (2 * pi) in
  let r := if pi <? r then r - 2 * pi else if r <? - pi then r + 2 * pi else r in
  r * alt_series 14 (r * r) 2.

(** [atan] by three halvings of the argument and the series of [atan]. *)
Definition atan (t : cl_double) : cl_double :=
  let half u := u / (1 + sqrt (1 + u * u)) in
  let u := half (half (half t)) in
  8 * (u * odd_series 14 (- (u * u)) 1).

Definition acos (x : cl_double) : cl_double :=
  if x <=? -1 then (if x =? -1 then pi else nan)
  else if 1 <? x then nan
  else 2 * atan (sqrt (1 - x) / sqrt (1 + x)).

Definition math : libm :=
  {| lm_pow := pow; lm_pown := pown; lm_log10 := log10; lm_acos := acos; lm_sin := sin |}.

End Series.

(** *** Order facts of binary64 *)

Lemma is_nan_spec (a : cl_double) :
  is_nan a = match Prim2SF a with S754_nan => true | _ => false end.
Proof.
  unfold is_nan. rewrite eqb_spec.
  destruct (Prim2SF a) as [s|s| |s m e]; try reflexivity.
  - destruct s; reflexivity.
  - unfold SFeqb, SFcompare.
    destruct s; rewrite Z.compare_refl, Pos.compare_cont_refl; reflexivity.
Qed.

(** [fmax(a, 0.0)] is never negative and never a NaN. *)
Lemma fmax_zero_nonneg (a : cl_double) : (0 <=? fmax a 0) = true.
Proof.
  unfold fmax. rewrite (is_nan_spec a).
  destruct (Prim2SF a) as [s|s| |s m e] eqn:E; try reflexivity.
  - rewrite ltb_spec, E. cbn. rewrite leb_spec, E. reflexivity.
  - rewrite ltb_spec, E. cbn. destruct s; cbn; [reflexivity|].
    rewrite leb_spec, E. reflexivity.
  - rewrite ltb_spec, E. cbn. destruct s; cbn; [reflexivity|].
    rewrite leb_spec, E. reflexivity.
Qed.

(** A positive double is not [<= 0.0]. *)
Lemma positive_not_le_zero (a : cl_double) : (0 <? a) = true -> (a <=? 0) = false.
Proof.
  rewrite ltb_spec, leb_spec.
  destruct (Prim2SF a) as [s|s| |s m e]; cbn; try discriminate; try reflexivity;
    destruct s; cbn; try discriminate; reflexivity.
Qed.

(** *** Interface reconstruction keeps depths non-negative *)

(** C7: for every pair of cell states, bed elevations and direction code, the
    reconstructed depth of each side is [fmax(eta - zb_max, 0.0)] and is not
    negative; the reconstructed free surface is that depth plus the maximum bed
    elevation, lowered by the vertical shift; the reconstructed discharges are
    the depth times the velocities the cell had before the reconstruction. *)
Theorem reconstructInterface_depth_positivity :
  forall (pStateLeft : cl_double4) (dBedLeft : cl_double)
         (pStateRight : cl_double4) (dBedRight : cl_double) (ucDirection : Z),
    let r := reconstructInterface pStateLeft dBedLeft pStateRight dBedRight ucDirection in
    let pOutputLeft := snd (fst r) in
    let pOutputRight := snd r in
    let dBedMaximum := if gtb dBedLeft dBedRight then dBedLeft else dBedRight in
    let dShiftV :=
      fmax (dBedMaximum
            - vx (if (ucDirection <? DOMAIN_DIR_S)%Z then pStateLeft else pStateRight)) 0 in
    (S1 pOutputLeft = fmax (vx pStateLeft - dBedMaximum) 0
     /\ (0 <=? S1 pOutputLeft) = true
     /\ S0 pOutputLeft = S1 pOutputLeft + dBedMaximum - dShiftV
     /\ S2 pOutputLeft = S1 pOutputLeft * velocity (vz pStateLeft) (vx pStateLeft - dBedLeft)
     /\ S3 pOutputLeft = S1 pOutputLeft * velocity (vw pStateLeft) (vx pStateLeft - dBedLeft))
    /\
    (S1 pOutputRight = fmax (vx pStateRight - dBedMaximum) 0
     /\ (0 <=? S1 pOutputRight) = true
     /\ S0 pOutputRight = S1 pOutputRight + dBedMaximum - dShiftV
     /\ S2 pOutputRight = S1 pOutputRight * velocity (vz pStateRight) (vx pStateRight - dBedRight)
     /\ S3 pOutputRight = S1 pOutputRight * velocity (vw pStateRight) (vx pStateRight - dBedRight)).
Proof.
  intros pStateLeft dBedLeft pStateRight dBedRight ucDirection.
  unfold reconstructInterface.
  destruct (ucDirection =? DOMAIN_DIR_N)%Z;
    [| destruct (ucDirection =? DOMAIN_DIR_S)%Z;
       [| destruct (ucDirection =? DOMAIN_DIR_E)%Z;
          [| destruct (ucDirection =? DOMAIN_DIR_W)%Z]]];
    cbn; repeat split; try reflexivity; apply fmax_zero_nonneg.
Qed.

(** *** Concrete data to run the kernels on *)

(** A 4 x 4 domain of unit cells; its only interior cells are 5, 6, 9, 10. *)
Definition grid4x4 : build :=
  {| DOMAIN_COLS := 4; DOMAIN_ROWS := 4;
     DOMAIN_DELTAX := 1; DOMAIN_DELTAY := 1;
     DOMAIN_DELTAX_R := 1; DOMAIN_DELTAY_R := 1;
     FROUDE_LIMIT := 0.8; FRICTION_IN_FLUX_KERNEL := true |}.

Definition uniform {A : Type} (v : A) : buffer A := fun _ => v.

(** *** A dry neighbourhood is skipped without a write *)

(** C10: in both cache-disabled scheme kernels, a work-item whose timestep is
    positive, whose cell is enabled and whose cell and four neighbours are all
    dry returns without a write: the destination buffer is what it was. *)
Theorem scheme_kernels_all_dry_no_write :
  forall (M : libm) (B : build) (lIdxX lIdxY : Z) (dTimestep : cl_double)
         (dBedElevation : buffer cl_double)
         (pCellStateSrc pCellStateDst : buffer cl_double4)
         (dManning : buffer cl_double),
    let cell_dry (i : Z) := dry (pCellStateSrc i) (dBedElevation i) in
    (0 <? dTimestep) = true ->
    cell_disabled (pCellStateSrc (getCellID B lIdxX lIdxY)) = false ->
    cell_dry (getCellID B lIdxX lIdxY) = true ->
    cell_dry (getNeighbourByIndices B lIdxX lIdxY DOMAIN_DIR_N) = true ->
    cell_dry (getNeighbourByIndices B lIdxX lIdxY DOMAIN_DIR_E) = true ->
    cell_dry (getNeighbourByIndices B lIdxX lIdxY DOMAIN_DIR_S) = true ->
    cell_dry (getNeighbourByIndices B lIdxX lIdxY DOMAIN_DIR_W) = true ->
    gts_cacheDisabled M B lIdxX lIdxY dTimestep
      dBedElevation pCellStateSrc pCellStateDst dManning = pCellStateDst
    /\ ine_cacheDisabled M B lIdxX lIdxY dTimestep
         dBedElevation pCellStateSrc pCellStateDst dManning = pCellStateDst.
Proof.
  intros M B x y dt bed src dst man cell_dry Hdt Hen Hc Hn He Hs Hw.
  subst cell_dry. cbv beta in *.
  apply positive_not_le_zero in Hdt.
  unfold gts_cacheDisabled, ine_cacheDisabled, dry_count.
  cbv zeta.
  destruct (outside_domain B x y); [split; reflexivity|].
  rewrite Hdt, Hen. cbn [fold_left fst snd].
  rewrite Hc, Hn, He, Hs, Hw.
  split; reflexivity.
Qed.

(** A dry 4 x 4 domain at cell (1, 1): the source holds the bed level
    everywhere, the destination an older state with water. *)
Lemma scheme_kernels_all_dry_no_write_witness :
  let src := uniform (mk4 0 0 0 0) in
  let dst := uniform (mk4 0.5 0.5 0 0) in
  gts_cacheDisabled Series.math grid4x4 1 1 0.1 (uniform 0) src dst (uniform 0.03) = dst
  /\ ine_cacheDisabled Series.math grid4x4 1 1 0.1 (uniform 0) src dst (uniform 0.03) = dst.
Proof.
  apply scheme_kernels_all_dry_no_write; reflexivity.
Defined.

(** *** Disabled cells *)

(** The scheme kernels copy a disabled cell through. *)
Lemma scheme_kernels_copy_disabled :
  forall (M : libm) (B : build) (lIdxX lIdxY : Z) (dTimestep : cl_double)
         (dBedElevation : buffer cl_double)
         (pCellStateSrc pCellStateDst : buffer cl_double4)
         (dManning : buffer cl_double),
    outside_domain B lIdxX lIdxY = false ->
    (0 <? dTimestep) = true ->
    cell_disabled (pCellStateSrc (getCellID B lIdxX lIdxY)) = true ->
    gts_cacheDisabled M B lIdxX lIdxY dTimestep
      dBedElevation pCellStateSrc pCellStateDst dManning (getCellID B lIdxX lIdxY)
    = pCellStateSrc (getCellID B lIdxX lIdxY)
    /\ ine_cacheDisabled M B lIdxX lIdxY dTimestep
         dBedElevation pCellStateSrc pCellStateDst dManning (getCellID B lIdxX lIdxY)
       = pCellStateSrc (getCellID B lIdxX lIdxY).
Proof.
  intros M B x y dt bed src dst man Hin Hdt Hdis.
  apply positive_not_le_zero in Hdt.
  unfold gts_cacheDisabled, ine_cacheDisabled. cbv zeta.
  rewrite Hin, Hdt, Hdis. unfold store. rewrite Z.eqb_refl. split; reflexivity.
Qed.

(** The gridded boundary kernels leave the whole buffer alone when their cell
    is disabled. *)
Lemma gridded_kernels_skip_disabled :
  forall (B : build) (lIdxX lIdxY : Z) (pConfig : sBdyGriddedConfiguration)
         (pTimeseries : list cl_double) (pTime pTimestep pTimeHydrological : cl_double)
         (pCellState : buffer cl_double4) (pCellBed pCellManning : buffer cl_double),
    cell_disabled (pCellState (getCellID B lIdxX lIdxY)) = true ->
    bdy_Gridded B lIdxX lIdxY pConfig pTimeseries pTime pTimestep pTimeHydrological
      pCellState pCellBed pCellManning = Some pCellState
    /\ bdy_StreamingGridded B lIdxX lIdxY pConfig pTimeseries pTime pTimestep pTimeHydrological
         pCellState pCellBed pCellManning = Some pCellState.
Proof.
  intros B x y cfg ts t dt th st bed man Hdis.
  unfold bdy_Gridded, bdy_StreamingGridded. cbv zeta. rewrite Hdis.
  destruct (outside_domain B x y); split; reflexivity.
Qed.

(** A cell boundary of one relation, cell 5, that fixes the depth to 1 m over
    one hour. *)
Definition depth_boundary : sBdyCellConfiguration :=
  {| bc_TimeseriesEntries := 2;
     bc_TimeseriesInterval := 3600;
     bc_TimeseriesLength := 3600;
     bc_RelationCount := 1;
     bc_DefinitionDepth := BOUNDARY_DEPTH_IS_DEPTH;
     bc_DefinitionDischarge := BOUNDARY_DISCHARGE_IGNORE |}.

Definition depth_series : list cl_double4 := [mk4 0 1 0 0; mk4 3600 1 0 0].

(** C4: [bdy_Cell] has no "Cell disabled?" test.  Run at t = 0 with a
    timestep of 1 s on a domain whose cells are all disabled
    (eta = eta_max = -9999) over a bed at 10 m, it overwrites the level of
    cell 5 with bed + depth = 11 m: a disabled cell does not survive it. *)
Theorem bdy_Cell_overwrites_disabled_cell :
  forall M : libm,
    let pCellState := uniform (mk4 (-9999) (-9999) 0 0) in
    cell_disabled (pCellState 5%Z) = true
    /\ option_map (fun st => st 5%Z)
         (bdy_Cell M grid4x4 0 depth_boundary (uniform 5%Z) depth_series
            0 1 0 pCellState (uniform 10) (uniform 0.03))
       = Some (mk4 11 (-9999) 0 0).
Proof.
  intro M. split; vm_compute; reflexivity.
Qed.

(** A resident gridded rainfall of two hourly 2 x 2 grids, 36 mm/hr. *)
Definition rain_boundary : sBdyGriddedConfiguration :=
  {| bg_TimeseriesInterval := 3600;
     bg_GridResolution := 2;
     bg_GridOffsetX := 0;
     bg_GridOffsetY := 0;
     bg_TimeseriesEntries := 2;
     bg_Definition := BOUNDARY_GRIDDED_RAIN_INTENSITY;
     bg_GridRows := 2;
     bg_GridCols := 2 |}.

Definition rain_series : list cl_double := [36; 36; 36; 36; 36; 36; 36; 36].

(** C5: a step with a zero timestep does not leave the cell states as they
    were.  (1) [bdy_Gridded] never reads the timestep: with the hydrological
    clock at 0.25 s it adds the rainfall to cell 5 although the timestep is 0.
    (2) [ine_cacheDisabled] returns at a zero timestep without the copy that
    [gts_cacheDisabled] makes, so the destination buffer, which becomes the
    current state, keeps its older content instead of the source cell. *)
Theorem zero_timestep_changes_cell_state :
  forall M : libm,
    let pCellState := uniform (mk4 1 1 0 0) in
    let dst := uniform (mk4 0.5 0.5 0 0) in
    option_map (fun st => st 5%Z)
      (bdy_Gridded grid4x4 1 1 rain_boundary rain_series
         100 0 0.25 pCellState (uniform 0) (uniform 0.03))
    = Some (mk4 (1 + 36 / 3600000 * 0.25) 1 0 0)
    /\ (1 <? 1 + 36 / 3600000 * 0.25) = true
    /\ ine_cacheDisabled M grid4x4 1 1 0 (uniform 0) pCellState dst (uniform 0.03) 5%Z
       = mk4 0.5 0.5 0 0
    /\ gts_cacheDisabled M grid4x4 1 1 0 (uniform 0) pCellState dst (uniform 0.03) 5%Z
       = mk4 1 1 0 0.
Proof.
  intro M. repeat split; vm_compute; reflexivity.
Qed.

(** *** The index into the resident gridded series *)

Lemma ulong_of_double_nonneg (a : cl_double) : (0 <= ulong_of_double a)%Z.
Proof.
  unfold ulong_of_double.
  destruct (Prim2SF a) as [s|s| |s m e]; try lia.
  - destruct s; lia.
  - destruct s; [lia|].
    apply Z.min_glb; [lia|].
    destruct (0 <=? e)%Z eqn:E.
    + apply Z.leb_le in E. apply Z.mul_nonneg_nonneg; [lia|]. apply Z.pow_nonneg; lia.
    + apply Z.shiftr_nonneg. lia.
Qed.

(** Once the simulation time has reached the end of the series, the time index
    is set to [TimeseriesEntries] itself, and the linear index lies at or
    beyond [TimeseriesEntries * GridRows * GridCols] (while the arithmetic
    stays below 2^64). *)
Lemma gridded_index_past_end :
  forall (B : build) (lIdxX lIdxY : Z) (pConfig : sBdyGriddedConfiguration) (dLclTime : cl_double),
    let ulRow :=
      ulong_of_double
        (floor ((double_of_Z lIdxY * DOMAIN_DELTAY B - bg_GridOffsetY pConfig)
                / bg_GridResolution pConfig)) in
    let ulColumn :=
      ulong_of_double
        (floor ((double_of_Z lIdxX * DOMAIN_DELTAX B - bg_GridOffsetX pConfig)
                / bg_GridResolution pConfig)) in
    let ulTimestep :=
      ulong_of_double (floor (dLclTime / bg_TimeseriesInterval pConfig)) in
    (0 < bg_TimeseriesEntries pConfig)%Z ->
    (0 <= bg_GridRows pConfig)%Z ->
    (0 <= bg_GridCols pConfig)%Z ->
    (bg_TimeseriesEntries pConfig <= ulTimestep)%Z ->
    (bg_GridRows pConfig * bg_GridCols pConfig * bg_TimeseriesEntries pConfig
     + bg_GridCols pConfig * ulRow + ulColumn < 2 ^ 64)%Z ->
    (bg_TimeseriesEntries pConfig * bg_GridRows pConfig * bg_GridCols pConfig
     <= gridded_index B lIdxX lIdxY pConfig dLclTime)%Z.
Proof.
  intros B x y cfg t row col ts HE HR HC Hpast Hfit.
  unfold gridded_index. cbv zeta. fold row col ts.
  replace (ts >=? bg_TimeseriesEntries cfg)%Z with true
    by (symmetry; apply Z.geb_le; exact Hpast).
  assert (Hrow : (0 <= row)%Z) by apply ulong_of_double_nonneg.
  assert (Hcol : (0 <= col)%Z) by apply ulong_of_double_nonneg.
  assert (HRC : (0 <= bg_GridRows cfg * bg_GridCols cfg)%Z)
    by (apply Z.mul_nonneg_nonneg; lia).
  assert (HCr : (0 <= bg_GridCols cfg * row)%Z) by (apply Z.mul_nonneg_nonneg; lia).
  assert (HRCE : (bg_GridRows cfg * bg_GridCols cfg
                  <= bg_GridRows cfg * bg_GridCols cfg * bg_TimeseriesEntries cfg)%Z) by nia.
  unfold cl_ulong_wrap.
  rewrite (Z.mod_small (bg_GridRows cfg * bg_GridCols cfg)) by lia.
  rewrite (Z.mod_small (bg_GridRows cfg * bg_GridCols cfg * bg_TimeseriesEntries cfg)) by lia.
  rewrite (Z.mod_small (bg_GridCols cfg * row)) by lia.
  rewrite Z.mod_small by lia.
  nia.
Qed.

(** C8: the clamp of the time index is [TimeseriesEntries], not
    [TimeseriesEntries - 1].  With two hourly 2 x 2 grids (8 values) the
    work-item of cell (1, 1) at t = 7200 s computes the linear index 8, one
    past the last value, and the kernel's read is outside the buffer. *)
Theorem bdy_Gridded_index_out_of_bounds :
  gridded_index grid4x4 1 1 rain_boundary 7200 = 8%Z
  /\ (bg_TimeseriesEntries rain_boundary * bg_GridRows rain_boundary
      * bg_GridCols rain_boundary = 8)%Z
  /\ Z.of_nat (List.length rain_series) = 8%Z
  /\ bdy_Gridded grid4x4 1 1 rain_boundary rain_series
       7200 1 0.25 (uniform (mk4 1 1 0 0)) (uniform 0) (uniform 0.03) = None.
Proof.
  repeat split; vm_compute; reflexivity.
Qed.

(** *** The pipe's poison *)

(** The fuel is enough: started with [maxIterations] passes left to the cap,
    the loop ends because its own test fails. *)
Lemma pipe_loop_exits
    (M : libm) (pConfig : sBndySPipeConfiguration)
    (dWettedDiameter dInitialFrictionHeadLoss kd : cl_double) :
  forall (fuel : nat) (l : pipe_locals),
    (0 <= uiIterations l)%Z ->
    (maxIterations <= uiIterations l + Z.of_nat fuel)%Z ->
    pipe_continue
      (pipe_loop M fuel pConfig dWettedDiameter dInitialFrictionHeadLoss kd l) = false.
Proof.
  induction fuel as [|fuel IH]; intros l H0 Hfuel; cbn [pipe_loop].
  - unfold pipe_continue.
    replace (uiIterations l <? maxIterations)%Z with false; [reflexivity|].
    symmetry. apply Z.ltb_ge. lia.
  - destruct (pipe_continue l) eqn:E; [|exact E].
    unfold pipe_continue in E. apply andb_prop in E. destruct E as [E _].
    apply Z.ltb_lt in E. unfold maxIterations in *.
    apply IH; cbn [pipe_body uiIterations]; unfold cl_uint_wrap;
      rewrite Z.mod_small by lia; lia.
Qed.

(** C1: when the Darcy-Weisbach loop ends without convergence (iteration cap
    reached or head-balance error above 1e-4), the NaN assigned to the pipe
    discharge is overwritten by the next statement: the level written to the
    end cell is computed from the velocity of the last iteration, as it is
    after a convergence. *)
Theorem bdy_SimplePipe_failure_not_poisoned :
  forall (M : libm) (B : build) (pConfig : sBndySPipeConfiguration)
         (pTime pTimestep pTimeHydrological : cl_double)
         (pCellState : buffer cl_double4) (pCellBed pCellManning : buffer cl_double)
         (dUninit dWettedDiameter dInitialFrictionHeadLoss kd : cl_double),
    let ulIdxStart := getCellID B (sp_uiStartCellX pConfig) (sp_uiStartCellY pConfig) in
    let ulIdxEnd := getCellID B (sp_uiEndCellX pConfig) (sp_uiEndCellY pConfig) in
    let l :=
      pipe_loop M (Z.to_nat maxIterations) pConfig dWettedDiameter dInitialFrictionHeadLoss kd
        {| uiIterations := 0; dError := 9999999999.9;
           dFrictionHeadLossEst := dUninit; dVelocity := dUninit;
           dOtherHeadTerms := dUninit |} in
    let dPipeDischarge :=
      dVelocity l * PI * (dWettedDiameter * 0.5) * (dWettedDiameter * 0.5) in
    (0 <? pTimestep) = true ->
    pipe_setup M pConfig (pCellState ulIdxStart) (pCellState ulIdxEnd)
      (pCellBed ulIdxStart) (pCellBed ulIdxEnd)
    = Some (dWettedDiameter, dInitialFrictionHeadLoss, kd) ->
    pipe_failed l = true ->
    let pCellState' :=
      bdy_SimplePipe M B pConfig pTime pTimestep pTimeHydrological
        pCellState pCellBed pCellManning dUninit in
    vx (pCellState' ulIdxEnd)
    = max (pCellBed ulIdxEnd) (vx (pCellState ulIdxEnd))
      + (dPipeDischarge * pTimestep) / (DOMAIN_DELTAX B * DOMAIN_DELTAY B)
    /\ (ulIdxStart <> ulIdxEnd ->
        vx (pCellState' ulIdxStart)
        = max (pCellBed ulIdxStart)
            (vx (pCellState ulIdxStart)
             - (dPipeDischarge * pTimestep) / (DOMAIN_DELTAX B * DOMAIN_DELTAY B))).
Proof.
  intros M B cfg t dt th st bed man u Dw h0 kd iS iE l Q Hdt Hsetup Hfail.
  apply positive_not_le_zero in Hdt.
  unfold bdy_SimplePipe. cbv zeta. fold iS iE.
  rewrite Hdt, Hsetup. fold l.
  unfold store. rewrite Z.eqb_refl. split.
  - destruct (vx (st iE) <? bed iE + VERY_SMALL); reflexivity.
  - intro Hne. apply Z.eqb_neq in Hne. rewrite Hne, Z.eqb_refl.
    match goal with |- context [if ?c then mk4 _ _ 0 0 else _] => destruct c end;
      reflexivity.
Qed.

(** A pipe of 100 m, diameter 0.5 m, roughness 0.5 mm and loss coefficient 1.5
    from cell (1, 1), 3 m deep, to the dry cell (2, 2). *)
Definition pipe_100m : sBndySPipeConfiguration :=
  {| sp_uiStartCellX := 1; sp_uiStartCellY := 1;
     sp_uiEndCellX := 2; sp_uiEndCellY := 2;
     sp_length := 100; sp_roughness := 0.5; sp_lossCoefficients := 1.5;
     sp_diameter := 0.5; sp_invertStart := -9999; sp_invertEnd := -9999 |}.

Definition pipe_cells : buffer cl_double4 :=
  fun i => if (i =? 5)%Z then mk4 3 3 0 0 else mk4 0 0 0 0.

(** On this pipe the loop runs into the cap of 5000 iterations with a head
    error of about 1.5 m; the end cell receives a finite level. *)
Lemma bdy_SimplePipe_failure_not_poisoned_witness :
  let l :=
    pipe_loop Series.math (Z.to_nat maxIterations) pipe_100m 0.5 1.5 ((0.5 * 0.001) / (3.71 * 0.5))
      {| uiIterations := 0; dError := 9999999999.9;
         dFrictionHeadLossEst := nan; dVelocity := nan; dOtherHeadTerms := nan |} in
  let st' := bdy_SimplePipe Series.math grid4x4 pipe_100m 0 1 0
               pipe_cells (uniform 0) (uniform 0.03) nan in
  (uiIterations l = 5000%Z /\ pipe_failed l = true)
  /\ (vx (st' 10%Z)
      = max 0 0 + (dVelocity l * PI * (0.5 * 0.5) * (0.5 * 0.5) * 1) / (1 * 1)
      /\ (5%Z <> 10%Z ->
          vx (st' 5%Z)
          = max 0 (3 - (dVelocity l * PI * (0.5 * 0.5) * (0.5 * 0.5) * 1) / (1 * 1))))
  /\ is_nan (vx (st' 10%Z)) = false
  /\ is_nan (vx (st' 5%Z)) = false.
Proof.
  cbv zeta. split; [split; vm_compute; reflexivity|].
  split; [| split; vm_compute; reflexivity].
  apply (bdy_SimplePipe_failure_not_poisoned Series.math grid4x4 pipe_100m 0 1 0
           pipe_cells (uniform 0) (uniform 0.03) nan 0.5 1.5 ((0.5 * 0.001) / (3.71 * 0.5)));
    vm_compute; reflexivity.
Defined.

(** *** What the kernels do with the timestep and the mask *)

(** [bdy_Gridded] and [bdy_StreamingGridded] never read the timestep. *)
Lemma gridded_kernels_ignore_timestep :
  forall (B : build) (lIdxX lIdxY : Z) (pConfig : sBdyGriddedConfiguration)
         (pTimeseries : list cl_double) (pTime pTimestep pTimestep' pTimeHydrological : cl_double)
         (pCellState : buffer cl_double4) (pCellBed pCellManning : buffer cl_double),
    bdy_Gridded B lIdxX lIdxY pConfig pTimeseries pTime pTimestep pTimeHydrological
      pCellState pCellBed pCellManning
    = bdy_Gridded B lIdxX lIdxY pConfig pTimeseries pTime pTimestep' pTimeHydrological
        pCellState pCellBed pCellManning
    /\ bdy_StreamingGridded B lIdxX lIdxY pConfig pTimeseries pTime pTimestep pTimeHydrological
         pCellState pCellBed pCellManning
       = bdy_StreamingGridded B lIdxX lIdxY pConfig pTimeseries pTime pTimestep'
           pTimeHydrological pCellState pCellBed pCellManning.
Proof. intros. split; reflexivity. Qed.

(** [bdy_Uniform] returns at once when the timestep is not positive. *)
Lemma bdy_Uniform_skips_without_timestep :
  forall (B : build) (lIdxX lIdxY : Z) (pConfig : sBdyUniformConfiguration)
         (pTimeseries : list (cl_double * cl_double))
         (pTime pTimestep pTimeHydrological : cl_double)
         (pCellState : buffer cl_double4) (pCellBed pCellManning : buffer cl_double),
    (pTimestep <=? 0) = true ->
    bdy_Uniform B lIdxX lIdxY pConfig pTimeseries pTime pTimestep pTimeHydrological
      pCellState pCellBed pCellManning = Some pCellState.
Proof.
  intros B x y cfg ts t dt th st bed man Hdt.
  unfold bdy_Uniform. cbv zeta. rewrite Hdt, orb_true_r.
  destruct (outside_domain B x y); reflexivity.
Qed.

(** At a timestep that is not positive the Godunov kernel copies its cell
    from the source to the destination; the inertial kernel writes nothing. *)
Lemma scheme_kernels_without_timestep :
  forall (M : libm) (B : build) (lIdxX lIdxY : Z) (dTimestep : cl_double)
         (dBedElevation : buffer cl_double)
         (pCellStateSrc pCellStateDst : buffer cl_double4)
         (dManning : buffer cl_double),
    outside_domain B lIdxX lIdxY = false ->
    (dTimestep <=? 0) = true ->
    gts_cacheDisabled M B lIdxX lIdxY dTimestep
      dBedElevation pCellStateSrc pCellStateDst dManning
    = store pCellStateDst (getCellID B lIdxX lIdxY) (pCellStateSrc (getCellID B lIdxX lIdxY))
    /\ ine_cacheDisabled M B lIdxX lIdxY dTimestep
         dBedElevation pCellStateSrc pCellStateDst dManning = pCellStateDst.
Proof.
  intros M B x y dt bed src dst man Hin Hdt.
  unfold gts_cacheDisabled, ine_cacheDisabled. cbv zeta.
  rewrite Hin, Hdt. split; reflexivity.
Qed.

(** In fixed-depth mode [bdy_Cell] sets the level of its cell to the bed plus
    the interpolated depth, whatever the cell held before, mask included. *)
Lemma bdy_Cell_fixed_depth :
  forall (M : libm) (B : build) (lRelationID : Z) (pConfig : sBdyCellConfiguration)
         (pRelations : buffer Z) (pTimeseries : list cl_double4)
         (pTime pTimestep pTimeHydrological : cl_double)
         (pCellState : buffer cl_double4) (pCellBed pCellManning : buffer cl_double)
         (pTSBase pTSNext : cl_double4),
    let ulBaseTimestep :=
      ulong_of_double (floor (pTime / bc_TimeseriesInterval pConfig)) in
    let f := fmod pTime (bc_TimeseriesInterval pConfig) / bc_TimeseriesInterval pConfig in
    (lRelationID >=? bc_RelationCount pConfig)%Z
    || geb pTime (bc_TimeseriesLength pConfig) || (pTimestep <=? 0) = false ->
    bc_DefinitionDepth pConfig = BOUNDARY_DEPTH_IS_DEPTH ->
    read pTimeseries ulBaseTimestep = Some pTSBase ->
    read pTimeseries (cl_ulong_wrap (ulBaseTimestep + 1)) = Some pTSNext ->
    option_map (fun st => vx (st (pRelations lRelationID)))
      (bdy_Cell M B lRelationID pConfig pRelations pTimeseries
         pTime pTimestep pTimeHydrological pCellState pCellBed pCellManning)
    = Some (pCellBed (pRelations lRelationID)
            + (vy pTSBase + (vy pTSNext - vy pTSBase) * f)).
Proof.
  intros M B id cfg rel ts t dt th st bed man base next ib f Hguard Hmode Hbase Hnext.
  unfold bdy_Cell. cbv zeta. fold ib. rewrite Hguard, Hbase, Hnext, Hmode.
  cbn [Z.eqb BOUNDARY_DEPTH_IS_DEPTH Pos.eqb option_map].
  unfold store. rewrite Z.eqb_refl.
  destruct (bc_DefinitionDischarge cfg =? BOUNDARY_DISCHARGE_IS_DISCHARGE)%Z;
    [reflexivity|].
  destruct (bc_DefinitionDischarge cfg =? BOUNDARY_DISCHARGE_IS_VELOCITY)%Z; reflexivity.
Qed.

(** *** Runs in binary64 *)

(** A cell with q_x = 1 m2/s over a depth of 0.1 m, Manning 0.03 and a timestep
    of 1 s: friction leaves a smaller discharge of the same sign. *)
Example implicitFriction_brakes :
  let c' := implicitFriction Series.math (mk4 0.1 0.1 1 0) 0 0.1 0.03 1 in
  (0 <=? vz c') = true /\ (vz c' <? 1) = true /\ vw c' = 0.
Proof. repeat split; vm_compute; reflexivity. Qed.

(** C3: in binary64 friction reverses a discharge component.  A cell 1 m deep
    with discharges (30, 1e20), Manning 0.03 and a timestep of 0.028125 s (the
    depth is 1, where [pow] is exact): depth and discharge are above
    [VERY_SMALL], the timestep is positive and q_x is positive.  Friction all
    but stops q_x: the friction term equals the limit [- q_x * (1 / dt)] that
    "Friction can only stop flow, not reverse it" clamps it to, and that limit
    is rounded, so [q_x + dt * dFx] ends as -3.55e-15, below zero.
    [per_Friction] commits this state for the cell. *)
Theorem implicitFriction_reverses_discharge :
  forall M : libm,
    lm_pow M 1 (1 / 3) = 1 ->
    let c := mk4 1 1 30 1e20 in
    let c' := implicitFriction M c 0 1 0.03 0.028125 in
    geb (vx c - 0) VERY_SMALL = true
    /\ geb (sqrt (vz c * vz c + vw c * vw c)) VERY_SMALL = true
    /\ gtb 0.028125 0 = true
    /\ gtb (vz c) 0 = true
    /\ vz c' = -3.5527136788005009e-15
    /\ (vz c' <? 0) = true
    /\ per_Friction M grid4x4 1 1 0.028125 (uniform c) (uniform 0) (uniform 0.03) 5%Z = c'.
Proof.
  intros M H c c'.
  assert (E : c' = mk4 1 1 (-3.5527136788005009e-15) 5.0000000000000008e+19).
  { unfold c', c, implicitFriction. cbv zeta. rewrite H. vm_compute. reflexivity. }
  repeat split; try (vm_compute; reflexivity).
  - rewrite E. reflexivity.
  - rewrite E. vm_compute. reflexivity.
Qed.

(** The series library has [pow(1, 1/3) = 1]. *)
Lemma implicitFriction_reverses_discharge_witness :
  let c := mk4 1 1 30 1e20 in
  let c' := implicitFriction Series.math c 0 1 0.03 0.028125 in
  geb (vx c - 0) VERY_SMALL = true
  /\ geb (sqrt (vz c * vz c + vw c * vw c)) VERY_SMALL = true
  /\ gtb 0.028125 0 = true
  /\ gtb (vz c) 0 = true
  /\ vz c' = -3.5527136788005009e-15
  /\ (vz c' <? 0) = true
  /\ per_Friction Series.math grid4x4 1 1 0.028125 (uniform c) (uniform 0) (uniform 0.03) 5%Z
     = c'.
Proof.
  apply (implicitFriction_reverses_discharge Series.math). vm_compute. reflexivity.
Defined.

(** ** Further properties of the kernels in binary64 *)

(** *** Order of doubles *)

Lemma SFcompare_refl_not_lt (x : spec_float) : SFcompare x x <> Some Lt.
Proof.
  destruct x as [s|s| |s m e]; cbn; try discriminate.
  - destruct s; discriminate.
  - destruct s; rewrite Z.compare_refl, Pos.compare_cont_refl; discriminate.
Qed.

Lemma SFcompare_asym (x y : spec_float) :
  SFcompare x y = Some Lt -> SFcompare y x = Some Gt.
Proof.
  destruct x as [s|s| |s m e], y as [s'|s'| |s' m' e']; cbn;
    try discriminate; try reflexivity;
    try (destruct s, s'; cbn; try discriminate; reflexivity);
    try (destruct s; cbn; try discriminate; reflexivity);
    try (destruct s'; cbn; try discriminate; reflexivity).
  destruct s, s'; try discriminate; try reflexivity;
    rewrite (Z.compare_antisym e e'), (ZC4 m' m);
    destruct (e ?= e')%Z; cbn; try discriminate; try reflexivity;
    destruct (Pos.compare_cont Eq m m'); cbn; try discriminate; reflexivity.
Qed.

(** [a < a] is false, NaN included. *)
Lemma ltb_irrefl (a : cl_double) : (a <? a) = false.
Proof.
  rewrite ltb_spec. unfold SFltb.
  pose proof (SFcompare_refl_not_lt (Prim2SF a)) as H.
  destruct (SFcompare (Prim2SF a) (Prim2SF a)) as [[]|]; congruence.
Qed.

Lemma ltb_asym (a b : cl_double) : (a <? b) = true -> (b <? a) = false.
Proof.
  rewrite !ltb_spec. unfold SFltb.
  destruct (SFcompare (Prim2SF a) (Prim2SF b)) as [[]|] eqn:E; try discriminate.
  intros _. rewrite (SFcompare_asym _ _ E). reflexivity.
Qed.

(** Nothing is below a NaN. *)
Lemma ltb_nan_r (a b : cl_double) : is_nan b = true -> (a <? b) = false.
Proof.
  rewrite is_nan_spec, ltb_spec.
  destruct (Prim2SF b) as [s|s| |s m e]; try discriminate.
  intros _. destruct (Prim2SF a) as [s|s| |s m e]; reflexivity.
Qed.

(** [max(a, b)] and [fmax(a, b)] are never below [a]. *)
Lemma max_not_below_l (a b : cl_double) : (max a b <? a) = false.
Proof.
  unfold max. destruct (a <? b) eqn:E; [apply ltb_asym; exact E | apply ltb_irrefl].
Qed.

Lemma fmax_not_below_l (a b : cl_double) : (fmax a b <? a) = false.
Proof.
  unfold fmax. destruct (is_nan a) eqn:Ea; [apply ltb_nan_r; exact Ea|].
  destruct (is_nan b); [apply ltb_irrefl|].
  destruct (a <? b) eqn:E; [apply ltb_asym; exact E | apply ltb_irrefl].
Qed.

(** *** Buffers *)

Lemma store_same {A : Type} (p : buffer A) (i : Z) (v : A) : store p i v i = v.
Proof. unfold store. rewrite Z.eqb_refl. reflexivity. Qed.

Lemma store_other {A : Type} (p : buffer A) (i j : Z) (v : A) :
  j <> i -> store p i v j = p j.
Proof. intro H. unfold store. apply Z.eqb_neq in H. rewrite H. reflexivity. Qed.

Lemma read_in_bounds {A : Type} (p : list A) (i : Z) :
  (0 <= i < Z.of_nat (List.length p))%Z -> read p i <> None.
Proof.
  intros [H0 H1]. unfold read.
  replace (i <? 0)%Z with false by (symmetry; apply Z.ltb_ge; exact H0).
  apply nth_error_Some. lia.
Qed.

(** *** The scheme kernels write one cell *)

(** The paths of a kernel whose result is a buffer applied to an index. *)
Ltac kernel_paths :=
  repeat lazymatch goal with
    | |- (match ?c with _ => _ end) _ = _ => destruct c
    end.

(** Each work-item of the scheme kernels writes its own cell of the
    destination buffer and no other: at every other index the destination is
    what it was. *)
Theorem scheme_kernels_write_own_cell :
  forall (M : libm) (B : build) (lIdxX lIdxY : Z) (dTimestep : cl_double)
         (dBedElevation : buffer cl_double)
         (pCellStateSrc pCellStateDst : buffer cl_double4)
         (dManning : buffer cl_double) (j : Z),
    j <> getCellID B lIdxX lIdxY ->
    gts_cacheDisabled M B lIdxX lIdxY dTimestep
      dBedElevation pCellStateSrc pCellStateDst dManning j = pCellStateDst j
    /\ ine_cacheDisabled M B lIdxX lIdxY dTimestep
         dBedElevation pCellStateSrc pCellStateDst dManning j = pCellStateDst j.
Proof.
  intros M B x y dt bed src dst man j Hj. split.
  - unfold gts_cacheDisabled. cbv zeta.
    kernel_paths; try reflexivity; apply store_other; exact Hj.
  - unfold ine_cacheDisabled. cbv zeta.
    kernel_paths; try reflexivity; apply store_other; exact Hj.
Qed.

(** A pond 1 m deep around the dry cell (2, 1), on a flat bed. *)
Definition pond : buffer cl_double4 :=
  fun i => if (i =? 6)%Z then mk4 0 0 0 0 else mk4 1 1 0 0.

(** Work-item (1, 1) of the 4 x 4 domain leaves cell 6 of the destination
    alone. *)
Lemma scheme_kernels_write_own_cell_witness :
  gts_cacheDisabled Series.math grid4x4 1 1 0.1 (uniform 0) pond (uniform (mk4 0 0 0 0))
    (uniform 0.03) 6%Z = mk4 0 0 0 0
  /\ ine_cacheDisabled Series.math grid4x4 1 1 0.1 (uniform 0) pond (uniform (mk4 0 0 0 0))
       (uniform 0.03) 6%Z = mk4 0 0 0 0.
Proof.
  apply (scheme_kernels_write_own_cell Series.math grid4x4 1 1 0.1 (uniform 0) pond
           (uniform (mk4 0 0 0 0)) (uniform 0.03) 6%Z).
  vm_compute. discriminate.
Defined.

(** *** What the scheme kernels commit *)

(** The test "All neighbours are dry? Don't bother calculating" of the scheme
    kernels, on the cell of work-item [(lIdxX, lIdxY)] and its four
    neighbours. *)
Definition all_dry (B : build) (lIdxX lIdxY : Z)
    (dBedElevation : buffer cl_double) (pCellStateSrc : buffer cl_double4) : bool :=
  let cell (i : Z) := (pCellStateSrc i, dBedElevation i) in
  (dry_count [cell (getCellID B lIdxX lIdxY);
              cell (getNeighbourByIndices B lIdxX lIdxY DOMAIN_DIR_N);
              cell (getNeighbourByIndices B lIdxX lIdxY DOMAIN_DIR_E);
              cell (getNeighbourByIndices B lIdxX lIdxY DOMAIN_DIR_S);
              cell (getNeighbourByIndices B lIdxX lIdxY DOMAIN_DIR_W)] >=? 5)%Z.

(** Friction works on the discharges only. *)
Lemma implicitFriction_keeps_level (M : libm) (c : cl_double4) (bed h n dt : cl_double) :
  vx (implicitFriction M c bed h n dt) = vx c /\ vy (implicitFriction M c bed h n dt) = vy c.
Proof.
  unfold implicitFriction. cbv zeta.
  destruct (_ <? VERY_SMALL); split; reflexivity.
Qed.

(** The end of [gts_cacheDisabled], from "Crazy low depths?" to the committed
    value, for an updated state [c] and its state [F] after friction. *)
Lemma gts_commit_tail (c F : cl_double4) (bed : cl_double) :
  vx F = vx c -> vy F = vy c ->
  let W := if vx c - bed <? VERY_SMALL then set_x F bed else F in
  let r := if gtb (vx W) (vy W) && gtb (vy W) (-9990.0) then set_y W (vx W) else W in
  (vx r = bed \/ (vx r - bed <? VERY_SMALL) = false)
  /\ (gtb (vx r) (vy r) && gtb (vy r) (-9990.0)) = false
  /\ (vy r = vy c \/ (vy c <? vy r) = true).
Proof.
  intros Hx Hy W r.
  assert (HWy : vy W = vy c).
  { subst W. destruct (vx c - bed <? VERY_SMALL); cbn; exact Hy. }
  assert (HWx : vx W = bed \/ (vx W - bed <? VERY_SMALL) = false).
  { subst W. destruct (vx c - bed <? VERY_SMALL) eqn:Hd; cbn; [left; reflexivity|].
    right. rewrite Hx. exact Hd. }
  subst r. destruct (gtb (vx W) (vy W) && gtb (vy W) (-9990.0)) eqn:Hc; cbn.
  - apply andb_prop in Hc. destruct Hc as [Hc _]. unfold gtb in *.
    rewrite ltb_irrefl. split; [exact HWx | split; [reflexivity|]].
    right. rewrite <- HWy. exact Hc.
  - split; [exact HWx | split; [exact Hc | left; exact HWy]].
Qed.

(** What a work-item of [gts_cacheDisabled] commits when it computes. *)
Lemma gts_commit :
  forall (M : libm) (B : build) (lIdxX lIdxY : Z) (dTimestep : cl_double)
         (dBedElevation : buffer cl_double)
         (pCellStateSrc pCellStateDst : buffer cl_double4)
         (dManning : buffer cl_double),
    let ulIdx := getCellID B lIdxX lIdxY in
    let r := gts_cacheDisabled M B lIdxX lIdxY dTimestep
               dBedElevation pCellStateSrc pCellStateDst dManning ulIdx in
    outside_domain B lIdxX lIdxY = false ->
    (dTimestep <=? 0) = false ->
    cell_disabled (pCellStateSrc ulIdx) = false ->
    all_dry B lIdxX lIdxY dBedElevation pCellStateSrc = false ->
    (vx r = dBedElevation ulIdx \/ (vx r - dBedElevation ulIdx <? VERY_SMALL) = false)
    /\ (gtb (vx r) (vy r) && gtb (vy r) (-9990.0)) = false
    /\ (vy r = vy (pCellStateSrc ulIdx) \/ (vy (pCellStateSrc ulIdx) <? vy r) = true).
Proof.
  intros M B x y dt bed src dst man id r Hin Hdt Hen Hdry. subst r.
  unfold all_dry in Hdry. cbv zeta in Hdry.
  unfold gts_cacheDisabled. cbv zeta. fold id in Hdry |- *.
  rewrite Hin, Hdt, Hen, Hdry.
  destruct (reconstructInterface _ _ _ _ DOMAIN_DIR_N) as [[sN lN] rN].
  destruct (reconstructInterface _ _ _ _ DOMAIN_DIR_S) as [[sS lS] rS].
  destruct (reconstructInterface _ _ _ _ DOMAIN_DIR_E) as [[sE lE] rE].
  destruct (reconstructInterface _ _ _ _ DOMAIN_DIR_W) as [[sW lW] rW].
  rewrite store_same.
  match goal with
  | |- context [implicitFriction M ?c _ _ _ _] =>
      assert (Hvy : vy c = vy (src id)) by (destruct (_ >? 0)%Z; reflexivity);
      revert Hvy; generalize c
  end.
  intros c Hvy. rewrite <- Hvy.
  apply gts_commit_tail.
  - destruct (FRICTION_IN_FLUX_KERNEL B && _); [apply implicitFriction_keeps_level | reflexivity].
  - destruct (FRICTION_IN_FLUX_KERNEL B && _); [apply implicitFriction_keeps_level | reflexivity].
Qed.

(** The end of [ine_cacheDisabled], from "New max FSL?" to the committed
    value, for an updated state [c]. *)
Lemma ine_commit_tail (c : cl_double4) (bed : cl_double) :
  let W := if gtb (vx c) (vy c) then set_y c (vx c) else c in
  let r := if vx W - bed <? VERY_SMALL then set_x W bed else W in
  (vx r = bed \/ (vx r - bed <? VERY_SMALL) = false)
  /\ (vy r = vy c \/ (vy c <? vy r) = true).
Proof.
  intros W r. split.
  - subst r. destruct (vx W - bed <? VERY_SMALL) eqn:Hd; cbn;
      [left; reflexivity | right; exact Hd].
  - assert (HW : vy W = vy c \/ (vy c <? vy W) = true).
    { subst W. unfold gtb. destruct (vy c <? vx c) eqn:Hc; cbn;
        [right; exact Hc | left; reflexivity]. }
    subst r. destruct (vx W - bed <? VERY_SMALL); cbn; exact HW.
Qed.

(** What a work-item of [ine_cacheDisabled] commits when it computes. *)
Lemma ine_commit :
  forall (M : libm) (B : build) (lIdxX lIdxY : Z) (dTimestep : cl_double)
         (dBedElevation : buffer cl_double)
         (pCellStateSrc pCellStateDst : buffer cl_double4)
         (dManning : buffer cl_double),
    let ulIdx := getCellID B lIdxX lIdxY in
    let r := ine_cacheDisabled M B lIdxX lIdxY dTimestep
               dBedElevation pCellStateSrc pCellStateDst dManning ulIdx in
    outside_domain B lIdxX lIdxY = false ->
    (dTimestep <=? 0) = false ->
    cell_disabled (pCellStateSrc ulIdx) = false ->
    all_dry B lIdxX lIdxY dBedElevation pCellStateSrc = false ->
    (vx r = dBedElevation ulIdx \/ (vx r - dBedElevation ulIdx <? VERY_SMALL) = false)
    /\ (vy r = vy (pCellStateSrc ulIdx) \/ (vy (pCellStateSrc ulIdx) <? vy r) = true).
Proof.
  intros M B x y dt bed src dst man id r Hin Hdt Hen Hdry. subst r.
  unfold all_dry in Hdry. cbv zeta in Hdry.
  unfold ine_cacheDisabled. cbv zeta. fold id in Hdry |- *.
  rewrite Hin, Hdt, Hen, Hdry. rewrite store_same.
  match goal with
  | |- context [gtb (vx ?c) (vy ?c)] =>
      assert (Hvy : vy c = vy (src id)) by reflexivity;
      revert Hvy; generalize c
  end.
  intros c Hvy. rewrite <- Hvy. apply ine_commit_tail.
Qed.

(** A cell never leaves a computing work-item of the scheme kernels with a
    depth below [VERY_SMALL]: the committed level is the bed itself, or the
    test [eta - zb < VERY_SMALL] fails on it. *)
Theorem scheme_kernels_commit_depth :
  forall (M : libm) (B : build) (lIdxX lIdxY : Z) (dTimestep : cl_double)
         (dBedElevation : buffer cl_double)
         (pCellStateSrc pCellStateDst : buffer cl_double4)
         (dManning : buffer cl_double),
    let ulIdx := getCellID B lIdxX lIdxY in
    let depth_ok (c : cl_double4) :=
      vx c = dBedElevation ulIdx \/ (vx c - dBedElevation ulIdx <? VERY_SMALL) = false in
    outside_domain B lIdxX lIdxY = false ->
    (dTimestep <=? 0) = false ->
    cell_disabled (pCellStateSrc ulIdx) = false ->
    all_dry B lIdxX lIdxY dBedElevation pCellStateSrc = false ->
    depth_ok (gts_cacheDisabled M B lIdxX lIdxY dTimestep
                dBedElevation pCellStateSrc pCellStateDst dManning ulIdx)
    /\ depth_ok (ine_cacheDisabled M B lIdxX lIdxY dTimestep
                   dBedElevation pCellStateSrc pCellStateDst dManning ulIdx).
Proof.
  intros M B x y dt bed src dst man id ok Hin Hdt Hen Hdry. split.
  - apply (gts_commit M B x y dt bed src dst man Hin Hdt Hen Hdry).
  - apply (ine_commit M B x y dt bed src dst man Hin Hdt Hen Hdry).
Qed.

(** Cell (1, 1) of the pond. *)
Lemma scheme_kernels_commit_depth_witness :
  let depth_ok (c : cl_double4) := vx c = 0 \/ (vx c - 0 <? VERY_SMALL) = false in
  depth_ok (gts_cacheDisabled Series.math grid4x4 1 1 0.1 (uniform 0) pond
              (uniform (mk4 0 0 0 0)) (uniform 0.03) 5%Z)
  /\ depth_ok (ine_cacheDisabled Series.math grid4x4 1 1 0.1 (uniform 0) pond
                 (uniform (mk4 0 0 0 0)) (uniform 0.03) 5%Z).
Proof.
  apply (scheme_kernels_commit_depth Series.math grid4x4 1 1 0.1 (uniform 0) pond
           (uniform (mk4 0 0 0 0)) (uniform 0.03)); reflexivity.
Defined.

(** The maximum level recorded for a cell is never lowered by a computing
    work-item of the scheme kernels: it is kept or replaced by a larger
    value. *)
Theorem scheme_kernels_max_level_never_lowered :
  forall (M : libm) (B : build) (lIdxX lIdxY : Z) (dTimestep : cl_double)
         (dBedElevation : buffer cl_double)
         (pCellStateSrc pCellStateDst : buffer cl_double4)
         (dManning : buffer cl_double),
    let ulIdx := getCellID B lIdxX lIdxY in
    let kept (c : cl_double4) :=
      vy c = vy (pCellStateSrc ulIdx) \/ (vy (pCellStateSrc ulIdx) <? vy c) = true in
    outside_domain B lIdxX lIdxY = false ->
    (dTimestep <=? 0) = false ->
    cell_disabled (pCellStateSrc ulIdx) = false ->
    all_dry B lIdxX lIdxY dBedElevation pCellStateSrc = false ->
    kept (gts_cacheDisabled M B lIdxX lIdxY dTimestep
            dBedElevation pCellStateSrc pCellStateDst dManning ulIdx)
    /\ kept (ine_cacheDisabled M B lIdxX lIdxY dTimestep
               dBedElevation pCellStateSrc pCellStateDst dManning ulIdx).
Proof.
  intros M B x y dt bed src dst man id kept Hin Hdt Hen Hdry. split.
  - apply (gts_commit M B x y dt bed src dst man Hin Hdt Hen Hdry).
  - apply (ine_commit M B x y dt bed src dst man Hin Hdt Hen Hdry).
Qed.

(** Cell (1, 1) of the pond. *)
Lemma scheme_kernels_max_level_never_lowered_witness :
  let kept (c : cl_double4) := vy c = 1 \/ (1 <? vy c) = true in
  kept (gts_cacheDisabled Series.math grid4x4 1 1 0.1 (uniform 0) pond
          (uniform (mk4 0 0 0 0)) (uniform 0.03) 5%Z)
  /\ kept (ine_cacheDisabled Series.math grid4x4 1 1 0.1 (uniform 0) pond
             (uniform (mk4 0 0 0 0)) (uniform 0.03) 5%Z).
Proof.
  apply (scheme_kernels_max_level_never_lowered Series.math grid4x4 1 1 0.1 (uniform 0) pond
           (uniform (mk4 0 0 0 0)) (uniform 0.03)); reflexivity.
Defined.

(** In the state a computing work-item of [gts_cacheDisabled] commits, the
    test "New max FSL?" fails: the level is not above the recorded maximum
    level, unless that maximum is not above -9990 (or a NaN is involved). *)
Theorem gts_commit_level_below_max :
  forall (M : libm) (B : build) (lIdxX lIdxY : Z) (dTimestep : cl_double)
         (dBedElevation : buffer cl_double)
         (pCellStateSrc pCellStateDst : buffer cl_double4)
         (dManning : buffer cl_double),
    let ulIdx := getCellID B lIdxX lIdxY in
    let r := gts_cacheDisabled M B lIdxX lIdxY dTimestep
               dBedElevation pCellStateSrc pCellStateDst dManning ulIdx in
    outside_domain B lIdxX lIdxY = false ->
    (dTimestep <=? 0) = false ->
    cell_disabled (pCellStateSrc ulIdx) = false ->
    all_dry B lIdxX lIdxY dBedElevation pCellStateSrc = false ->
    (gtb (vx r) (vy r) && gtb (vy r) (-9990.0)) = false.
Proof.
  intros M B x y dt bed src dst man id r Hin Hdt Hen Hdry.
  apply (gts_commit M B x y dt bed src dst man Hin Hdt Hen Hdry).
Qed.

(** Cell (1, 1) of the pond. *)
Lemma gts_commit_level_below_max_witness :
  let r := gts_cacheDisabled Series.math grid4x4 1 1 0.1 (uniform 0) pond
             (uniform (mk4 0 0 0 0)) (uniform 0.03) 5%Z in
  (gtb (vx r) (vy r) && gtb (vy r) (-9990.0)) = false.
Proof.
  apply (gts_commit_level_below_max Series.math grid4x4 1 1 0.1 (uniform 0) pond
           (uniform (mk4 0 0 0 0)) (uniform 0.03)); reflexivity.
Defined.

(** Cell (1, 1) disabled by its maximum level. *)
Lemma scheme_kernels_copy_disabled_witness :
  let src := uniform (mk4 1 (-9999) 0 0) in
  let dst := uniform (mk4 0.5 0.5 0 0) in
  gts_cacheDisabled Series.math grid4x4 1 1 0.1 (uniform 0) src dst (uniform 0.03) 5%Z
  = mk4 1 (-9999) 0 0
  /\ ine_cacheDisabled Series.math grid4x4 1 1 0.1 (uniform 0) src dst (uniform 0.03) 5%Z
     = mk4 1 (-9999) 0 0.
Proof.
  apply (scheme_kernels_copy_disabled Series.math grid4x4 1 1 0.1 (uniform 0)
           (uniform (mk4 1 (-9999) 0 0)) (uniform (mk4 0.5 0.5 0 0)) (uniform 0.03));
    reflexivity.
Defined.

(** A disabled cell (maximum level -9999) under the rain grids. *)
Lemma gridded_kernels_skip_disabled_witness :
  let pCellState := uniform (mk4 1 (-9999) 0 0) in
  bdy_Gridded grid4x4 1 1 rain_boundary rain_series 100 1 0.25
    pCellState (uniform 0) (uniform 0.03) = Some pCellState
  /\ bdy_StreamingGridded grid4x4 1 1 rain_boundary rain_series 100 1 0.25
       pCellState (uniform 0) (uniform 0.03) = Some pCellState.
Proof.
  apply (gridded_kernels_skip_disabled grid4x4 1 1 rain_boundary rain_series 100 1 0.25
           (uniform (mk4 1 (-9999) 0 0)) (uniform 0) (uniform 0.03)).
  vm_compute. reflexivity.
Defined.

(** *** Friction and rain *)

(** [per_Friction] changes the discharges of its own cell and nothing else:
    every level and maximum level of the buffer is kept, and so is every other
    cell. *)
Theorem per_Friction_only_discharge :
  forall (M : libm) (B : build) (lIdxX lIdxY : Z) (dTimestep : cl_double)
         (pCellData : buffer cl_double4) (dBedData dManningData : buffer cl_double) (j : Z),
    let pCellData' := per_Friction M B lIdxX lIdxY dTimestep pCellData dBedData dManningData in
    vx (pCellData' j) = vx (pCellData j)
    /\ vy (pCellData' j) = vy (pCellData j)
    /\ (j <> getCellID B lIdxX lIdxY -> pCellData' j = pCellData j).
Proof.
  intros M B x y dt p bed man j p'. subst p'.
  unfold per_Friction. cbv zeta.
  repeat lazymatch goal with
    | |- context [if ?c then p else _] => destruct c
    end; try (repeat split; reflexivity).
  unfold store. destruct (j =? getCellID B x y)%Z eqn:E.
  - apply Z.eqb_eq in E. subst j.
    destruct (implicitFriction_keeps_level M (p (getCellID B x y)) (bed (getCellID B x y))
                (vx (p (getCellID B x y)) - bed (getCellID B x y)) (man (getCellID B x y)) dt)
      as [Hx Hy].
    split; [exact Hx | split; [exact Hy | intro H; contradiction H; reflexivity]].
  - repeat split; reflexivity.
Qed.

(** Rain, loss and mass flux change the level of the work-item's own cell and
    nothing else: whenever one of the three kernels returns, the maximum level
    and the discharges of every cell are kept, and so is every other cell. *)
Theorem rain_kernels_only_level :
  forall (B : build) (lIdxX lIdxY : Z)
         (pUniform : sBdyUniformConfiguration) (pUniformSeries : list (cl_double * cl_double))
         (pGridded : sBdyGriddedConfiguration) (pGriddedSeries : list cl_double)
         (pTime pTimestep pTimeHydrological : cl_double)
         (pCellState pCellState' : buffer cl_double4) (pCellBed pCellManning : buffer cl_double),
    bdy_Uniform B lIdxX lIdxY pUniform pUniformSeries pTime pTimestep pTimeHydrological
      pCellState pCellBed pCellManning = Some pCellState'
    \/ bdy_Gridded B lIdxX lIdxY pGridded pGriddedSeries pTime pTimestep pTimeHydrological
         pCellState pCellBed pCellManning = Some pCellState'
    \/ bdy_StreamingGridded B lIdxX lIdxY pGridded pGriddedSeries pTime pTimestep
         pTimeHydrological pCellState pCellBed pCellManning = Some pCellState' ->
    forall j : Z,
      vy (pCellState' j) = vy (pCellState j)
      /\ vz (pCellState' j) = vz (pCellState j)
      /\ vw (pCellState' j) = vw (pCellState j)
      /\ (j <> getCellID B lIdxX lIdxY -> pCellState' j = pCellState j).
Proof.
  intros B x y cu su cg sg t dt th st st' bed man H j.
  assert (Hst : st' = st
                \/ exists v, st' = store st (getCellID B x y) (set_x (st (getCellID B x y)) v)).
  { destruct H as [H | [H | H]].
    - unfold bdy_Uniform in H. cbv zeta in H.
      repeat lazymatch type of H with
        | (if ?c then Some st else _) = _ => destruct c
        end; try (left; congruence).
      destruct (read su _) as [rec|]; [|discriminate].
      injection H as <-. right.
      destruct (bu_Definition cu =? BOUNDARY_UNIFORM_RAIN_INTENSITY)%Z;
        destruct (bu_Definition cu =? BOUNDARY_UNIFORM_LOSS_RATE)%Z;
        first [ eexists; reflexivity
              | exists (vx (st (getCellID B x y)));
                destruct (st (getCellID B x y)); reflexivity ].
    - unfold bdy_Gridded in H. cbv zeta in H.
      repeat lazymatch type of H with
        | (if ?c then Some st else _) = _ => destruct c
        end; try (left; congruence).
      destruct (read sg _) as [rate|]; [|discriminate].
      injection H as <-. right.
      destruct (bg_Definition cg =? BOUNDARY_GRIDDED_RAIN_INTENSITY)%Z;
        destruct (bg_Definition cg =? BOUNDARY_GRIDDED_MASS_FLUX)%Z;
        first [ eexists; reflexivity
              | exists (vx (st (getCellID B x y)));
                destruct (st (getCellID B x y)); reflexivity ].
    - unfold bdy_StreamingGridded in H. cbv zeta in H.
      repeat lazymatch type of H with
        | (if ?c then Some st else _) = _ => destruct c
        end; try (left; congruence).
      destruct (read sg _) as [rate|]; [|discriminate].
      injection H as <-. right.
      destruct (bg_Definition cg =? BOUNDARY_GRIDDED_RAIN_INTENSITY)%Z;
        [| destruct (bg_Definition cg =? BOUNDARY_GRIDDED_MASS_FLUX)%Z];
        first [ eexists; reflexivity
              | exists (vx (st (getCellID B x y)));
                destruct (st (getCellID B x y)); reflexivity ]. }
  destruct Hst as [-> | [v ->]]; [repeat split; reflexivity|].
  unfold store. destruct (j =? getCellID B x y)%Z eqn:E.
  - apply Z.eqb_eq in E. subst j.
    repeat split; try reflexivity. intro Hne. contradiction Hne. reflexivity.
  - repeat split; reflexivity.
Qed.

(** Rain of 36 mm/hr on cell (1, 1), seen from cell (2, 1). *)
Lemma rain_kernels_only_level_witness :
  let pCellState := uniform (mk4 1 1 0 0) in
  let pCellState' := store pCellState 5%Z (mk4 (1 + 36 / 3600000 * 0.25) 1 0 0) in
  bdy_Gridded grid4x4 1 1 rain_boundary rain_series 100 1 0.25
    pCellState (uniform 0) (uniform 0.03) = Some pCellState'
  /\ vy (pCellState' 6%Z) = vy (pCellState 6%Z)
  /\ vz (pCellState' 6%Z) = vz (pCellState 6%Z)
  /\ vw (pCellState' 6%Z) = vw (pCellState 6%Z)
  /\ (6%Z <> getCellID grid4x4 1 1 -> pCellState' 6%Z = pCellState 6%Z).
Proof.
  intros pCellState pCellState'.
  assert (H : bdy_Gridded grid4x4 1 1 rain_boundary rain_series 100 1 0.25
                pCellState (uniform 0) (uniform 0.03) = Some pCellState')
    by (vm_compute; reflexivity).
  split; [exact H|].
  exact (rain_kernels_only_level grid4x4 1 1
           {| bu_TimeseriesEntries := 0; bu_TimeseriesInterval := 0;
              bu_TimeseriesLength := 0; bu_Definition := 0 |} []
           rain_boundary rain_series 100 1 0.25
           pCellState pCellState' (uniform 0) (uniform 0.03)
           (or_intror (or_introl H)) 6%Z).
Defined.

(** *** Reads of the gridded series *)

(** While the simulation time lies inside the series and the cell inside the
    grid, the linear index is row-major within the grid of its time and lies
    below [TimeseriesEntries * GridRows * GridCols]. *)
Lemma gridded_index_in_bounds :
  forall (B : build) (lIdxX lIdxY : Z) (pConfig : sBdyGriddedConfiguration) (dLclTime : cl_double),
    let ulRow :=
      ulong_of_double
        (floor ((double_of_Z lIdxY * DOMAIN_DELTAY B - bg_GridOffsetY pConfig)
                / bg_GridResolution pConfig)) in
    let ulColumn :=
      ulong_of_double
        (floor ((double_of_Z lIdxX * DOMAIN_DELTAX B - bg_GridOffsetX pConfig)
                / bg_GridResolution pConfig)) in
    let ulTimestep :=
      ulong_of_double (floor (dLclTime / bg_TimeseriesInterval pConfig)) in
    (ulTimestep < bg_TimeseriesEntries pConfig)%Z ->
    (ulRow < bg_GridRows pConfig)%Z ->
    (ulColumn < bg_GridCols pConfig)%Z ->
    (bg_TimeseriesEntries pConfig * bg_GridRows pConfig * bg_GridCols pConfig < 2 ^ 64)%Z ->
    (0 <= gridded_index B lIdxX lIdxY pConfig dLclTime
     < bg_TimeseriesEntries pConfig * bg_GridRows pConfig * bg_GridCols pConfig)%Z
    /\ gridded_index B lIdxX lIdxY pConfig dLclTime
       = (ulTimestep * (bg_GridRows pConfig * bg_GridCols pConfig)
          + ulRow * bg_GridCols pConfig + ulColumn)%Z.
Proof.
  intros B x y cfg t row col ts Hts Hrow Hcol Hfit.
  assert (H0r : (0 <= row)%Z) by apply ulong_of_double_nonneg.
  assert (H0c : (0 <= col)%Z) by apply ulong_of_double_nonneg.
  assert (H0t : (0 <= ts)%Z) by apply ulong_of_double_nonneg.
  set (R := bg_GridRows cfg) in *. set (C := bg_GridCols cfg) in *.
  set (E := bg_TimeseriesEntries cfg) in *.
  assert (H1 : (0 < R * C)%Z) by (apply Z.mul_pos_pos; lia).
  assert (H2 : (0 <= R * C * ts)%Z) by (apply Z.mul_nonneg_nonneg; lia).
  assert (H3 : (0 <= C * row)%Z) by (apply Z.mul_nonneg_nonneg; lia).
  assert (H5 : (R * C * ts <= R * C * (E - 1))%Z) by (apply Z.mul_le_mono_nonneg_l; lia).
  assert (H6 : (C * row <= C * (R - 1))%Z) by (apply Z.mul_le_mono_nonneg_l; lia).
  assert (H7 : (R * C * (E - 1) = E * R * C - R * C)%Z) by ring.
  assert (H8 : (C * (R - 1) = R * C - C)%Z) by ring.
  unfold gridded_index. cbv zeta. fold row col ts R C E.
  replace (ts >=? E)%Z with false
    by (symmetry; rewrite Z.geb_leb; apply Z.leb_gt; exact Hts).
  unfold cl_ulong_wrap.
  rewrite (Z.mod_small (R * C)) by lia.
  rewrite (Z.mod_small (R * C * ts)) by lia.
  rewrite (Z.mod_small (C * row)) by lia.
  rewrite Z.mod_small by lia.
  split; [lia | ring].
Qed.

(** While the simulation time lies inside the series and the cell inside the
    grid, neither gridded kernel reads outside its payload buffer: the
    resident series holds [TimeseriesEntries] grids of [GridRows * GridCols]
    values, the streamed buffer one grid. *)
Theorem gridded_kernels_read_inside :
  forall (B : build) (lIdxX lIdxY : Z) (pConfig : sBdyGriddedConfiguration)
         (pTimeseries pValues : list cl_double)
         (pTime pTimestep pTimeHydrological : cl_double)
         (pCellState : buffer cl_double4) (pCellBed pCellManning : buffer cl_double),
    let ulRow :=
      ulong_of_double
        (floor ((double_of_Z lIdxY * DOMAIN_DELTAY B - bg_GridOffsetY pConfig)
                / bg_GridResolution pConfig)) in
    let ulColumn :=
      ulong_of_double
        (floor ((double_of_Z lIdxX * DOMAIN_DELTAX B - bg_GridOffsetX pConfig)
                / bg_GridResolution pConfig)) in
    let ulTimestep :=
      ulong_of_double (floor (pTime / bg_TimeseriesInterval pConfig)) in
    (ulRow < bg_GridRows pConfig)%Z ->
    (ulColumn < bg_GridCols pConfig)%Z ->
    (ulTimestep < bg_TimeseriesEntries pConfig)%Z ->
    (bg_TimeseriesEntries pConfig * bg_GridRows pConfig * bg_GridCols pConfig < 2 ^ 64)%Z ->
    Z.of_nat (List.length pTimeseries)
    = (bg_TimeseriesEntries pConfig * bg_GridRows pConfig * bg_GridCols pConfig)%Z ->
    Z.of_nat (List.length pValues) = (bg_GridRows pConfig * bg_GridCols pConfig)%Z ->
    bdy_Gridded B lIdxX lIdxY pConfig pTimeseries pTime pTimestep pTimeHydrological
      pCellState pCellBed pCellManning <> None
    /\ bdy_StreamingGridded B lIdxX lIdxY pConfig pValues pTime pTimestep pTimeHydrological
         pCellState pCellBed pCellManning <> None.
Proof.
  intros B x y cfg series values t dt th st bed man row col ts Hrow Hcol Hts Hfit Hlen Hlen'.
  assert (H0r : (0 <= row)%Z) by apply ulong_of_double_nonneg.
  assert (H0c : (0 <= col)%Z) by apply ulong_of_double_nonneg.
  assert (H0t : (0 <= ts)%Z) by apply ulong_of_double_nonneg.
  split.
  - unfold bdy_Gridded. cbv zeta.
    repeat lazymatch goal with
      | |- (if ?c then Some st else _) <> None => destruct c; [discriminate|]
      end.
    pose proof (gridded_index_in_bounds B x y cfg t Hts Hrow Hcol Hfit) as [Hin _].
    rewrite <- Hlen in Hin. apply read_in_bounds in Hin.
    destruct (read series _); [discriminate | contradiction Hin; reflexivity].
  - unfold bdy_StreamingGridded. cbv zeta. fold row col.
    repeat lazymatch goal with
      | |- (if ?c then Some st else _) <> None => destruct c; [discriminate|]
      end.
    set (R := bg_GridRows cfg) in *. set (C := bg_GridCols cfg) in *.
    set (E := bg_TimeseriesEntries cfg) in *.
    assert (H3 : (0 <= C * row)%Z) by (apply Z.mul_nonneg_nonneg; lia).
    assert (H6 : (C * row <= C * (R - 1))%Z) by (apply Z.mul_le_mono_nonneg_l; lia).
    assert (H8 : (C * (R - 1) = R * C - C)%Z) by ring.
    assert (H9 : (R * C <= E * (R * C))%Z).
    { rewrite <- (Z.mul_1_l (R * C)) at 1. apply Z.mul_le_mono_nonneg_r; [|lia].
      apply Z.mul_nonneg_nonneg; lia. }
    assert (H10 : (E * (R * C) = E * R * C)%Z) by ring.
    assert (Hin : (0 <= cl_ulong_wrap (cl_ulong_wrap (C * row) + col)
                   < Z.of_nat (List.length values))%Z).
    { unfold cl_ulong_wrap. rewrite (Z.mod_small (C * row)) by lia.
      rewrite Z.mod_small by lia. lia. }
    apply read_in_bounds in Hin.
    destruct (read values _); [discriminate | contradiction Hin; reflexivity].
Qed.

(** Cell (1, 1) at t = 100 s, inside the first of the two hourly grids. *)
Lemma gridded_kernels_read_inside_witness :
  bdy_Gridded grid4x4 1 1 rain_boundary rain_series 100 1 0.25
    (uniform (mk4 1 1 0 0)) (uniform 0) (uniform 0.03) <> None
  /\ bdy_StreamingGridded grid4x4 1 1 rain_boundary [36; 36; 36; 36] 100 1 0.25
       (uniform (mk4 1 1 0 0)) (uniform 0) (uniform 0.03) <> None.
Proof.
  apply (gridded_kernels_read_inside grid4x4 1 1 rain_boundary rain_series [36; 36; 36; 36]
           100 1 0.25 (uniform (mk4 1 1 0 0)) (uniform 0) (uniform 0.03));
    vm_compute; reflexivity.
Defined.

(** *** Levels and beds *)

(** A uniform loss never takes the level of a cell below its bed: when
    [bdy_Uniform] returns in loss mode it has left the buffer alone, or the
    level of its cell is not below the bed. *)
Theorem bdy_Uniform_loss_stops_at_bed :
  forall (B : build) (lIdxX lIdxY : Z)
         (pConfig : sBdyUniformConfiguration) (pTimeseries : list (cl_double * cl_double))
         (pTime pTimestep pTimeHydrological : cl_double)
         (pCellState pCellState' : buffer cl_double4) (pCellBed pCellManning : buffer cl_double),
    let ulIdx := getCellID B lIdxX lIdxY in
    bu_Definition pConfig = BOUNDARY_UNIFORM_LOSS_RATE ->
    bdy_Uniform B lIdxX lIdxY pConfig pTimeseries pTime pTimestep pTimeHydrological
      pCellState pCellBed pCellManning = Some pCellState' ->
    pCellState' = pCellState
    \/ (vx (pCellState' ulIdx) <? pCellBed ulIdx) = false.
Proof.
  intros B x y cfg ts t dt th st st' bed man id Hdef H.
  unfold bdy_Uniform in H. cbv zeta in H. fold id in H.
  repeat lazymatch type of H with
    | (if ?c then Some st else _) = _ => destruct c
    end; try (left; congruence).
  destruct (read ts _) as [rec|]; [|discriminate].
  injection H as <-. right.
  rewrite Hdef. cbn [Z.eqb BOUNDARY_UNIFORM_LOSS_RATE BOUNDARY_UNIFORM_RAIN_INTENSITY Pos.eqb].
  rewrite store_same. cbn [vx set_x]. apply max_not_below_l.
Qed.

(** A loss of 36 m/hr over a quarter of a second on a cell 1 mm deep. *)
Definition loss_boundary : sBdyUniformConfiguration :=
  {| bu_TimeseriesEntries := 2;
     bu_TimeseriesInterval := 3600;
     bu_TimeseriesLength := 3600;
     bu_Definition := BOUNDARY_UNIFORM_LOSS_RATE |}.

Lemma bdy_Uniform_loss_stops_at_bed_witness :
  let pCellState := uniform (mk4 0.001 1 0 0) in
  let pCellState' := store pCellState 5%Z (mk4 0 1 0 0) in
  bdy_Uniform grid4x4 1 1 loss_boundary [(0, 36000); (3600, 36000)] 100 1 0.25
    pCellState (uniform 0) (uniform 0.03) = Some pCellState'
  /\ (pCellState' = pCellState
      \/ (vx (pCellState' (getCellID grid4x4 1 1)) <? uniform 0 (getCellID grid4x4 1 1)) = false).
Proof.
  intros pCellState pCellState'.
  assert (H : bdy_Uniform grid4x4 1 1 loss_boundary [(0, 36000); (3600, 36000)] 100 1 0.25
                pCellState (uniform 0) (uniform 0.03) = Some pCellState')
    by (vm_compute; reflexivity).
  split; [exact H|].
  exact (bdy_Uniform_loss_stops_at_bed grid4x4 1 1 loss_boundary
           [(0, 36000); (3600, 36000)] 100 1 0.25
           pCellState pCellState' (uniform 0) (uniform 0.03) eq_refl H).
Defined.

(** A fixed free-surface level is never applied below the bed: when
    [bdy_Cell] returns in that mode it has left the buffer alone, or the
    level of its cell is not below the bed. *)
Theorem bdy_Cell_level_not_below_bed :
  forall (M : libm) (B : build) (lRelationID : Z) (pConfig : sBdyCellConfiguration)
         (pRelations : buffer Z) (pTimeseries : list cl_double4)
         (pTime pTimestep pTimeHydrological : cl_double)
         (pCellState pCellState' : buffer cl_double4) (pCellBed pCellManning : buffer cl_double),
    let ulCellID := pRelations lRelationID in
    bc_DefinitionDepth pConfig = BOUNDARY_DEPTH_IS_FSL ->
    bdy_Cell M B lRelationID pConfig pRelations pTimeseries
      pTime pTimestep pTimeHydrological pCellState pCellBed pCellManning = Some pCellState' ->
    pCellState' = pCellState
    \/ (vx (pCellState' ulCellID) <? pCellBed ulCellID) = false.
Proof.
  intros M B id cfg rel ts t dt th st st' bed man cell Hmode H.
  unfold bdy_Cell in H. cbv zeta in H. fold cell in H.
  destruct (_ || _ || _) in H; [left; congruence|].
  destruct (read ts _) as [base|]; [|discriminate].
  destruct (read ts _) as [next|]; [|discriminate].
  rewrite Hmode in H.
  cbn [Z.eqb BOUNDARY_DEPTH_IS_FSL BOUNDARY_DEPTH_IS_DEPTH Pos.eqb] in H.
  injection H as <-. right. rewrite store_same.
  destruct (bc_DefinitionDischarge cfg =? BOUNDARY_DISCHARGE_IS_DISCHARGE)%Z;
    [cbn [vx set_x set_z set_w]; apply fmax_not_below_l|].
  destruct (bc_DefinitionDischarge cfg =? BOUNDARY_DISCHARGE_IS_VELOCITY)%Z;
    cbn [vx set_x set_z set_w]; apply fmax_not_below_l.
Qed.

(** A level of 1 m prescribed for a cell that holds 12 m over a bed at 10 m:
    the cell gets the level of its bed. *)
Definition level_boundary : sBdyCellConfiguration :=
  {| bc_TimeseriesEntries := 2;
     bc_TimeseriesInterval := 3600;
     bc_TimeseriesLength := 3600;
     bc_RelationCount := 1;
     bc_DefinitionDepth := BOUNDARY_DEPTH_IS_FSL;
     bc_DefinitionDischarge := BOUNDARY_DISCHARGE_IGNORE |}.

Lemma bdy_Cell_level_not_below_bed_witness :
  let pCellState := uniform (mk4 12 12 0 0) in
  let pCellState' := store pCellState 5%Z (mk4 10 12 0 0) in
  bdy_Cell Series.math grid4x4 0 level_boundary (uniform 5%Z) depth_series 0 1 0
    pCellState (uniform 10) (uniform 0.03) = Some pCellState'
  /\ (pCellState' = pCellState
      \/ (vx (pCellState' (uniform 5%Z 0%Z)) <? uniform 10 (uniform 5%Z 0%Z)) = false).
Proof.
  intros pCellState pCellState'.
  assert (H : bdy_Cell Series.math grid4x4 0 level_boundary (uniform 5%Z) depth_series 0 1 0
                pCellState (uniform 10) (uniform 0.03) = Some pCellState')
    by (vm_compute; reflexivity).
  split; [exact H|].
  exact (bdy_Cell_level_not_below_bed Series.math grid4x4 0 level_boundary (uniform 5%Z)
           depth_series 0 1 0 pCellState pCellState' (uniform 10) (uniform 0.03) eq_refl H).
Defined.

(** The pipe changes its two cells only, and it never lowers the level of its
    start cell below the bed: when the kernel has not left the buffer alone,
    the level of the start cell is not below its bed. *)
Theorem bdy_SimplePipe_two_cells :
  forall (M : libm) (B : build) (pConfig : sBndySPipeConfiguration)
         (pTime pTimestep pTimeHydrological : cl_double)
         (pCellState : buffer cl_double4) (pCellBed pCellManning : buffer cl_double)
         (dUninit : cl_double),
    let ulIdxStart := getCellID B (sp_uiStartCellX pConfig) (sp_uiStartCellY pConfig) in
    let ulIdxEnd := getCellID B (sp_uiEndCellX pConfig) (sp_uiEndCellY pConfig) in
    let pCellState' :=
      bdy_SimplePipe M B pConfig pTime pTimestep pTimeHydrological
        pCellState pCellBed pCellManning dUninit in
    (forall j : Z, j <> ulIdxStart -> j <> ulIdxEnd -> pCellState' j = pCellState j)
    /\ (ulIdxStart <> ulIdxEnd ->
        pCellState' = pCellState
        \/ (vx (pCellState' ulIdxStart) <? pCellBed ulIdxStart) = false).
Proof.
  intros M B cfg t dt th st bed man u iS iE st'. subst st'.
  unfold bdy_SimplePipe. cbv zeta. fold iS iE.
  destruct (dt <=? 0); [split; [reflexivity | left; reflexivity]|].
  destruct (pipe_setup M cfg (st iS) (st iE) (bed iS) (bed iE)) as [[[Dw h0] kd]|];
    [|split; [reflexivity | left; reflexivity]].
  split.
  - intros j HS HE. rewrite store_other by exact HE. apply store_other. exact HS.
  - intro Hne. right. rewrite store_other by exact Hne. rewrite store_same.
    match goal with |- context [if ?c then mk4 _ _ 0 0 else _] => destruct c end;
      cbn [vx set_x]; apply max_not_below_l.
Qed.

(** *** The timestep controller: cell sizes, sync points and counters *)


(** A dynamic timestep with Courant number 0.5 and one reduction worker. *)
Definition courant_half : timestep_macros :=
  {| COURANT_NUMBER := 0.5; SCHEME_ENDTIME := 3600; TIMESTEP_WORKERS := 1;
     TIMESTEP_DYNAMIC := true; TIMESTEP_FIXED := None |}.

(** A simulation at t = 100 s with its next sync point at 3600 s. *)
Definition running_block : timestep_block :=
  {| dTime := 100; dTimestep := 0.01; dTimeHydrological := 0.1;
     dTimeSync := 3600; dBatchTimesteps := 2;
     uiBatchSuccessful := 7; uiBatchSkipped := 1 |}.

(** A maximum wave speed of 5 m/s on unit cells with Courant number 0.5 gives
    a timestep of 0.1 s. *)
Example tst_Advance_Normal_unit_cells :
  dTimestep (tst_Advance_Normal grid4x4 courant_half running_block (uniform 5)) = 0.1.
Proof. vm_compute. reflexivity. Qed.

(** The cell size enters the controller through [DOMAIN_DELTAX] alone: two
    builds with the same [DOMAIN_DELTAX] commit the same block. *)
Lemma tst_Advance_Normal_reads_deltax_only :
  forall (B B' : build) (T : timestep_macros) (s : timestep_block)
         (pReductionData : buffer cl_double),
    DOMAIN_DELTAX B = DOMAIN_DELTAX B' ->
    tst_Advance_Normal B T s pReductionData = tst_Advance_Normal B' T s pReductionData.
Proof.
  intros B B' T s W H. unfold tst_Advance_Normal, cfl_timestep. rewrite H. reflexivity.
Qed.


(** C6: the sync point is overrun by rounding.  A simulation at
    t = 0x1.0000000000006p-6 (just above 1/64 s), not beyond its sync point
    t_sync = 0x1.8000000000001p-4 (just above 3/32 s), on unit cells with a
    maximum wave speed of 5 m/s: the candidate timestep 0.1 s reaches the sync
    point, and the clamp commits the rounded difference t_sync - t = 0.078125,
    which is above the difference itself.  The committed timestep is positive
    and t + dt is beyond t_sync; the next run of the kernel commits this time,
    one unit in the last place beyond the sync point, with the negative
    timestep that tells the host that the sync point is reached.
    [tst_UpdateTimestep] commits the same positive timestep beyond the sync
    point from an original timestep of 0.09 s. *)
Theorem tst_Advance_Normal_overruns_sync :
  let s := {| dTime := 0x1.0000000000006p-6; dTimestep := 0; dTimeHydrological := 0;
              dTimeSync := 0x1.8000000000001p-4; dBatchTimesteps := 0;
              uiBatchSuccessful := 0; uiBatchSkipped := 0 |} in
  let s' := tst_Advance_Normal grid4x4 courant_half s (uniform 5) in
  let s'' := tst_Advance_Normal grid4x4 courant_half s' (uniform 5) in
  let u' :=
    tst_UpdateTimestep grid4x4 courant_half
      {| dTime := dTime s; dTimestep := 0.09; dTimeHydrological := 0;
         dTimeSync := dTimeSync s; dBatchTimesteps := 0;
         uiBatchSuccessful := 0; uiBatchSkipped := 0 |} (uniform 5) 0 in
  (dTime s <=? dTimeSync s) = true
  /\ dTime s' = dTime s
  /\ dTimestep s' = 0.078125
  /\ gtb (dTimestep s') 0 = true
  /\ gtb (dTime s' + dTimestep s') (dTimeSync s') = true
  /\ dTime s'' = 0x1.8000000000002p-4
  /\ gtb (dTime s'') (dTimeSync s'') = true
  /\ (dTimestep s'' <? 0) = true
  /\ dTimestep u' = 0.078125
  /\ gtb (dTime u' + dTimestep u') (dTimeSync u') = true.
Proof. vm_compute. repeat split; reflexivity. Qed.

(** The incoming timestep of a run is counted once: as successful when it is
    positive, as skipped otherwise ([fmax(0.0, dt)] is never a NaN). *)
Lemma advance_counts_once (x : cl_double) :
  Z.add (int_of_bool (gtb (fmax 0 x) 0)) (int_of_bool (fmax 0 x <=? 0)) = 1%Z.
Proof.
  unfold fmax, gtb. change (is_nan 0) with false. cbv iota.
  destruct (is_nan x); [reflexivity|].
  destruct (0 <? x) eqn:E; [|reflexivity].
  rewrite E, (positive_not_le_zero x E). reflexivity.
Qed.

Lemma advance_batch_counts (B : build) (T : timestep_macros) :
  forall (pReductionData : list (buffer cl_double)) (s : timestep_block),
    (0 <= uiBatchSuccessful s)%Z -> (0 <= uiBatchSkipped s)%Z ->
    (uiBatchSuccessful s + uiBatchSkipped s + Z.of_nat (length pReductionData) < 2 ^ 32)%Z ->
    let s' := advance_batch B T pReductionData s in
    (0 <= uiBatchSuccessful s')%Z /\ (0 <= uiBatchSkipped s')%Z
    /\ (uiBatchSuccessful s' + uiBatchSkipped s'
        = uiBatchSuccessful s + uiBatchSkipped s + Z.of_nat (length pReductionData))%Z.
Proof.
  induction pReductionData as [|W l IH]; intros s H1 H2 H3.
  - cbn in *. lia.
  - cbn [advance_batch fold_left].
    change (fold_left (tst_Advance_Normal B T) l (tst_Advance_Normal B T s W))
      with (advance_batch B T l (tst_Advance_Normal B T s W)).
    cbn [length] in H3. rewrite Nat2Z.inj_succ in H3.
    pose proof (advance_counts_once (dTimestep s)) as Hc.
    set (a := int_of_bool (gtb (fmax 0 (dTimestep s)) 0)) in *.
    set (b := int_of_bool (fmax 0 (dTimestep s) <=? 0)) in *.
    assert (Ha : (0 <= a <= 1)%Z)
      by (unfold a; destruct (gtb (fmax 0 (dTimestep s)) 0); cbn; lia).
    assert (Hb : (0 <= b <= 1)%Z)
      by (unfold b; destruct (fmax 0 (dTimestep s) <=? 0); cbn; lia).
    destruct (IH (tst_Advance_Normal B T s W)) as (I1 & I2 & I3).
    + cbn [tst_Advance_Normal uiBatchSuccessful]. fold a.
      unfold cl_uint_wrap. apply Z.mod_pos_bound. lia.
    + cbn [tst_Advance_Normal uiBatchSkipped]. fold b.
      unfold cl_uint_wrap. apply Z.mod_pos_bound. lia.
    + cbn [tst_Advance_Normal uiBatchSuccessful uiBatchSkipped]. fold a b.
      unfold cl_uint_wrap. rewrite !Z.mod_small by lia. lia.
    + split; [exact I1 | split; [exact I2|]]. rewrite I3.
      cbn [tst_Advance_Normal uiBatchSuccessful uiBatchSkipped length]. fold a b.
      unfold cl_uint_wrap. rewrite !Z.mod_small by lia.
      rewrite Nat2Z.inj_succ. lia.
Qed.

(** After a reset, a batch of [n] runs of [tst_Advance_Normal] (n < 2^32)
    leaves [n] in the two counters together: every run is counted once, as
    successful or as skipped, whatever the time scalars and the reduction
    buffers hold (NaN and infinities included). *)
Theorem batch_counts_every_run :
  forall (B : build) (T : timestep_macros) (pReductionData : list (buffer cl_double))
         (s : timestep_block),
    (Z.of_nat (length pReductionData) < 2 ^ 32)%Z ->
    let s' := advance_batch B T pReductionData (tst_ResetCounters s) in
    (uiBatchSuccessful s' + uiBatchSkipped s' = Z.of_nat (length pReductionData))%Z.
Proof.
  intros B T Ws s Hn s'.
  destruct (advance_batch_counts B T Ws (tst_ResetCounters s)) as (_ & _ & H);
    cbn; try lia.
  exact H.
Qed.

(** Three runs from the block of a reached sync point (a negative timestep):
    one skipped, two successful. *)
Lemma batch_counts_every_run_witness :
  let s := {| dTime := 100; dTimestep := -0.01; dTimeHydrological := 0.1;
              dTimeSync := 3600; dBatchTimesteps := 2;
              uiBatchSuccessful := 7; uiBatchSkipped := 1 |} in
  let s' := advance_batch grid4x4 courant_half [uniform 5; uniform 5; uniform 5]
              (tst_ResetCounters s) in
  (uiBatchSuccessful s' + uiBatchSkipped s' = 3)%Z.
Proof.
  apply (batch_counts_every_run grid4x4 courant_half [uniform 5; uniform 5; uniform 5]).
  cbn. lia.
Defined.


(** *** The order of doubles is a total preorder away from NaN *)

(** Decide the comparisons of signs, exponents and mantissas in sight. *)
Ltac sf_order :=
  repeat match goal with
         | s : bool |- _ => destruct s
         end;
  cbn in *; try discriminate; try reflexivity;
  repeat match goal with
         | H : context [Z.compare ?a ?b] |- _ => destruct (Z.compare_spec a b); cbn in H
         | |- context [Z.compare ?a ?b] => destruct (Z.compare_spec a b); cbn
         end;
  try discriminate; try reflexivity; try lia;
  subst;
  repeat match goal with
         | H : context [Pos.compare_cont Eq ?a ?b] |- _ =>
             change (Pos.compare_cont Eq a b) with (Pos.compare a b) in H;
             destruct (Pos.compare_spec a b); cbn in H
         | |- context [Pos.compare_cont Eq ?a ?b] =>
             change (Pos.compare_cont Eq a b) with (Pos.compare a b);
             destruct (Pos.compare_spec a b); cbn
         end;
  try discriminate; try reflexivity; try lia.

Lemma SFleb_trans (x y z : spec_float) :
  SFleb x y = true -> SFleb y z = true -> SFleb x z = true.
Proof.
  unfold SFleb, SFcompare.
  destruct x as [s1|s1| |s1 m1 e1], y as [s2|s2| |s2 m2 e2], z as [s3|s3| |s3 m3 e3];
    intros H1 H2; sf_order.
Qed.

Lemma SFltb_leb_trans (x y z : spec_float) :
  SFltb x y = true -> SFleb y z = true -> SFleb x z = true.
Proof.
  unfold SFleb, SFltb, SFcompare.
  destruct x as [s1|s1| |s1 m1 e1], y as [s2|s2| |s2 m2 e2], z as [s3|s3| |s3 m3 e3];
    intros H1 H2; sf_order.
Qed.

Lemma SFleb_total (x y : spec_float) :
  x <> S754_nan -> y <> S754_nan -> SFltb x y = false -> SFleb y x = true.
Proof.
  unfold SFleb, SFltb, SFcompare.
  destruct x as [s1|s1| |s1 m1 e1], y as [s2|s2| |s2 m2 e2];
    intros N1 N2 H1; try congruence; sf_order.
Qed.

Lemma SFleb_refl (x : spec_float) : x <> S754_nan -> SFleb x x = true.
Proof.
  unfold SFleb, SFcompare. destruct x as [s1|s1| |s1 m1 e1]; intro N; try congruence; sf_order.
Qed.

Lemma not_nan_spec (a : cl_double) : is_nan a = false -> Prim2SF a <> S754_nan.
Proof. rewrite is_nan_spec. intros H E. rewrite E in H. discriminate. Qed.

Lemma leb_trans (a b c : cl_double) :
  (a <=? b) = true -> (b <=? c) = true -> (a <=? c) = true.
Proof. rewrite !leb_spec. apply SFleb_trans. Qed.

Lemma ltb_leb_trans (a b c : cl_double) :
  (a <? b) = true -> (b <=? c) = true -> (a <=? c) = true.
Proof. rewrite ltb_spec, !leb_spec. apply SFltb_leb_trans. Qed.

Lemma leb_refl (a : cl_double) : is_nan a = false -> (a <=? a) = true.
Proof. intro H. rewrite leb_spec. apply SFleb_refl, not_nan_spec, H. Qed.

Lemma leb_total (a b : cl_double) :
  is_nan a = false -> is_nan b = false -> (a <? b) = false -> (b <=? a) = true.
Proof.
  intros Ha Hb. rewrite ltb_spec, leb_spec.
  apply SFleb_total; apply not_nan_spec; assumption.
Qed.

Lemma ltb_leb (a b : cl_double) : (a <? b) = true -> (a <=? b) = true.
Proof.
  intro H. assert (Hb : is_nan b = false).
  { destruct (is_nan b) eqn:E; [|reflexivity]. rewrite (ltb_nan_r a b E) in H. discriminate. }
  apply ltb_leb_trans with b; [exact H | apply leb_refl, Hb].
Qed.

Lemma fabs_nan (a : cl_double) : is_nan (fabs a) = is_nan a.
Proof.
  rewrite !is_nan_spec. unfold fabs. rewrite abs_spec.
  destruct (Prim2SF a); reflexivity.
Qed.

(** [fmin] against a bound that is not a NaN: not above the bound, and not a
    NaN. *)
Lemma fmin_bound_r (a b : cl_double) :
  is_nan b = false -> (fmin a b <=? b) = true /\ is_nan (fmin a b) = false.
Proof.
  intro Hb. unfold fmin. destruct (is_nan a) eqn:Ha.
  - split; [apply leb_refl, Hb | exact Hb].
  - rewrite Hb. destruct (b <? a) eqn:E.
    + split; [apply leb_refl, Hb | exact Hb].
    + split; [apply leb_total; assumption | exact Ha].
Qed.

Lemma fmin_bound_l (a b : cl_double) :
  is_nan a = false -> (fmin a b <=? a) = true.
Proof.
  intro Ha. unfold fmin. rewrite Ha. destruct (is_nan b) eqn:Hb.
  - apply leb_refl, Ha.
  - destruct (b <? a) eqn:E; [apply ltb_leb, E | apply leb_refl, Ha].
Qed.

(** *** The update after a synchronisation *)

(** For every input, [tst_UpdateTimestep] commits a timestep that is not a
    NaN and not above [TIMESTEP_MAXIMUM]; and unless the original timestep is
    a NaN, the committed timestep is not longer than the original one, or it
    is the (capped) distance to the sync point as the sync clamp rounds it:
    the clamp is the one place where the update can lengthen a timestep. *)
Theorem tst_UpdateTimestep_shortens_or_syncs :
  forall (B : build) (T : timestep_macros) (s : timestep_block)
         (pReductionData : buffer cl_double) (dUninit : cl_double),
    let s' := tst_UpdateTimestep B T s pReductionData dUninit in
    is_nan (dTimestep s') = false
    /\ (dTimestep s' <=? TIMESTEP_MAXIMUM) = true
    /\ (is_nan (dTimestep s) = false ->
        (dTimestep s' <=? fabs (dTimestep s)) = true
        \/ dTimestep s' = fmin (fmax 0 (dTimeSync s - dTime s)) TIMESTEP_MAXIMUM).
Proof.
  intros B T s W u s'. subst s'. unfold tst_UpdateTimestep. cbn [dTimestep].
  set (c := if TIMESTEP_DYNAMIC T then cfl_timestep B T (dTime s) (max_speed T W) else u).
  set (o := fabs (dTimestep s)).
  set (d1 := fmin c o).
  set (d2 := if (dTime s <? TIMESTEP_EARLY_LIMIT_DURATION) && gtb d1 TIMESTEP_EARLY_LIMIT
             then TIMESTEP_EARLY_LIMIT else d1).
  assert (HM : is_nan TIMESTEP_MAXIMUM = false) by reflexivity.
  split; [apply fmin_bound_r, HM | split; [apply fmin_bound_r, HM|]].
  intro Hs.
  assert (Ho : is_nan o = false) by (unfold o; rewrite fabs_nan; exact Hs).
  destruct (fmin_bound_r c o Ho) as [H1 N1]. fold d1 in H1, N1.
  assert (H2 : (d2 <=? o) = true /\ is_nan d2 = false).
  { unfold d2. destruct ((dTime s <? TIMESTEP_EARLY_LIMIT_DURATION)
                         && gtb d1 TIMESTEP_EARLY_LIMIT) eqn:E.
    - apply andb_prop in E. destruct E as [_ E]. unfold gtb in E.
      split; [apply ltb_leb_trans with d1; assumption | reflexivity].
    - split; assumption. }
  destruct H2 as [H2 N2].
  destruct (geb (dTime s + d2) (dTimeSync s)).
  - right. reflexivity.
  - left. apply leb_trans with d2; [apply fmin_bound_l, N2 | exact H2].
Qed.

End IEEE.

(** ** Exact-arithmetic reading of the timestep controller and of the reduction *)
Module Exact.

Local Open Scope R_scope.

(** *** Doubles without rounding *)

(** A double read exactly: a real number, an infinity or a NaN.  The
    controller divides by the maximum wave speed, which is zero on a dry
    domain, so the infinities are part of its normal operation. *)
Inductive xdouble : Type :=
| Fin (r : R)
| PInf
| NInf
| NaN.

Definition Rltb (a b : R) : bool := if Rlt_dec a b then true else false.
Definition Rleb (a b : R) : bool := if Rle_dec a b then true else false.

Definition xopp (a : xdouble) : xdouble :=
  match a with
  | Fin r => Fin (- r)
  | PInf => NInf
  | NInf => PInf
  | NaN => NaN
  end.

Definition xadd (a b : xdouble) : xdouble :=
  match a, b with
  | NaN, _ | _, NaN => NaN
  | Fin r, Fin r' => Fin (r + r')
  | PInf, NInf | NInf, PInf => NaN
  | PInf, _ | _, PInf => PInf
  | NInf, _ | _, NInf => NInf
  end.

Definition xsub (a b : xdouble) : xdouble := xadd a (xopp b).

(** An infinity with the sign of [r], NaN for [r = 0]. *)
Definition signed_inf (r : R) (positive : bool) : xdouble :=
  if Rltb 0 r then (if positive then PInf else NInf)
  else if Rltb r 0 then (if positive then NInf else PInf)
  else NaN.

Definition xmul (a b : xdouble) : xdouble :=
  match a, b with
  | NaN, _ | _, NaN => NaN
  | Fin r, Fin r' => Fin (r * r')
  | Fin r, PInf | PInf, Fin r => signed_inf r true
  | Fin r, NInf | NInf, Fin r => signed_inf r false
  | PInf, PInf | NInf, NInf => PInf
  | PInf, NInf | NInf, PInf => NInf
  end.

(** Division; a zero divisor is the positive zero. *)
Definition xdiv (a b : xdouble) : xdouble :=
  match a, b with
  | NaN, _ | _, NaN => NaN
  | Fin r, Fin r' => if Req_dec_T r' 0 then signed_inf r true else Fin (r / r')
  | Fin _, PInf | Fin _, NInf => Fin 0
  | PInf, Fin r => if Rltb r 0 then NInf else PInf
  | NInf, Fin r => if Rltb r 0 then PInf else NInf
  | _, _ => NaN
  end.

(** [a < b], [a <= b]: false when a NaN is compared. *)
Definition xltb (a b : xdouble) : bool :=
  match a, b with
  | NaN, _ | _, NaN => false
  | Fin r, Fin r' => Rltb r r'
  | NInf, NInf | PInf, _ => false
  | NInf, _ | _, PInf => true
  | Fin _, NInf => false
  end.

Definition xleb (a b : xdouble) : bool :=
  match a, b with
  | NaN, _ | _, NaN => false
  | Fin r, Fin r' => Rleb r r'
  | NInf, _ | _, PInf => true
  | PInf, _ | Fin _, NInf => false
  end.

Definition xgtb (a b : xdouble) : bool := xltb b a.
Definition xgeb (a b : xdouble) : bool := xleb b a.

Definition is_nan (a : xdouble) : bool :=
  match a with NaN => true | _ => false end.

(** [fmax], [fmin]: a NaN argument yields the other one. *)
Definition fmax (a b : xdouble) : xdouble :=
  if is_nan a then b else if is_nan b then a else if xltb a b then b else a.

Definition fmin (a b : xdouble) : xdouble :=
  if is_nan a then b else if is_nan b then a else if xltb b a then b else a.

Definition fabs (a : xdouble) : xdouble :=
  match a with
  | Fin r => Fin (Rabs r)
  | PInf | NInf => PInf
  | NaN => NaN
  end.

(** A C truth value used as a double. *)
Definition double_of_bool (b : bool) : xdouble := if b then Fin 1 else Fin 0.

Declare Scope xd_scope.
Delimit Scope xd_scope with xd.
Bind Scope xd_scope with xdouble.
Infix "+" := xadd : xd_scope.
Infix "-" := xsub : xd_scope.
Infix "*" := xmul : xd_scope.
Infix "/" := xdiv : xd_scope.
Notation "- a" := (xopp a) : xd_scope.
Infix "<?" := xltb (at level 70, no associativity) : xd_scope.
Infix "<=?" := xleb (at level 70, no associativity) : xd_scope.

(** *** Constants of the timestep header *)

Definition TIMESTEP_EARLY_LIMIT : R := 0.1.
Definition TIMESTEP_EARLY_LIMIT_DURATION : R := 60.
Definition TIMESTEP_START_MINIMUM : R := 1e-10.
Definition TIMESTEP_START_MINIMUM_DURATION : R := 1.
Definition TIMESTEP_MINIMUM : R := 1e-10.
Definition TIMESTEP_MAXIMUM : R := 15.
Definition TIMESTEP_HYDROLOGICAL : R := 0.25.
Definition GRAVITY : R := 9.80665.

(** Modelled from the spec: [VERY_SMALL] is defined outside the kernels' files;
    the spec gives the value 1e-14. *)
Definition VERY_SMALL : R := 1e-14.

(** The macros the host defines when it builds the device program. *)
Record build : Type := {
  DOMAIN_DELTAX : R;
  DOMAIN_DELTAY : R;
  COURANT_NUMBER : R;
  SCHEME_ENDTIME : R;
  TIMESTEP_WORKERS : nat;
  (* #ifdef TIMESTEP_DYNAMIC *)
  TIMESTEP_DYNAMIC : bool;
  (* #ifdef TIMESTEP_FIXED, with its value *)
  TIMESTEP_FIXED : option R }.

(** The device-visible time scalars. *)
Record timestep_block : Type := {
  dTime : xdouble;
  dTimestep : xdouble;
  dTimeHydrological : xdouble;
  dTimeSync : xdouble;
  dBatchTimesteps : xdouble;
  uiBatchSuccessful : Z;
  uiBatchSkipped : Z }.

Section Controller.

Local Open Scope xd_scope.

Variable B : build.

(** "for (i = 0; i < TIMESTEP_WORKERS; ++i) dMaxSpeed = fmax(dMaxSpeed, pReductionData[i])" *)
Definition max_speed (pReductionData : buffer xdouble) : xdouble :=
  fold_left (fun dMaxSpeed i => fmax dMaxSpeed (pReductionData (Z.of_nat i)))
    (seq 0 (TIMESTEP_WORKERS B)) (Fin 0).

(** "Convert velocity to a time", with the forced progression at the start of
    a simulation, times the Courant number. *)
Definition cfl_timestep (dLclTime dMaxSpeed : xdouble) : xdouble :=
  let dMinTime := Fin (DOMAIN_DELTAX B) / dMaxSpeed in
  let dMinTime :=
    if (dLclTime <? Fin TIMESTEP_START_MINIMUM_DURATION)
       && (dMinTime <? Fin TIMESTEP_START_MINIMUM)
    then Fin TIMESTEP_START_MINIMUM else dMinTime in
  Fin (COURANT_NUMBER B) * dMinTime.

(** "Don't exceed the sync time": a negative timestep suspends simulation but
    allows the value to be used back on the host. *)
Definition sync_clamp (dLclTime dLclTimestep dLclSyncTime : xdouble) : xdouble :=
  if xgeb (dLclTime + dLclTimestep) dLclSyncTime then
    if xgtb (dLclSyncTime - dLclTime) (Fin VERY_SMALL) then dLclSyncTime - dLclTime
    else if (dLclSyncTime - dLclTime) <=? Fin VERY_SMALL then - dLclTimestep
    else dLclTimestep
  else dLclTimestep.

(** Advance the total model time by the timestep specified. *)
Definition tst_Advance_Normal
    (s : timestep_block) (pReductionData : buffer xdouble) : timestep_block :=
  let dLclTime := dTime s in
  let dLclTimestep := fmax (Fin 0) (dTimestep s) in
  let dLclTimeHydrological := dTimeHydrological s in
  let dLclSyncTime := dTimeSync s in
  let dLclBatchTimesteps := dBatchTimesteps s in
  let uiLclBatchSuccessful := uiBatchSuccessful s in
  let uiLclBatchSkipped := uiBatchSkipped s in
  (* Increment total time (only ever referenced in this kernel) *)
  let dLclTime := dLclTime + dLclTimestep in
  let dLclBatchTimesteps := dLclBatchTimesteps + dLclTimestep in
  let uiLclBatchSuccessful :=
    cl_uint_wrap (uiLclBatchSuccessful + int_of_bool (xgtb dLclTimestep (Fin 0))) in
  let uiLclBatchSkipped :=
    cl_uint_wrap (uiLclBatchSkipped + int_of_bool (dLclTimestep <=? Fin 0)) in
  (* Hydrological processes run with their own timestep which is larger *)
  let dLclTimeHydrological :=
    dLclTimeHydrological * double_of_bool (dLclTimeHydrological <=? Fin TIMESTEP_HYDROLOGICAL)
    + dLclTimestep in
  (* #ifdef TIMESTEP_DYNAMIC *)
  let dLclTimestep :=
    if TIMESTEP_DYNAMIC B then cfl_timestep dLclTime (max_speed pReductionData)
    else dLclTimestep in
  (* #ifdef TIMESTEP_FIXED *)
  let dLclTimestep :=
    match TIMESTEP_FIXED B with Some v => Fin v | None => dLclTimestep end in
  (* Impose a minimum timestep *)
  let dLclTimestep :=
    if xgtb dLclTimestep (Fin 0) && (dLclTimestep <? Fin TIMESTEP_MINIMUM)
    then Fin TIMESTEP_MINIMUM else dLclTimestep in
  (* Don't exceed the sync time *)
  let dLclTimestep := sync_clamp dLclTime dLclTimestep dLclSyncTime in
  (* Control the timestep initially to ensure it's not silly *)
  let dLclTimestep :=
    if (dLclTime <? Fin TIMESTEP_EARLY_LIMIT_DURATION)
       && xgtb dLclTimestep (Fin TIMESTEP_EARLY_LIMIT)
    then Fin TIMESTEP_EARLY_LIMIT else dLclTimestep in
  (* Don't exceed the total simulation time *)
  let dLclTimestep := fmin dLclTimestep (Fin (SCHEME_ENDTIME B) - dLclTime) in
  (* A sensible maximum timestep *)
  let dLclTimestep := fmin dLclTimestep (Fin TIMESTEP_MAXIMUM) in
  (* Commit to global memory *)
  {| dTime := dLclTime;
     dTimestep := dLclTimestep;
     dTimeHydrological := dLclTimeHydrological;
     dTimeSync := dTimeSync s;
     dBatchTimesteps := dLclBatchTimesteps;
     uiBatchSuccessful := uiLclBatchSuccessful;
     uiBatchSkipped := uiLclBatchSkipped |}.

End Controller.

(** *** Cell states *)

Record cl_double4 : Type := mk4 { vx : R; vy : R; vz : R; vw : R }.

(** *** The reduction of the wave speeds *)

(** [sqrt]: a NaN below zero. *)
Definition xsqrt (a : xdouble) : xdouble :=
  match a with
  | Fin r => if Rltb r 0 then NaN else Fin (sqrt r)
  | PInf => PInf
  | NInf | NaN => NaN
  end.

(** [p[i] = v] in the [__local] array of a work-group. *)
Fixpoint store_local (p : list xdouble) (i : nat) (v : xdouble) : list xdouble :=
  match p, i with
  | [], _ => []
  | _ :: p', O => v :: p'
  | a :: p', S i' => a :: store_local p' i' v
  end.

(** [p[i]] in the [__local] array. *)
Definition load_local (p : list xdouble) (i : nat) : xdouble := nth i p NaN.

Section Reduce.

(** Macros of the build. *)
Variable DOMAIN_CELLCOUNT : Z.
Variable QUITE_SMALL : R.
Variable TIMESTEP_SIMPLIFIED : bool.

Local Open Scope xd_scope.

(** The body of the first loop: the wave speed of one cell. *)
Definition cell_speed
    (pCellData : buffer cl_double4) (dBedData : buffer R) (ulCellID : Z) : xdouble :=
  (* Calculate the velocity... *)
  let pCellState := pCellData ulCellID in
  let dBedElevation := dBedData ulCellID in
  let dDepth := Fin (vx pCellState) - Fin dBedElevation in
  if xgtb dDepth (Fin QUITE_SMALL) && xgtb (Fin (vy pCellState)) (Fin (-9999)) then
    let dVelX :=
      if TIMESTEP_SIMPLIFIED then xsqrt (Fin GRAVITY * dDepth)
      else fabs (Fin (vz pCellState) / dDepth) + xsqrt (Fin GRAVITY * dDepth) in
    let dVelY :=
      if TIMESTEP_SIMPLIFIED then xsqrt (Fin GRAVITY * dDepth)
      else fabs (Fin (vw pCellState) / dDepth) + xsqrt (Fin GRAVITY * dDepth) in
    fmax dVelX dVelY
  else Fin 0.

(** "while ( ulCellID < DOMAIN_CELLCOUNT )": the cells of one work-item, a
    global size apart. *)
Fixpoint reduce_cells
    (fuel : nat) (ulGlobalSize : Z)
    (pCellData : buffer cl_double4) (dBedData : buffer R)
    (ulCellID : Z) (dMaxSpeed : xdouble) : xdouble :=
  match fuel with
  | O => dMaxSpeed
  | S fuel' =>
      if (ulCellID <? DOMAIN_CELLCOUNT)%Z then
        let dCellSpeed := cell_speed pCellData dBedData ulCellID in
        (* Is this velocity higher, therefore a greater time constraint? *)
        let dMaxSpeed := fmax dMaxSpeed dCellSpeed in
        (* Move on to the next cell *)
        reduce_cells fuel' ulGlobalSize pCellData dBedData
          (cl_ulong_wrap (ulCellID + ulGlobalSize)) dMaxSpeed
      else dMaxSpeed
  end.

(** What work-item [uiLocalID] does between two barriers of the second
    stage. *)
Definition reduce_item (iOffset : nat) (pScratchData : list xdouble) (uiLocalID : nat)
    : list xdouble :=
  if (uiLocalID <? iOffset)%nat then
    let dComparison := load_local pScratchData (uiLocalID + iOffset) in
    let dMine := load_local pScratchData uiLocalID in
    store_local pScratchData uiLocalID (fmax dMine dComparison)
  else pScratchData.

(** One round of the second stage, its work-items taken in the order
    [order]. *)
Definition reduce_round (order : list nat) (iOffset : nat) (pScratchData : list xdouble)
    : list xdouble :=
  fold_left (reduce_item iOffset) order pScratchData.

(** "for ( iOffset = uiLocalSize / 2; iOffset > 0; iOffset = iOffset / 2 )":
    [schedule iOffset] is the order of the work-items in the round of
    [iOffset]. *)
Fixpoint reduce_rounds
    (fuel : nat) (schedule : nat -> list nat) (iOffset : nat) (pScratchData : list xdouble)
    : list xdouble :=
  match fuel with
  | O => pScratchData
  | S fuel' =>
      if (0 <? iOffset)%nat then
        reduce_rounds fuel' schedule (iOffset / 2)
          (reduce_round (schedule iOffset) iOffset pScratchData)
      else pScratchData
  end.

(** Reduce the timestep by calculating for each workgroup: the work-group
    [ulGroupID] of [uiLocalSize] work-items in a launch of [ulGlobalSize]. *)
Definition tst_Reduce
    (schedule : nat -> list nat) (uiLocalSize : nat) (ulGlobalSize ulGroupID : Z)
    (pCellData : buffer cl_double4) (dBedData : buffer R)
    (pReductionData : buffer xdouble) : buffer xdouble :=
  (* Commit to local memory *)
  let pScratchData :=
    map (fun uiLocalID =>
           reduce_cells (Z.to_nat DOMAIN_CELLCOUNT) ulGlobalSize pCellData dBedData
             (ulGroupID * Z.of_nat uiLocalSize + Z.of_nat uiLocalID) (Fin 0))
        (seq 0 uiLocalSize) in
  (* 2nd stage of the reduction process *)
  let pScratchData :=
    reduce_rounds uiLocalSize schedule (uiLocalSize / 2) pScratchData in
  (* Only one workgroup to update the time *)
  store pReductionData ulGroupID (load_local pScratchData 0).

End Reduce.

(** A launch of [tst_Reduce]: its work-groups in the order [groups], each with
    the schedule of its rounds. *)
Definition tst_Reduce_launch
    (DOMAIN_CELLCOUNT : Z) (QUITE_SMALL : R) (TIMESTEP_SIMPLIFIED : bool)
    (schedule : nat -> nat -> list nat) (groups : list nat)
    (uiLocalSize : nat) (ulGlobalSize : Z)
    (pCellData : buffer cl_double4) (dBedData : buffer R)
    (pReductionData : buffer xdouble) : buffer xdouble :=
  fold_left
    (fun pReductionData g =>
       tst_Reduce DOMAIN_CELLCOUNT QUITE_SMALL TIMESTEP_SIMPLIFIED (schedule g)
         uiLocalSize ulGlobalSize (Z.of_nat g) pCellData dBedData pReductionData)
    groups pReductionData.


(** *** Proof tools *)

(** Decide every comparison of reals in sight and let [lra] close the
    branches that contradict each other. *)
Ltac rcases :=
  unfold Rltb, Rleb in *;
  repeat (match goal with
          | |- context [Rlt_dec ?a ?b] => destruct (Rlt_dec a b)
          | |- context [Rle_dec ?a ?b] => destruct (Rle_dec a b)
          | |- context [Req_dec_T ?a ?b] => destruct (Req_dec_T a b)
          | H : context [Rlt_dec ?a ?b] |- _ => destruct (Rlt_dec a b)
          | H : context [Rle_dec ?a ?b] |- _ => destruct (Rle_dec a b)
          | H : context [Req_dec_T ?a ?b] |- _ => destruct (Req_dec_T a b)
          end; cbn in *; try lra; try discriminate; try contradiction);
  try lra; try discriminate; try contradiction; try exact I.

Ltac xunfold :=
  unfold sync_clamp, fmin, fmax, xgeb, xgtb, xsub,
    TIMESTEP_MINIMUM, TIMESTEP_EARLY_LIMIT, TIMESTEP_EARLY_LIMIT_DURATION,
    TIMESTEP_START_MINIMUM, TIMESTEP_START_MINIMUM_DURATION,
    TIMESTEP_MAXIMUM, VERY_SMALL in *.

(** *** Runs of the controller *)

(** Unit square cells, Courant number 0.5, one reduction worker. *)
Definition square_unit_build : build :=
  {| DOMAIN_DELTAX := 1; DOMAIN_DELTAY := 1; COURANT_NUMBER := 0.5;
     SCHEME_ENDTIME := 1000; TIMESTEP_WORKERS := 1;
     TIMESTEP_DYNAMIC := true; TIMESTEP_FIXED := None |}.

(** A simulation at t = 100 s with its next sync point at 1000 s. *)
Definition running_block : timestep_block :=
  {| dTime := Fin 100; dTimestep := Fin 0.01; dTimeHydrological := Fin 0.1;
     dTimeSync := Fin 1000; dBatchTimesteps := Fin 2;
     uiBatchSuccessful := 7; uiBatchSkipped := 1 |}.

(** A reduction buffer whose maximum wave speed is [v]. *)
Definition reduction_of (v : R) : buffer xdouble := fun _ => Fin v.

(** A maximum wave speed of 5 m/s on unit cells with Courant number 0.5 gives
    a timestep of 0.1 s. *)
Example tst_Advance_Normal_run :
  dTimestep (tst_Advance_Normal square_unit_build running_block (reduction_of 5)) = Fin 0.1.
Proof.
  unfold tst_Advance_Normal, max_speed, cfl_timestep, reduction_of. cbn.
  xunfold. cbn. rcases; cbn; rcases; cbn; rcases. f_equal. lra.
Qed.

(** *** The clocks never run backwards *)



(** *** Caps of the committed timestep *)






(** *** The reduction: the maximum survives every schedule *)

(** *** [fmax] as a maximum *)

Lemma fmax_comm (a b : xdouble) : fmax a b = fmax b a.
Proof.
  destruct a, b; unfold fmax; cbn; try reflexivity.
  unfold Rltb. destruct (Rlt_dec r r0), (Rlt_dec r0 r); try reflexivity; f_equal; lra.
Qed.

Lemma fmax_assoc (a b c : xdouble) : fmax a (fmax b c) = fmax (fmax a b) c.
Proof.
  destruct a as [x| | |], b as [y| | |], c as [z| | |]; unfold fmax; cbn; try reflexivity;
    unfold Rltb;
    repeat (match goal with
            | |- context [Rlt_dec ?u ?v] => destruct (Rlt_dec u v); cbn
            end); unfold Rltb;
    repeat (match goal with
            | |- context [Rlt_dec ?u ?v] => destruct (Rlt_dec u v); cbn
            end);
    try reflexivity; try (f_equal; lra); try lra.
Qed.

Lemma fmax_idem (a : xdouble) : fmax a a = a.
Proof.
  destruct a; unfold fmax; cbn; try reflexivity.
  unfold Rltb. destruct (Rlt_dec r r); [lra | reflexivity].
Qed.

Lemma fmax_sel (a b : xdouble) : fmax a b = a \/ fmax a b = b.
Proof.
  unfold fmax. destruct (is_nan a); [right; reflexivity|].
  destruct (is_nan b); [left; reflexivity|].
  destruct (xltb a b); [right | left]; reflexivity.
Qed.

(** [a] is not above [b]: [a] is a NaN, which [fmax] drops, or [a <= b]. *)
Definition not_above (a b : xdouble) : Prop := fmax a b = b.

Lemma not_above_refl (a : xdouble) : not_above a a.
Proof. apply fmax_idem. Qed.

Lemma not_above_trans (a b c : xdouble) : not_above a b -> not_above b c -> not_above a c.
Proof.
  unfold not_above. intros H1 H2. rewrite <- H2, fmax_assoc, H1. reflexivity.
Qed.

Lemma not_above_antisym (a b : xdouble) : not_above a b -> not_above b a -> a = b.
Proof. unfold not_above. intros H1 H2. rewrite <- H1, fmax_comm. symmetry. exact H2. Qed.

Lemma not_above_fmax_l (a b : xdouble) : not_above a (fmax a b).
Proof. unfold not_above. rewrite fmax_assoc, fmax_idem. reflexivity. Qed.

Lemma not_above_fmax_r (a b : xdouble) : not_above b (fmax a b).
Proof. rewrite fmax_comm. apply not_above_fmax_l. Qed.

Lemma fmax_lub (a b c : xdouble) : not_above a c -> not_above b c -> not_above (fmax a b) c.
Proof.
  unfold not_above. intros H1 H2. rewrite <- fmax_assoc, H2. exact H1.
Qed.

(** For values that are not NaN, [not_above] is the comparison [<=]. *)
Lemma not_above_xleb (a b : xdouble) :
  is_nan a = false -> not_above a b -> xleb a b = true.
Proof.
  unfold not_above, fmax. destruct a, b; cbn; intros Ha H; try discriminate; try reflexivity.
  - unfold Rltb, Rleb in *. destruct (Rlt_dec r r0), (Rle_dec r r0); try reflexivity; try lra.
    injection H as H. lra.
Qed.

(** [m] is the maximum of the values in [P]. *)
Definition is_max (P : xdouble -> Prop) (m : xdouble) : Prop :=
  P m /\ forall x, P x -> not_above x m.

Lemma is_max_unique (P : xdouble -> Prop) (m m' : xdouble) :
  is_max P m -> is_max P m' -> m = m'.
Proof.
  intros [H1 H2] [H1' H2']. apply not_above_antisym; auto.
Qed.

Lemma is_max_ext (P Q : xdouble -> Prop) (m : xdouble) :
  (forall x, P x <-> Q x) -> is_max P m -> is_max Q m.
Proof.
  intros H [H1 H2]. split; [apply H; exact H1 | intros x Hx; apply H2, H; exact Hx].
Qed.

(** *** First stage: the cells of a work-item *)

(** The values the first loop of a work-item sees when it starts at cell [c]
    with [acc] in [dMaxSpeed]: [acc] and the speeds of the cells [c],
    [c + G], [c + 2 G], ... below the cell count. *)
Definition strided (N G : Z) (speed : Z -> xdouble) (c : Z) (acc x : xdouble) : Prop :=
  x = acc \/ exists i : Z, (0 <= i)%Z /\ (c + i * G < N)%Z /\ x = speed (c + i * G)%Z.

Lemma reduce_cells_max
    (N : Z) (QS : R) (TS : bool) (G : Z) (pCellData : buffer cl_double4) (dBedData : buffer R) :
  (0 < G)%Z -> (N + G <= 2 ^ 64)%Z ->
  forall (fuel : nat) (c : Z) (acc : xdouble),
    (0 <= c)%Z -> (N - c <= Z.of_nat fuel * G)%Z ->
    is_max (strided N G (cell_speed QS TS pCellData dBedData) c acc)
      (reduce_cells N QS TS fuel G pCellData dBedData c acc).
Proof.
  intros HG Hfit. set (speed := cell_speed QS TS pCellData dBedData).
  induction fuel as [|fuel IH]; intros c acc Hc Hfuel; cbn [reduce_cells].
  - split; [left; reflexivity|].
    intros x [-> | (i & Hi & Hlt & _)]; [apply not_above_refl|].
    assert (0 <= i * G)%Z by (apply Z.mul_nonneg_nonneg; lia). lia.
  - destruct (c <? N)%Z eqn:E.
    + apply Z.ltb_lt in E. cbv zeta. fold speed.
      unfold cl_ulong_wrap. rewrite Z.mod_small by lia.
      destruct (IH (c + G)%Z (fmax acc (speed c))) as [Hin Hub]; [lia | lia |].
      split.
      * destruct Hin as [Hin | (i & Hi & Hlt & Hx)].
        -- destruct (fmax_sel acc (speed c)) as [Hs|Hs].
           ++ left. rewrite Hin. exact Hs.
           ++ right. exists 0%Z. rewrite Z.mul_0_l, Z.add_0_r.
              split; [lia | split; [lia | rewrite Hin; exact Hs]].
        -- right. exists (i + 1)%Z.
           replace (c + (i + 1) * G)%Z with (c + G + i * G)%Z by ring.
           split; [lia | split; [exact Hlt | exact Hx]].
      * intros x [-> | (i & Hi & Hlt & ->)].
        -- apply not_above_trans with (fmax acc (speed c)); [apply not_above_fmax_l|].
           apply Hub. left. reflexivity.
        -- destruct (Z.eq_dec i 0) as [->|Hne].
           ++ rewrite Z.mul_0_l, Z.add_0_r.
              apply not_above_trans with (fmax acc (speed c)); [apply not_above_fmax_r|].
              apply Hub. left. reflexivity.
           ++ apply Hub. right. exists (i - 1)%Z.
              replace (c + G + (i - 1) * G)%Z with (c + i * G)%Z by ring.
              split; [lia | split; [exact Hlt | reflexivity]].
    + apply Z.ltb_ge in E. split; [left; reflexivity|].
      intros x [-> | (i & Hi & Hlt & _)]; [apply not_above_refl|].
      assert (0 <= i * G)%Z by (apply Z.mul_nonneg_nonneg; lia). lia.
Qed.

(** *** Second stage: the rounds of a work-group *)

Lemma store_local_length (p : list xdouble) (i : nat) (v : xdouble) :
  length (store_local p i v) = length p.
Proof.
  revert i. induction p as [|a p IH]; intros [|i]; cbn; try reflexivity.
  rewrite IH. reflexivity.
Qed.

Lemma load_store_same (p : list xdouble) (i : nat) (v : xdouble) :
  (i < length p)%nat -> load_local (store_local p i v) i = v.
Proof.
  unfold load_local. revert i. induction p as [|a p IH]; intros [|i] H; cbn in *; try lia.
  - reflexivity.
  - apply IH. lia.
Qed.

Lemma load_store_other (p : list xdouble) (i j : nat) (v : xdouble) :
  i <> j -> load_local (store_local p i v) j = load_local p j.
Proof.
  unfold load_local. revert i j. induction p as [|a p IH]; intros [|i] [|j] H; cbn;
    try reflexivity; try lia.
  apply IH. lia.
Qed.

(** The outcome of a round does not depend on the order of its work-items:
    every entry below the offset that a work-item of the round owns is
    combined with its partner, every other entry is kept. *)
Lemma reduce_round_spec (iOffset : nat) :
  forall (order : list nat) (s : list xdouble),
    NoDup order ->
    (forall a, In a order -> (a < length s)%nat) ->
    length (reduce_round order iOffset s) = length s
    /\ forall i : nat,
         load_local (reduce_round order iOffset s) i
         = if in_dec Nat.eq_dec i order
           then if (i <? iOffset)%nat
                then fmax (load_local s i) (load_local s (i + iOffset))
                else load_local s i
           else load_local s i.
Proof.
  induction order as [|a l IH]; intros s Hnd Hlt; cbn [reduce_round fold_left].
  - split; [reflexivity|]. intro i. destruct (in_dec Nat.eq_dec i []) as [[]|]. reflexivity.
  - inversion Hnd as [|a' l' Hnotin Hnd']; subst.
    set (s' := reduce_item iOffset s a).
    assert (Hlen : length s' = length s).
    { unfold s', reduce_item. destruct (a <? iOffset)%nat; [apply store_local_length | reflexivity]. }
    destruct (IH s' Hnd') as [IHlen IHval].
    { intros b Hb. rewrite Hlen. apply Hlt. right. exact Hb. }
    fold (reduce_round l iOffset s').
    split; [rewrite IHlen; exact Hlen|].
    intro i. rewrite IHval.
    assert (Ha : (a < length s)%nat) by (apply Hlt; left; reflexivity).
    destruct (in_dec Nat.eq_dec i l) as [Hil|Hil];
      destruct (in_dec Nat.eq_dec i (a :: l)) as [Hial|Hial].
    + assert (Hia : a <> i) by (intro E; subst; contradiction).
      destruct (i <? iOffset)%nat eqn:Ei.
      * unfold s', reduce_item. destruct (a <? iOffset)%nat eqn:Ea; [|reflexivity].
        apply Nat.ltb_lt in Ea.
        rewrite !load_store_other by lia. reflexivity.
      * unfold s', reduce_item. destruct (a <? iOffset)%nat eqn:Ea; [|reflexivity].
        rewrite load_store_other by exact Hia. reflexivity.
    + contradiction Hial. right. exact Hil.
    + assert (Hia : a = i) by (destruct Hial as [E|E]; [exact E | contradiction]).
      subst i. unfold s', reduce_item.
      destruct (a <? iOffset)%nat; [apply load_store_same; exact Ha | reflexivity].
    + assert (Hia : a <> i) by (intro E; apply Hial; left; exact E).
      unfold s', reduce_item. destruct (a <? iOffset)%nat; [|reflexivity].
      apply load_store_other. exact Hia.
Qed.

(** A schedule runs every work-item of the group once in each round. *)
Definition fair (uiLocalSize : nat) (schedule : nat -> list nat) : Prop :=
  forall iOffset : nat,
    NoDup (schedule iOffset)
    /\ forall a : nat, In a (schedule iOffset) <-> (a < uiLocalSize)%nat.

(** The entries a round with offset [n / 2] reads: the first [n]. *)
Definition entries (n : nat) (s : list xdouble) (x : xdouble) : Prop :=
  exists i : nat, (i < n)%nat /\ x = load_local s i.

Lemma reduce_round_max (L : nat) (schedule : nat -> list nat) (iOffset : nat)
    (s : list xdouble) (m : xdouble) :
  fair L schedule -> length s = L -> (2 * iOffset <= L)%nat ->
  is_max (entries (2 * iOffset) s) m ->
  length (reduce_round (schedule iOffset) iOffset s) = L
  /\ is_max (entries iOffset (reduce_round (schedule iOffset) iOffset s)) m.
Proof.
  intros Hfair Hlen Hoff [Hin Hub].
  destruct (Hfair iOffset) as [Hnd Hall].
  destruct (reduce_round_spec iOffset (schedule iOffset) s Hnd) as [Hlen' Hval].
  { intros a Ha. rewrite Hlen. apply Hall. exact Ha. }
  split; [rewrite Hlen'; exact Hlen|].
  assert (Hrow : forall i, (i < iOffset)%nat ->
            load_local (reduce_round (schedule iOffset) iOffset s) i
            = fmax (load_local s i) (load_local s (i + iOffset))).
  { intros i Hi. rewrite Hval.
    destruct (in_dec Nat.eq_dec i (schedule iOffset)) as [_|Hn].
    - apply Nat.ltb_lt in Hi. rewrite Hi. reflexivity.
    - contradiction Hn. apply Hall. lia. }
  split.
  - destruct Hin as (j & Hj & Hm).
    destruct (Nat.lt_ge_cases j iOffset) as [Hlo|Hhi].
    + exists j. split; [exact Hlo|]. rewrite (Hrow j Hlo), <- Hm.
      rewrite fmax_comm. symmetry. apply Hub. exists (j + iOffset)%nat. split; [lia | reflexivity].
    + exists (j - iOffset)%nat. split; [lia|]. rewrite Hrow by lia.
      replace (j - iOffset + iOffset)%nat with j by lia. rewrite <- Hm.
      symmetry. apply Hub. exists (j - iOffset)%nat. split; [lia | reflexivity].
  - intros x (i & Hi & ->). rewrite (Hrow i Hi).
    apply fmax_lub; apply Hub; [exists i | exists (i + iOffset)%nat]; split; try lia; reflexivity.
Qed.

(** From the offset [2 ^ j] on, the rounds leave the maximum of the first
    [2 ^ (j + 1)] entries in entry 0. *)
Lemma reduce_rounds_max (L : nat) (schedule : nat -> list nat) :
  fair L schedule ->
  forall (j fuel : nat) (s : list xdouble) (m : xdouble),
    length s = L -> (2 ^ (S j) <= L)%nat -> (j < fuel)%nat ->
    is_max (entries (2 ^ (S j)) s) m ->
    load_local (reduce_rounds fuel schedule (2 ^ j) s) 0 = m.
Proof.
  intros Hfair. induction j as [|j IH]; intros fuel s m Hlen HL Hfuel Hmax.
  - destruct fuel as [|fuel]; [lia|]. cbn [reduce_rounds Nat.pow Nat.mul].
    change (0 <? 1)%nat with true. cbv iota.
    change (1 / 2)%nat with 0%nat.
    destruct (reduce_round_max L schedule 1 s m Hfair Hlen) as [_ [Hin _]];
      [cbn in HL; lia | exact Hmax |].
    destruct Hin as (i & Hi & ->). assert (i = 0)%nat by lia. subst i.
    destruct fuel; reflexivity.
  - destruct fuel as [|fuel]; [lia|]. cbn [reduce_rounds].
    assert (Hpos : (0 < 2 ^ S j)%nat).
    { pose proof (Nat.pow_nonzero 2 (S j)). lia. }
    apply Nat.ltb_lt in Hpos. rewrite Hpos.
    assert (Hhalf : (2 ^ S j / 2 = 2 ^ j)%nat).
    { rewrite Nat.pow_succ_r', Nat.mul_comm. apply Nat.div_mul. lia. }
    rewrite Hhalf.
    destruct (reduce_round_max L schedule (2 ^ S j) s m Hfair Hlen) as [Hlen' Hmax'].
    + rewrite <- Nat.pow_succ_r'. exact HL.
    + rewrite <- Nat.pow_succ_r'. exact Hmax.
    + apply IH; [exact Hlen' | | lia | exact Hmax'].
      apply Nat.le_trans with (2 ^ S (S j))%nat; [|exact HL].
      apply Nat.pow_le_mono_r; lia.
Qed.

Lemma entries_max_exists (s : list xdouble) :
  forall n : nat, (0 < n)%nat -> exists m, is_max (entries n s) m.
Proof.
  induction n as [|n IH]; intro Hn; [lia|].
  destruct n as [|n].
  - exists (load_local s 0). split.
    + exists 0%nat. split; [lia | reflexivity].
    + intros x (i & Hi & ->). assert (i = 0)%nat by lia. subst. apply not_above_refl.
  - destruct IH as [m [Hin Hub]]; [lia|].
    exists (fmax m (load_local s (S n))). split.
    + destruct (fmax_sel m (load_local s (S n))) as [E|E]; rewrite E.
      * destruct Hin as (i & Hi & Hm). exists i. split; [lia | exact Hm].
      * exists (S n). split; [lia | reflexivity].
    + intros x (i & Hi & ->).
      destruct (Nat.eq_dec i (S n)) as [->|Hne]; [apply not_above_fmax_r|].
      apply not_above_trans with m; [|apply not_above_fmax_l].
      apply Hub. exists i. split; [lia | reflexivity].
Qed.

Lemma load_local_map (f : nat -> xdouble) (n i : nat) :
  (i < n)%nat -> load_local (map f (seq 0 n)) i = f i.
Proof.
  intro Hi. unfold load_local.
  rewrite (nth_indep _ NaN (f 0%nat)) by (rewrite length_map, length_seq; exact Hi).
  rewrite (map_nth f (seq 0 n) 0%nat i). rewrite seq_nth by exact Hi. reflexivity.
Qed.

(** The share of a work-group: zero and the speeds of the cells its
    work-items visit. *)
Definition group_share
    (N : Z) (L : nat) (G g : Z) (speed : Z -> xdouble) (x : xdouble) : Prop :=
  x = Fin 0
  \/ exists (lid : nat) (i : Z),
       (lid < L)%nat /\ (0 <= i)%Z
       /\ (g * Z.of_nat L + Z.of_nat lid + i * G < N)%Z
       /\ x = speed (g * Z.of_nat L + Z.of_nat lid + i * G)%Z.

(** Whatever the order of the work-items within the rounds is, a work-group
    of [2 ^ k] work-items writes the maximum of its share to its entry of the
    reduction buffer. *)
Lemma group_maximum :
  forall (DOMAIN_CELLCOUNT : Z) (QUITE_SMALL : R) (TIMESTEP_SIMPLIFIED : bool)
         (schedule : nat -> list nat) (k : nat) (ulGlobalSize ulGroupID : Z)
         (pCellData : buffer cl_double4) (dBedData : buffer R)
         (pReductionData : buffer xdouble),
    let uiLocalSize := (2 ^ k)%nat in
    fair uiLocalSize schedule ->
    (0 < ulGlobalSize)%Z ->
    (DOMAIN_CELLCOUNT + ulGlobalSize <= 2 ^ 64)%Z ->
    (0 <= ulGroupID)%Z ->
    is_max
      (group_share DOMAIN_CELLCOUNT uiLocalSize ulGlobalSize ulGroupID
         (cell_speed QUITE_SMALL TIMESTEP_SIMPLIFIED pCellData dBedData))
      (tst_Reduce DOMAIN_CELLCOUNT QUITE_SMALL TIMESTEP_SIMPLIFIED schedule uiLocalSize
         ulGlobalSize ulGroupID pCellData dBedData pReductionData ulGroupID).
Proof.
  intros N QS TS schedule k G g cells bed W L Hfair HG Hfit Hg.
  set (speed := cell_speed QS TS cells bed).
  set (f := fun lid : nat =>
              reduce_cells N QS TS (Z.to_nat N) G cells bed
                (g * Z.of_nat L + Z.of_nat lid) (Fin 0)).
  assert (HL : (0 < L)%nat).
  { unfold L. pose proof (Nat.pow_nonzero 2 k). lia. }
  assert (Hf : forall lid, is_max (strided N G speed (g * Z.of_nat L + Z.of_nat lid) (Fin 0))
                             (f lid)).
  { intro lid. apply reduce_cells_max; try assumption.
    - assert (0 <= g * Z.of_nat L)%Z by (apply Z.mul_nonneg_nonneg; lia). lia.
    - assert (0 <= g * Z.of_nat L)%Z by (apply Z.mul_nonneg_nonneg; lia).
      destruct (Z.le_gt_cases 0 N) as [HN|HN].
      + rewrite Z2Nat.id by exact HN.
        assert (N * 1 <= N * G)%Z by (apply Z.mul_le_mono_nonneg_l; lia). lia.
      + assert (Z.to_nat N = 0%nat) by lia. lia. }
  set (s0 := map f (seq 0 L)).
  assert (Hlen : length s0 = L) by (unfold s0; rewrite length_map, length_seq; reflexivity).
  destruct (entries_max_exists s0 L HL) as [m Hm].
  assert (Hres : load_local (reduce_rounds L schedule (L / 2) s0) 0 = m).
  { destruct k as [|k].
    - change L with 1%nat in *. cbn. destruct Hm as [(i & Hi & ->) _].
      assert (i = 0)%nat by lia. subst. reflexivity.
    - assert (Hhalf : (L / 2 = 2 ^ k)%nat).
      { unfold L. rewrite Nat.pow_succ_r', Nat.mul_comm. apply Nat.div_mul. lia. }
      rewrite Hhalf.
      apply (reduce_rounds_max L schedule Hfair k L s0 m Hlen).
      + unfold L. lia.
      + unfold L. pose proof (Nat.pow_gt_lin_r 2 (S k)). lia.
      + exact Hm. }
  unfold tst_Reduce. cbv zeta. fold f s0. unfold store. rewrite Z.eqb_refl, Hres.
  destruct Hm as [(lid & Hlid & Hml) Hub]. unfold s0 in Hml.
  rewrite load_local_map in Hml by exact Hlid.
  split.
  - destruct (Hf lid) as [[E | (i & Hi & Hlt & E)] _].
    + left. rewrite Hml. exact E.
    + right. exists lid, i. rewrite Hml. repeat split; assumption.
  - intros x [-> | (lid' & i & Hl & Hi & Hlt & ->)].
    + apply not_above_trans with (f 0%nat).
      * apply (Hf 0%nat). left. reflexivity.
      * apply Hub. exists 0%nat. split; [exact HL | unfold s0; symmetry; apply load_local_map; exact HL].
    + apply not_above_trans with (f lid').
      * apply (Hf lid'). right. exists i. repeat split; assumption.
      * apply Hub. exists lid'. split; [exact Hl | unfold s0; symmetry; apply load_local_map; exact Hl].
Qed.

(** Whatever the order of the work-items within the rounds is, a work-group
    of [2 ^ k] work-items writes to its entry of the reduction buffer the
    maximum of zero and the wave speeds of the cells its work-items visit:
    the first loop ends and the funnel of the second stage loses no value.
    Every other entry of the buffer is left as it was. *)
Theorem tst_Reduce_group_maximum :
  forall (DOMAIN_CELLCOUNT : Z) (QUITE_SMALL : R) (TIMESTEP_SIMPLIFIED : bool)
         (schedule : nat -> list nat) (k : nat) (ulGlobalSize ulGroupID : Z)
         (pCellData : buffer cl_double4) (dBedData : buffer R)
         (pReductionData : buffer xdouble),
    let pReductionData' :=
      tst_Reduce DOMAIN_CELLCOUNT QUITE_SMALL TIMESTEP_SIMPLIFIED schedule (2 ^ k)
        ulGlobalSize ulGroupID pCellData dBedData pReductionData in
    fair (2 ^ k) schedule ->
    (0 < ulGlobalSize)%Z ->
    (DOMAIN_CELLCOUNT + ulGlobalSize <= 2 ^ 64)%Z ->
    (0 <= ulGroupID)%Z ->
    is_max
      (group_share DOMAIN_CELLCOUNT (2 ^ k) ulGlobalSize ulGroupID
         (cell_speed QUITE_SMALL TIMESTEP_SIMPLIFIED pCellData dBedData))
      (pReductionData' ulGroupID)
    /\ forall j : Z, j <> ulGroupID -> pReductionData' j = pReductionData j.
Proof.
  intros N QS TS schedule k G g cells bed W W' Hfair HG Hfit Hg. split.
  - apply group_maximum; assumption.
  - intros j Hj. unfold W', tst_Reduce. cbv zeta. unfold store.
    destruct (Z.eqb_spec j g) as [E|_]; [contradiction | reflexivity].
Qed.

(** Two work-items, the second one first in every round. *)
Definition two_items : nat -> list nat := fun _ => [1; 0]%nat.

Lemma two_items_fair : fair 2 two_items.
Proof.
  intro iOffset. split.
  - unfold two_items. repeat constructor; cbn; intuition discriminate.
  - intro a. unfold two_items. cbn. lia.
Qed.

(** Three wet cells: a shallow one, a deep one and a fast one. *)
Definition three_cells : buffer cl_double4 :=
  fun i => if (i =? 0)%Z then mk4 1 1 0 0
           else if (i =? 1)%Z then mk4 4 4 0 0 else mk4 1 1 3 0.

Lemma tst_Reduce_group_maximum_witness :
  let pReductionData' :=
    tst_Reduce 3 (1 / 1000) false two_items (2 ^ 1) 2 0 three_cells (fun _ => 0)
      (fun _ => Fin 0) in
  is_max
    (group_share 3 (2 ^ 1) 2 0 (cell_speed (1 / 1000) false three_cells (fun _ => 0)))
    (pReductionData' 0%Z)
  /\ forall j : Z, j <> 0%Z -> pReductionData' j = Fin 0.
Proof.
  apply (tst_Reduce_group_maximum 3 (1 / 1000) false two_items 1 2 0 three_cells
           (fun _ => 0) (fun _ => Fin 0)).
  - exact two_items_fair.
  - lia.
  - vm_compute. discriminate.
  - lia.
Defined.

Section Launch.

Variables (N : Z) (QS : R) (TS : bool) (schedule : nat -> nat -> list nat).
Variables (L : nat) (G : Z) (cells : buffer cl_double4) (bed : buffer R).

Lemma tst_Reduce_own (g : nat) (W W' : buffer xdouble) :
  tst_Reduce N QS TS (schedule g) L G (Z.of_nat g) cells bed W (Z.of_nat g)
  = tst_Reduce N QS TS (schedule g) L G (Z.of_nat g) cells bed W' (Z.of_nat g).
Proof. unfold tst_Reduce, store. rewrite Z.eqb_refl. reflexivity. Qed.

Lemma tst_Reduce_other (g : nat) (W : buffer xdouble) (j : Z) :
  j <> Z.of_nat g ->
  tst_Reduce N QS TS (schedule g) L G (Z.of_nat g) cells bed W j = W j.
Proof.
  intro H. unfold tst_Reduce, store. apply Z.eqb_neq in H. rewrite H. reflexivity.
Qed.

Lemma launch_cons (a : nat) (l : list nat) (W : buffer xdouble) :
  tst_Reduce_launch N QS TS schedule (a :: l) L G cells bed W
  = tst_Reduce_launch N QS TS schedule l L G cells bed
      (tst_Reduce N QS TS (schedule a) L G (Z.of_nat a) cells bed W).
Proof. reflexivity. Qed.

Lemma launch_other (groups : list nat) :
  forall (W : buffer xdouble) (g : nat),
    ~ In g groups ->
    tst_Reduce_launch N QS TS schedule groups L G cells bed W (Z.of_nat g) = W (Z.of_nat g).
Proof.
  induction groups as [|a l IH]; intros W g Hg; [reflexivity|].
  rewrite launch_cons.
  rewrite IH by (intro H; apply Hg; right; exact H).
  apply tst_Reduce_other. intro E. apply Hg. left. lia.
Qed.

Lemma launch_entry (groups : list nat) :
  NoDup groups ->
  forall (W W' : buffer xdouble) (g : nat),
    In g groups ->
    tst_Reduce_launch N QS TS schedule groups L G cells bed W (Z.of_nat g)
    = tst_Reduce N QS TS (schedule g) L G (Z.of_nat g) cells bed W' (Z.of_nat g).
Proof.
  induction 1 as [|a l Hnotin Hnd IH]; intros W W' g Hg; [contradiction|].
  rewrite launch_cons.
  destruct Hg as [->|Hg].
  - rewrite launch_other by exact Hnotin. apply tst_Reduce_own.
  - apply IH. exact Hg.
Qed.

End Launch.

(** The loop of the controller over the reduction buffer leaves the maximum
    of zero and the entries of the workers. *)
Lemma max_speed_is_max (B : build) (W : buffer xdouble) :
  is_max (fun x => x = Fin 0
                   \/ exists g : nat, (g < TIMESTEP_WORKERS B)%nat /\ x = W (Z.of_nat g))
    (max_speed B W).
Proof.
  unfold max_speed.
  assert (H : forall (l : list nat) (acc : xdouble),
             is_max (fun x => x = acc \/ exists g, In g l /\ x = W (Z.of_nat g))
               (fold_left (fun dMaxSpeed i => fmax dMaxSpeed (W (Z.of_nat i))) l acc)).
  { induction l as [|a l IH]; intro acc; cbn [fold_left].
    - split; [left; reflexivity|]. intros x [->|(g & [] & _)]. apply not_above_refl.
    - destruct (IH (fmax acc (W (Z.of_nat a)))) as [Hin Hub]. split.
      + destruct Hin as [Hin|(g & Hg & Hx)].
        * destruct (fmax_sel acc (W (Z.of_nat a))) as [E|E].
          -- left. rewrite Hin. exact E.
          -- right. exists a. split; [left; reflexivity | rewrite Hin; exact E].
        * right. exists g. split; [right; exact Hg | exact Hx].
      + intros x [->|(g & [->|Hg] & ->)].
        * apply not_above_trans with (fmax acc (W (Z.of_nat a))); [apply not_above_fmax_l|].
          apply Hub. left. reflexivity.
        * apply not_above_trans with (fmax acc (W (Z.of_nat g))); [apply not_above_fmax_r|].
          apply Hub. left. reflexivity.
        * apply Hub. right. exists g. split; [exact Hg | reflexivity]. }
  eapply is_max_ext; [|apply H].
  intro x. split; intros [E|(g & Hg & E)]; try (left; exact E); right; exists g;
    (split; [|exact E]).
  - apply in_seq in Hg. lia.
  - apply in_seq. lia.
Qed.

(** After a launch of [tst_Reduce] with as many work-groups as the controller
    has workers, each of [2 ^ k] work-items, the maximum speed the controller
    computes from the reduction buffer is the maximum wave speed over all the
    cells of the domain (zero on a dry domain), whatever the order of the
    work-groups and of their work-items was. *)
Theorem reduction_gives_domain_maximum :
  forall (B : build) (DOMAIN_CELLCOUNT : Z) (QUITE_SMALL : R) (TIMESTEP_SIMPLIFIED : bool)
         (schedule : nat -> nat -> list nat) (groups : list nat) (k : nat)
         (pCellData : buffer cl_double4) (dBedData : buffer R)
         (pReductionData : buffer xdouble),
    let uiLocalSize := (2 ^ k)%nat in
    let ulGlobalSize := Z.of_nat (TIMESTEP_WORKERS B * uiLocalSize) in
    (forall g, fair uiLocalSize (schedule g)) ->
    NoDup groups ->
    (forall g, In g groups <-> (g < TIMESTEP_WORKERS B)%nat) ->
    (0 < TIMESTEP_WORKERS B)%nat ->
    (DOMAIN_CELLCOUNT + ulGlobalSize <= 2 ^ 64)%Z ->
    is_max
      (fun x =>
         x = Fin 0
         \/ exists c : Z,
              (0 <= c < DOMAIN_CELLCOUNT)%Z
              /\ x = cell_speed QUITE_SMALL TIMESTEP_SIMPLIFIED pCellData dBedData c)
      (max_speed B
         (tst_Reduce_launch DOMAIN_CELLCOUNT QUITE_SMALL TIMESTEP_SIMPLIFIED schedule groups
            uiLocalSize ulGlobalSize pCellData dBedData pReductionData)).
Proof.
  intros B N QS TS schedule groups k cells bed W L G Hfair Hnd Hall Hn Hfit.
  set (speed := cell_speed QS TS cells bed).
  set (W' := tst_Reduce_launch N QS TS schedule groups L G cells bed W).
  assert (HL : (0 < L)%nat).
  { unfold L. pose proof (Nat.pow_nonzero 2 k). lia. }
  assert (HG : (0 < G)%Z) by (unfold G; nia).
  assert (Hgrp : forall g, (g < TIMESTEP_WORKERS B)%nat ->
            is_max (group_share N L G (Z.of_nat g) speed) (W' (Z.of_nat g))).
  { intros g Hg. unfold W'.
    rewrite (launch_entry N QS TS schedule L G cells bed groups Hnd W W g)
      by (apply Hall; exact Hg).
    apply group_maximum; try assumption; [apply Hfair | lia]. }
  destruct (max_speed_is_max B W') as [Hin Hub].
  split.
  - destruct Hin as [E|(g & Hg & E)]; [left; exact E|].
    destruct (Hgrp g Hg) as [[E'|(lid & i & Hlid & Hi & Hlt & E')] _].
    + left. rewrite E. exact E'.
    + right. exists (Z.of_nat g * Z.of_nat L + Z.of_nat lid + i * G)%Z.
      split; [|rewrite E; exact E'].
      split; [|exact Hlt].
      assert (0 <= Z.of_nat g * Z.of_nat L)%Z by (apply Z.mul_nonneg_nonneg; lia).
      assert (0 <= i * G)%Z by (apply Z.mul_nonneg_nonneg; lia). lia.
  - intros x [->|(c & [Hc0 HcN] & ->)]; [apply Hub; left; reflexivity|].
    set (r := (c mod G)%Z).
    assert (Hr : (0 <= r < G)%Z) by (apply Z.mod_pos_bound; exact HG).
    assert (HLz : (0 < Z.of_nat L)%Z) by lia.
    set (g := Z.to_nat (r / Z.of_nat L)).
    set (lid := Z.to_nat (r mod Z.of_nat L)).
    assert (Hq : (0 <= r / Z.of_nat L)%Z) by (apply Z.div_pos; lia).
    assert (Hm : (0 <= r mod Z.of_nat L < Z.of_nat L)%Z) by (apply Z.mod_pos_bound; lia).
    assert (Hg : (g < TIMESTEP_WORKERS B)%nat).
    { unfold g. apply Nat2Z.inj_lt. rewrite Z2Nat.id by exact Hq.
      apply Z.div_lt_upper_bound; [lia|]. unfold G in Hr. lia. }
    assert (Hc : (c = Z.of_nat g * Z.of_nat L + Z.of_nat lid + (c / G) * G)%Z).
    { unfold g, lid. rewrite !Z2Nat.id by lia.
      pose proof (Z.div_mod c G) as H1. pose proof (Z.div_mod r (Z.of_nat L)) as H2.
      fold r in H1. lia. }
    apply not_above_trans with (W' (Z.of_nat g)).
    + apply (Hgrp g Hg). right. exists lid, (c / G)%Z.
      split; [unfold lid; lia|]. split; [apply Z.div_pos; lia|].
      rewrite <- Hc. split; [exact HcN | reflexivity].
    + apply Hub. right. exists g. split; [exact Hg | reflexivity].
Qed.

Lemma reduction_gives_domain_maximum_witness :
  is_max
    (fun x =>
       x = Fin 0
       \/ exists c : Z,
            (0 <= c < 3)%Z
            /\ x = cell_speed (1 / 1000) false three_cells (fun _ => 0) c)
    (max_speed square_unit_build
       (tst_Reduce_launch 3 (1 / 1000) false (fun _ => two_items)
          (rev (seq 0 (TIMESTEP_WORKERS square_unit_build))) (2 ^ 1)
          (Z.of_nat (TIMESTEP_WORKERS square_unit_build * 2 ^ 1))
          three_cells (fun _ => 0) (fun _ => Fin 0))).
Proof.
  apply (reduction_gives_domain_maximum square_unit_build 3 (1 / 1000) false
           (fun _ => two_items) (rev (seq 0 (TIMESTEP_WORKERS square_unit_build))) 1
           three_cells (fun _ => 0) (fun _ => Fin 0)).
  - intro g. exact two_items_fair.
  - apply NoDup_rev, seq_NoDup.
  - intro g. rewrite <- in_rev, in_seq. lia.
  - vm_compute. lia.
  - vm_compute. discriminate.
Defined.

End Exact.
